(** * Flight booking handlers: seat map, seat reservation and fare pricing

    A shallow embedding of [seat-map.js], [search-flights.js],
    [validate-passengers.js] and [payment-processor.js], with the
    properties of the specification that concern them and further
    properties of the code.

    - JavaScript numbers that carry money, seat counts and time stamps are
      IEEE 754 binary64 values: the kernel's primitive floats.
    - Row numbers, loop counters and calendar fields are small integers, on
      which binary64 arithmetic is exact: they are modelled in [Z].
    - The [Flights] table is a finite map from [flightId] to the flight
      record; the two store commands the handlers send are atomic
      operations on it.
    - An [async] function is a tree of store commands ([Async]), so that the
      points where other requests may run in between are explicit.
    - What the engine and the store decide beyond the code (the parsing of
      dates, the conversion of values to strings and numbers, what the
      store accepts and answers) is a parameter of the functions that
      depend on it. *)

From Stdlib Require Import ZArith PrimFloat SpecFloat FloatOps FloatAxioms.
From Stdlib Require Import Ascii String DecimalString.
From Stdlib Require Uint63.
From stdpp Require Import gmap strings list.

Set Warnings "-inexact-float".

(* ===================================================================== *)
(** * JavaScript primitives used by the handlers *)
(* ===================================================================== *)

Module JS.

(** [Array.prototype.includes] on arrays of strings or of integers:
    SameValueZero is equality there. *)
Definition includes {A : Type} `{EqDecision A} (l : list A) (x : A) : bool :=
  bool_decide (x ∈ l).

(** [Array.prototype.push]: the array grows at its end. *)
Definition push {A : Type} (l : list A) (x : A) : list A := l ++ [x].

(** [for (let i = lo; i < lo + n; i++) body], threading the state the body
    mutates. *)
Definition for_loop {S : Type} (lo : Z) (n : nat) (body : Z → S → S) (s : S) : S :=
  fold_left (λ acc i, body i acc) (seqZ lo (Z.of_nat n)) s.

(** [String.fromCharCode] on a code below 256. *)
Definition fromCharCode (n : Z) : string :=
  String (Ascii.ascii_of_N (Z.to_N n)) EmptyString.

(** [`${n}`] for an integer [n]. *)
Definition toString (n : Z) : string := NilZero.string_of_int (Z.to_int n).

(** ** [parseInt] with no radix argument

    [None] is [NaN].  Leading white space is skipped (among the code units
    below 256: 9 to 13, 32 and 160), a sign is read, a [0x] prefix selects
    radix 16, and the longest prefix of digits is converted.  The result is
    exact below [2^53]. *)
Definition is_white_space (c : ascii) : bool :=
  let n := Ascii.N_of_ascii c in
  ((9 <=? n)%N && (n <=? 13)%N) || (n =? 32)%N || (n =? 160)%N.

Fixpoint skip_white_space (s : string) : string :=
  match s with
  | String c rest => if is_white_space c then skip_white_space rest else s
  | EmptyString => s
  end.

Definition digit_value (radix : Z) (c : ascii) : option Z :=
  let n := Z.of_N (Ascii.N_of_ascii c) in
  let v :=
    if (48 <=? n)%Z && (n <=? 57)%Z then Some (n - 48)%Z
    else if (97 <=? n)%Z && (n <=? 122)%Z then Some (n - 87)%Z
    else if (65 <=? n)%Z && (n <=? 90)%Z then Some (n - 55)%Z
    else None in
  match v with
  | Some d => if (d <? radix)%Z then Some d else None
  | None => None
  end.

Fixpoint read_digits (radix : Z) (s : string) (acc : option Z) : option Z :=
  match s with
  | String c rest =>
      match digit_value radix c with
      | Some d => read_digits radix rest (Some (radix * default 0%Z acc + d)%Z)
      | None => acc
      end
  | EmptyString => acc
  end.

Definition parseInt (s : string) : option Z :=
  let s1 := skip_white_space s in
  let '(sign, s2) :=
    match s1 with
    | String "-"%char rest => ((-1)%Z, rest)
    | String "+"%char rest => (1%Z, rest)
    | _ => (1%Z, s1)
    end in
  let '(radix, s3) :=
    match s2 with
    | String "0"%char (String "x"%char rest) => (16%Z, rest)
    | String "0"%char (String "X"%char rest) => (16%Z, rest)
    | _ => (10%Z, s2)
    end in
  Z.mul sign <$> read_digits radix s3 None.

(** ** Regular expressions, as far as the seat pattern needs them

    [run r s] lists the rests of [s] after every way [r] matches a prefix
    of [s]; a pattern written between [^] and [$] (without the [m] flag)
    has to consume the whole string. *)
Inductive regex : Type :=
| Range (lo hi : ascii)
| Cat (r1 r2 : regex)
| Opt (r : regex).

Definition in_range (lo hi c : ascii) : bool :=
  (Ascii.N_of_ascii lo <=? Ascii.N_of_ascii c)%N
  && (Ascii.N_of_ascii c <=? Ascii.N_of_ascii hi)%N.

Fixpoint run (r : regex) (s : string) : list string :=
  match r with
  | Range lo hi =>
      match s with
      | String c rest => if in_range lo hi c then [rest] else []
      | EmptyString => []
      end
  | Cat r1 r2 => flat_map (run r2) (run r1 s)
  | Opt r1 => run r1 s ++ [s]
  end.

(** [/^r$/.test(s)] *)
Definition test (r : regex) (s : string) : bool :=
  existsb (λ rest, bool_decide (rest = EmptyString)) (run r s).

(** ** Numbers: [Math.floor], [Math.ceil], [Math.round]

    A finite binary64 value other than zero is [±m × 2^e] for a positive
    whole number [m] and a whole number [e], which [Prim2SF] gives.  With
    [0 ≤ e] it is a whole number; otherwise it lies below [2^53] in
    magnitude, and so do its floor, its ceiling and the nearest whole
    number, on which the conversion from an integer is exact.  [NaN], the
    infinities and both zeros are returned as they are. *)
Definition isNaN (x : float) : bool := negb (PrimFloat.eqb x x).

(** [±m] *)
Definition signed (negative : bool) (m : positive) : Z :=
  if negative then Z.neg m else Z.pos m.

(** The whole number [±p], for a [p] of at most 53 binary digits, as
    mantissa and exponent: the digits of [p] at the left end of the 53
    digits of the mantissa, and the exponent that makes up for it. *)
Definition whole_pos (negative : bool) (p : positive) : spec_float :=
  let digits := Z.pos (digits2_pos p) in
  if (digits <=? 53)%Z
  then S754_finite negative (Pos.shiftl p (Z.to_N (53 - digits))) (digits - 53)
  else S754_finite negative p 0.

(** The binary64 value of the whole number [n], for [|n| < 2^53]; the zero
    has the sign [negative]. *)
Definition whole (negative : bool) (n : Z) : float :=
  SF2Prim match n with
          | Z0 => S754_zero negative
          | Z.pos p => whole_pos false p
          | Z.neg p => whole_pos true p
          end.

(** [Math.floor]: the greatest whole number that is not above [x]. *)
Definition floor (x : float) : float :=
  match Prim2SF x with
  | S754_finite s m e =>
      if (0 <=? e)%Z then x else whole false (signed s m / 2 ^ (- e))%Z
  | _ => x
  end.

(** [Math.ceil]: the least whole number that is not below [x]; [-0] for an
    [x] between [-1] and [0]. *)
Definition ceil (x : float) : float :=
  match Prim2SF x with
  | S754_finite s m e =>
      if (0 <=? e)%Z then x else whole s (- (- signed s m / 2 ^ (- e)))%Z
  | _ => x
  end.

(** [Math.round]: the nearest whole number, a tie going towards [+∞]; [-0]
    for an [x] from [-0.5] to [0]. *)
Definition round (x : float) : float :=
  match Prim2SF x with
  | S754_finite s m e =>
      if (0 <=? e)%Z then x
      else whole s ((2 * signed s m + 2 ^ (- e)) / 2 ^ (1 - e))%Z
  | _ => x
  end.

End JS.

(* ===================================================================== *)
(** * Data model *)
(* ===================================================================== *)

(** An item of the [Flights] table, without its key [flightId] (the key of
    the table below).  Every attribute the handlers read is present; lists
    are the store's lists, in their stored order. *)
Record Flight : Type := mkFlight {
  totalSeats : float;
  availableSeats : float;
  occupiedSeats : list string;
  emergencyExitRows : list Z;
  premiumSeats : list string;
  premiumSeatCost : float;
  basePrice : float;
  (** the time value of [new Date(flight.departureTime)], in milliseconds;
      [NaN] for an invalid date *)
  departureTime : float
}.

(** What a JavaScript [Date] shows through [getFullYear], [getMonth] (from
    0) and [getDate], in local time. *)
Record Date : Type := mkDate {
  getFullYear : Z;
  getMonth : Z;
  getDate : Z
}.

(** A passenger record; [dateOfBirth] is [new Date(passenger.dateOfBirth)],
    [None] when that is an invalid date (all its fields are [NaN]). *)
Record Passenger : Type := mkPassenger {
  dateOfBirth : option Date
}.

(** Errors that are thrown: by the source ([new Error(message)]), by the
    engine, or by the store client when it rejects a command. *)
Inductive Error : Type :=
| JsError (message : string)
| TypeError (message : string)
| SyntaxError (message : string)
| StoreError (name : string) (message : string).

Definition error_name (e : Error) : string :=
  match e with
  | JsError _ => "Error"
  | TypeError _ => "TypeError"
  | SyntaxError _ => "SyntaxError"
  | StoreError name _ => name
  end.

Definition error_message (e : Error) : string :=
  match e with
  | JsError m | TypeError m | SyntaxError m | StoreError _ m => m
  end.

(** A computation returns or throws. *)
Inductive Result (A : Type) : Type :=
| Ok (a : A)
| Throw (e : Error).
Arguments Ok {A} a.
Arguments Throw {A} e.

(* ===================================================================== *)
(** * The store and asynchronous functions *)
(* ===================================================================== *)

Module Store.

(** The [Flights] table. *)
Abbreviation Table := (gmap string Flight).

(** An [async] function: it settles, or it awaits one of the two commands
    sent to the document client and goes on with what the command
    settles to. *)
Inductive Async (A : Type) : Type :=
| Settle (r : Result A)
| SendGet (flightId : string) (k : Result (option Flight) → Async A)
| SendUpdate (flightId : string) (seats : list string) (k : Result unit → Async A).
Arguments Settle {A} r.
Arguments SendGet {A} flightId k.
Arguments SendUpdate {A} flightId seats k.

Fixpoint bind {A B : Type} (p : Async A) (f : A → Async B) : Async B :=
  match p with
  | Settle (Ok a) => f a
  | Settle (Throw e) => Settle (Throw e)
  | SendGet flightId k => SendGet flightId (λ r, bind (k r) f)
  | SendUpdate flightId seats k => SendUpdate flightId seats (λ r, bind (k r) f)
  end.

(** [try { p } catch (error) { h error }] *)
Fixpoint try_catch {A : Type} (p : Async A) (h : Error → Async A) : Async A :=
  match p with
  | Settle (Ok a) => Settle (Ok a)
  | Settle (Throw e) => h e
  | SendGet flightId k => SendGet flightId (λ r, try_catch (k r) h)
  | SendUpdate flightId seats k => SendUpdate flightId seats (λ r, try_catch (k r) h)
  end.

Definition ret {A : Type} (a : A) : Async A := Settle (Ok a).
Definition throw {A : Type} (e : Error) : Async A := Settle (Throw e).

Notation "'let*' x := p 'in' q" := (bind p (λ x, q))
  (at level 10, x name, p at level 100, q at level 200, only parsing).

(** The store carries out every command it is sent: a failure of the store
    itself is a [Throw] that the functions below pass on, but that [step]
    and [run] never produce.

    [GetCommand] with [Key: { flightId }]: the item, if there is one. *)
Definition get_item (t : Table) (flightId : string) : Result (option Flight) :=
  Ok (t !! flightId).

(** [SET occupiedSeats = list_append(occupiedSeats, :seats)] on an item. *)
Definition append_occupied (flight : Flight) (seats : list string) : Flight :=
  {| totalSeats := totalSeats flight;
     availableSeats := availableSeats flight;
     occupiedSeats := occupiedSeats flight ++ seats;
     emergencyExitRows := emergencyExitRows flight;
     premiumSeats := premiumSeats flight;
     premiumSeatCost := premiumSeatCost flight;
     basePrice := basePrice flight;
     departureTime := departureTime flight |}.

Definition ConditionalCheckFailed : Error :=
  StoreError "ConditionalCheckFailedException" "The conditional request failed".

(** [UpdateCommand] with that update expression and the condition
    [attribute_exists(flightId)]: one atomic step of the store.  The key
    attribute exists exactly when the item does. *)
Definition update_item (t : Table) (flightId : string) (seats : list string)
  : Result unit * Table :=
  match t !! flightId with
  | Some flight => (Ok tt, <[flightId := append_occupied flight seats]> t)
  | None => (Throw ConditionalCheckFailed, t)
  end.

(** One command of [p] is carried out on the table. *)
Definition step {A : Type} (p : Async A) (t : Table) : Async A * Table :=
  match p with
  | Settle r => (Settle r, t)
  | SendGet flightId k => (k (get_item t flightId), t)
  | SendUpdate flightId seats k =>
      let '(r, t') := update_item t flightId seats in (k r, t')
  end.

(** [p] runs to its end with no other request in between. *)
Fixpoint run {A : Type} (p : Async A) (t : Table) : Result A * Table :=
  match p with
  | Settle r => (r, t)
  | SendGet flightId k => run (k (get_item t flightId)) t
  | SendUpdate flightId seats k =>
      let '(r, t') := update_item t flightId seats in run (k r) t'
  end.

(** Two requests in flight at once: the schedule says whose next command
    the store carries out ([true]: the first one's); when the schedule is
    used up, or one of the two has settled, what is left runs to its
    end. *)
Fixpoint interleave {A B : Type} (schedule : list bool)
    (p : Async A) (q : Async B) (t : Table) : Result A * Result B * Table :=
  match schedule with
  | [] =>
      let '(a, t1) := run p t in
      let '(b, t2) := run q t1 in (a, b, t2)
  | true :: schedule' =>
      match p with
      | Settle a => let '(b, t') := run q t in (a, b, t')
      | _ => let '(p', t') := step p t in interleave schedule' p' q t'
      end
  | false :: schedule' =>
      match q with
      | Settle b => let '(a, t') := run p t in (a, b, t')
      | _ => let '(q', t') := step q t in interleave schedule' p q' t'
      end
  end.

End Store.

(* ===================================================================== *)
(** * [seat-map.js] *)
(* ===================================================================== *)

Module SeatMap.
Import JS Store.

(** ** Requests and responses *)

(** A request field the handler tests with [!field] and [Array.isArray]:
    a falsy value (absent, [null], [""], ...), a truthy value that is not
    an array, or an array. *)
Inductive Field (A : Type) : Type :=
| Falsy
| NotArray
| Array (items : list A).
Arguments Falsy {A}.
Arguments NotArray {A}.
Arguments Array {A} items.

(** The parsed request body.  [flightId] is a string when present;
    [passengers] is an array of passenger records when present. *)
Record RequestData : Type := mkRequestData {
  action : option string;
  flightId : option string;
  seats : Field string;
  passengers : option (list Passenger)
}.

(** [event.body] after [JSON.parse]: text that does not parse, a body that
    is absent ([undefined]), a body that is [null], or the request data. *)
Inductive Body : Type :=
| Malformed (message : string)
| Absent
| Null
| Parsed (requestData : RequestData).

Record Event : Type := mkEvent {
  httpMethod : option string;
  (** [event.requestContext?.http?.method] *)
  requestContext_http_method : option string;
  event_body : Body
}.

Inductive Status : Type := available | occupied.

Record Seat : Type := mkSeat {
  id : string;
  number : string;
  status : Status;
  isEmergencyExit : bool;
  isPremium : bool
}.

(** The object given to [JSON.stringify] as the body of a response. *)
Inductive ResponseBody : Type :=
| EmptyBody
| ErrorBody (error : string) (details : option string)
| SeatMapBody (seats : list Seat) (exitRows : list Z) (premium : list string)
| ReservedBody (success : bool) (seatAssignments : list string) (additionalCost : float).

Record Response : Type := mkResponse {
  statusCode : Z;
  headers : list (string * string);
  body : ResponseBody
}.

Definition createResponse (statusCode : Z) (body : ResponseBody) : Response :=
  {| statusCode := statusCode;
     headers :=
       [("Access-Control-Allow-Origin",
         "http://my-ssoffice-bucket.s3-website-us-east-1.amazonaws.com");
        ("Access-Control-Allow-Credentials", "true");
        ("Access-Control-Allow-Headers",
         "Content-Type,X-Amz-Date,Authorization,X-Api-Key,X-Amz-Security-Token");
        ("Access-Control-Allow-Methods", "OPTIONS,POST");
        ("Content-Type", "application/json")];
     body := body |}.

Definition optionsResponse : Response :=
  {| statusCode := 200;
     headers :=
       [("Access-Control-Allow-Origin",
         "http://my-ssoffice-bucket.s3-website-us-east-1.amazonaws.com");
        ("Access-Control-Allow-Headers",
         "Content-Type,X-Amz-Date,Authorization,X-Api-Key,X-Amz-Security-Token");
        ("Access-Control-Allow-Methods", "POST,OPTIONS")];
     body := EmptyBody |}.

(** ** The seat map *)

Definition generateSeatMap (flight : Flight) : list Seat :=
  let rows := 30 in
  let seatsPerRow := 6 in
  for_loop 1 rows (λ row seatMap,
    for_loop 0 seatsPerRow (λ seatNum seatMap,
      let seatLetter := fromCharCode (65 + seatNum) in
      let seatId := toString row +:+ seatLetter in
      push seatMap
        {| id := seatId;
           number := seatId;
           status := if includes (occupiedSeats flight) seatId
                     then occupied else available;
           isEmergencyExit := includes (emergencyExitRows flight) row;
           isPremium := includes (premiumSeats flight) seatId |})
      seatMap)
    [].

Definition getSeatMap (flightId : string) : Async ResponseBody :=
  try_catch
    (SendGet flightId (λ r,
       match r with
       | Throw e => throw e
       | Ok None => throw (JsError "Flight not found")
       | Ok (Some flight) =>
           ret (SeatMapBody (generateSeatMap flight)
                            (emergencyExitRows flight) (premiumSeats flight))
       end))
    (λ error, throw error).

Definition getFlight (flightId : string) : Async Flight :=
  SendGet flightId (λ r,
    match r with
    | Throw e => throw e
    | Ok None => throw (JsError "Flight not found")
    | Ok (Some flight) => ret flight
    end).

Definition reserveSeats (flightId : string) (seats : list string) : Async unit :=
  try_catch
    (SendUpdate flightId seats (λ r,
       match r with
       | Throw e => throw e
       | Ok _ => ret tt
       end))
    (λ error,
       if bool_decide (error_name error = "ConditionalCheckFailedException")
       then throw (JsError "Concurrent seat reservation detected")
       else throw error).

(** ** Validation *)

(** [/^[1-9]\d?[A-F]$/] *)
Definition seatPattern : regex :=
  Cat (Range "1" "9") (Cat (Opt (Range "0" "9")) (Range "A" "F")).

Definition validateSeatSelection (seats : Field string) (passengers : list Passenger) : bool :=
  match seats with
  | Array seats =>
      if (length seats =? 0)%nat then true
      else if (length passengers <? length seats)%nat then false
      else forallb (λ seat, test seatPattern seat) seats
  | _ => false
  end.

(** [flight.occupiedSeats && ...]: an array, empty or not, is truthy. *)
Definition validateSeatAvailability (seats : list string) (flight : Flight) : bool :=
  if (length seats =? 0)%nat then true
  else
    let unavailableSeats := filter (λ seat, includes (occupiedSeats flight) seat = true) seats in
    if (0 <? length unavailableSeats)%nat then false else true.

Definition calculateAge (today : Date) (dateOfBirth : option Date) : option Z :=
  match dateOfBirth with
  | None => None
  | Some birthDate =>
      let age := (getFullYear today - getFullYear birthDate)%Z in
      let monthDiff := (getMonth today - getMonth birthDate)%Z in
      if (monthDiff <? 0)%Z
         || ((monthDiff =? 0)%Z && (getDate today <? getDate birthDate)%Z)
      then Some (age - 1)%Z
      else Some age
  end.

(** A comparison with [NaN] is false. *)
Definition isEligibleForEmergencyRow (today : Date) (passenger : Passenger) : bool :=
  match calculateAge today (dateOfBirth passenger) with
  | Some age => (15 <=? age)%Z && (age <=? 75)%Z
  | None => false
  end.

(** [Array.prototype.every] with a callback that takes the index and may
    throw: it stops at the first [false] and at the first exception. *)
Fixpoint every {A : Type} (f : A → nat → Result bool) (l : list A) (index : nat)
  : Result bool :=
  match l with
  | [] => Ok true
  | x :: rest =>
      match f x index with
      | Ok true => every f rest (S index)
      | Ok false => Ok false
      | Throw e => Throw e
      end
  end.

(** The row is [parseInt(seat)]; no stored row is [NaN], and the array
    [flight.emergencyExitRows] is truthy.  Reading [dateOfBirth] of a
    passenger that is not there is a [TypeError]. *)
Definition validateEmergencyExitRows (today : Date)
    (seats : list string) (passengers : list Passenger) (flight : Flight) : Result bool :=
  if (length seats =? 0)%nat then Ok true
  else
    every (λ seat index,
      let row := parseInt seat in
      if match row with
         | Some row => includes (emergencyExitRows flight) row
         | None => false
         end
      then
        match passengers !! index with
        | Some passenger => Ok (isEligibleForEmergencyRow today passenger)
        | None => Throw (TypeError "Cannot read properties of undefined (reading 'dateOfBirth')")
        end
      else Ok true) seats 0.

Definition calculateSeatCost (seats : list string) (flight : Flight) : float :=
  fold_left (λ total seat,
    if includes (premiumSeats flight) seat
    then (total + premiumSeatCost flight)%float
    else total) seats 0%float.

(** ** The handler *)

Definition truthy (s : option string) : bool :=
  match s with
  | Some s => negb (bool_decide (s = ""))
  | None => false
  end.

(** [!field] *)
Definition is_falsy {A : Type} (field : Field A) : bool :=
  match field with
  | Falsy => true
  | _ => false
  end.

(** The elements of a field that passed [Array.isArray]. *)
Definition items {A : Type} (field : Field A) : list A :=
  match field with
  | Array items => items
  | _ => []
  end.

(** A synchronous call inside the [async] handler. *)
Definition lift {A : Type} (r : Result A) : Async A := Settle r.

Definition handler (today : Date) (event : Event) : Async Response :=
  try_catch
    (let* requestData :=
       match event_body event with
       | Malformed message => throw (SyntaxError message)
       | Absent => ret (inl "undefined")
       | Null => ret (inl "null")
       | Parsed requestData => ret (inr requestData)
       end in
     if bool_decide (httpMethod event = Some "OPTIONS") then ret optionsResponse
     else if negb (bool_decide (httpMethod event = Some "POST"))
             && negb (bool_decide (requestContext_http_method event = Some "POST"))
     then ret (createResponse 405 (ErrorBody "Method not allowed" None))
     else
       match requestData with
       | inl nothing =>
           throw (TypeError ("Cannot read properties of " +:+ nothing
                             +:+ " (reading 'action')"))
       | inr requestData =>
           if bool_decide (action requestData = Some "getSeatMap") then
             if negb (truthy (flightId requestData))
             then ret (createResponse 400 (ErrorBody "Flight ID is required" None))
             else
               let* seatMap := getSeatMap (default "" (flightId requestData)) in
               ret (createResponse 200 seatMap)
           else if bool_decide (action requestData = Some "reserveSeats") then
             let flightId := flightId requestData in
             let seats := seats requestData in
             let passengers := passengers requestData in
             if negb (truthy flightId) || is_falsy seats || negb (bool_decide (is_Some passengers))
             then ret (createResponse 400 (ErrorBody
               "Missing required fields: flightId, seats, and passengers are required" None))
             else
               let flightId := default "" flightId in
               let passengers := default [] passengers in
               if negb (validateSeatSelection seats passengers)
               then ret (createResponse 400 (ErrorBody "Invalid seat selection" None))
               else
                 let seats := items seats in
                 let* flight := getFlight flightId in
                 if negb (validateSeatAvailability seats flight)
                 then ret (createResponse 409 (ErrorBody
                   "Selected seats are no longer available" None))
                 else
                   let* eligible :=
                     lift (validateEmergencyExitRows today seats passengers flight) in
                   if negb eligible
                   then ret (createResponse 400 (ErrorBody
                     "Invalid emergency exit row selection" None))
                   else
                     let* _ := reserveSeats flightId seats in
                     let totalCost := calculateSeatCost seats flight in
                     ret (createResponse 200 (ReservedBody true seats totalCost))
           else ret (createResponse 400 (ErrorBody "Invalid action specified" None))
       end)
    (λ error,
       ret (createResponse 500
              (ErrorBody "Internal server error" (Some (error_message error))))).

#[global] Arguments truthy : simpl never.
#[global] Arguments validateSeatSelection : simpl never.
#[global] Arguments validateSeatAvailability : simpl never.
#[global] Arguments validateEmergencyExitRows : simpl never.
#[global] Arguments calculateSeatCost : simpl never.
#[global] Arguments generateSeatMap : simpl never.
#[global] Arguments createResponse : simpl never.

(** ** Words of the specification *)

(** The column letters of the fixed layout. *)
Definition letters : list string := ["A"; "B"; "C"; "D"; "E"; "F"].

(** A [POST] request that is not an [OPTIONS] request. *)
Definition is_post (event : Event) : Prop :=
  httpMethod event ≠ Some "OPTIONS"
  ∧ (httpMethod event = Some "POST" ∨ requestContext_http_method event = Some "POST").

(** The request [{ action: 'getSeatMap', flightId }]. *)
Definition seat_map_request (event : Event) (flightId : string) : Prop :=
  is_post event ∧ flightId ≠ ""
  ∧ ∃ requestData,
      event_body event = Parsed requestData
      ∧ action requestData = Some "getSeatMap"
      ∧ SeatMap.flightId requestData = Some flightId.

(** The request [{ action: 'reserveSeats', flightId, seats, passengers }]
    with an array of seat ids and an array of passengers. *)
Definition reserve_request (event : Event) (flightId : string)
    (seats : list string) (passengers : list Passenger) : Prop :=
  is_post event ∧ flightId ≠ ""
  ∧ event_body event =
      Parsed {| action := Some "reserveSeats";
                SeatMap.flightId := Some flightId;
                SeatMap.seats := Array seats;
                SeatMap.passengers := Some passengers |}.

(** A [reserveSeats] request for the flight [flightId], whatever it has as
    seats and as passengers. *)
Definition reserve_request_any (event : Event) (flightId : string)
    (seats : Field string) (passengers : option (list Passenger)) : Prop :=
  is_post event ∧ flightId ≠ ""
  ∧ event_body event =
      Parsed {| action := Some "reserveSeats";
                SeatMap.flightId := Some flightId;
                SeatMap.seats := seats;
                SeatMap.passengers := passengers |}.

(** The day [year1-month1-day1] is not after the day [year2-month2-day2]. *)
Definition day_le (year1 month1 day1 year2 month2 day2 : Z) : Prop :=
  (year1 < year2
   ∨ (year1 = year2 ∧ (month1 < month2 ∨ (month1 = month2 ∧ day1 ≤ day2))))%Z.

(** Whole years elapsed: the birthday number [age] is today or earlier, the
    next one is still to come. *)
Definition whole_years (today birthDate : Date) (age : Z) : Prop :=
  day_le (getFullYear birthDate + age) (getMonth birthDate) (getDate birthDate)
         (getFullYear today) (getMonth today) (getDate today)
  ∧ ¬ day_le (getFullYear birthDate + age + 1) (getMonth birthDate) (getDate birthDate)
             (getFullYear today) (getMonth today) (getDate today).

(** The status classification of a response. *)
Inductive Classification : Type :=
| Success
| BadInput
| MethodNotAllowed
| NotFound
| Conflict
| Internal
| Unclassified.

Definition classification (response : Response) : Classification :=
  let code := statusCode response in
  if (code =? 200)%Z then Success
  else if (code =? 400)%Z then BadInput
  else if (code =? 404)%Z then NotFound
  else if (code =? 405)%Z then MethodNotAllowed
  else if (code =? 409)%Z then Conflict
  else if (code =? 500)%Z then Internal
  else Unclassified.

End SeatMap.

(* ===================================================================== *)
(** * [search-flights.js]: dynamic pricing *)
(* ===================================================================== *)

Module SearchFlights.
Import JS.

(** [{ ...flight, price }] *)
Record PricedFlight : Type := mkPricedFlight {
  flight : Flight;
  price : float
}.

(** [new Date(flight.departureTime) - today], in days, rounded up. *)
Definition daysUntilFlight (today : float) (flight : Flight) : float :=
  let flightDate := departureTime flight in
  ceil ((flightDate - today) / (1000 * 60 * 60 * 24))%float.

Definition occupancyRate (flight : Flight) : float :=
  ((totalSeats flight - availableSeats flight) / totalSeats flight)%float.

(** [today] is the time value of [new Date()]. *)
Definition applyDynamicPricing (today : float) (flights : list Flight) : list PricedFlight :=
  map (λ flight,
    let daysUntilFlight := daysUntilFlight today flight in
    let priceMultiplier := 1.0%float in
    let priceMultiplier :=
      if PrimFloat.leb daysUntilFlight 7 then (priceMultiplier * 1.3)%float
      else if PrimFloat.leb daysUntilFlight 14 then (priceMultiplier * 1.2)%float
      else if PrimFloat.leb daysUntilFlight 30 then (priceMultiplier * 1.1)%float
      else priceMultiplier in
    let occupancyRate := occupancyRate flight in
    let priceMultiplier :=
      if PrimFloat.ltb 0.8 occupancyRate then (priceMultiplier * 1.4)%float
      else if PrimFloat.ltb 0.6 occupancyRate then (priceMultiplier * 1.2)%float
      else priceMultiplier in
    {| flight := flight;
       price := (round (basePrice flight * priceMultiplier * 100) / 100)%float |})
    flights.

(** ** The fare as the specification words it

    A time factor and an occupancy factor, multiplied, applied to the base
    price, and the product rounded to two decimals. *)
Definition timeFactor (days : float) : float :=
  if PrimFloat.leb days 7 then 1.3%float
  else if PrimFloat.leb days 14 then 1.2%float
  else if PrimFloat.leb days 30 then 1.1%float
  else 1.0%float.

Definition occupancyFactor (occupancy : float) : float :=
  if PrimFloat.ltb 0.8 occupancy then 1.4%float
  else if PrimFloat.ltb 0.6 occupancy then 1.2%float
  else 1.0%float.

(** One day, in milliseconds. *)
Definition day : float := 86400000.

(** The days from [now] to the departure, a started day counting as a
    whole one. *)
Definition days_to_departure (now : float) (flight : Flight) : float :=
  ceil ((departureTime flight - now) / day)%float.

(** The occupancy: the share of the seats that are not available. *)
Definition occupancy (flight : Flight) : float :=
  ((totalSeats flight - availableSeats flight) / totalSeats flight)%float.

(** The float [r] is the whole number [n]; when that is zero, [r] is the
    zero with the sign [negative]. *)
Definition is_whole (r : float) (negative : bool) (n : Z) : Prop :=
  match Prim2SF r with
  | S754_zero s => n = 0%Z ∧ s = negative
  | S754_finite s m e =>
      if (e <? 0)%Z then (signed s m = n * 2 ^ (- e))%Z
      else (n = signed s m * 2 ^ e)%Z
  | _ => False
  end.

(** [r] is the least whole number that is not below [x]. For the finite
    [x = ±m × 2^e] with [e < 0] that is the whole number [n] with
    [n - 1 < ±m × 2^e ≤ n], a zero having the sign of [x]; every other [x]
    is a whole number, a zero, an infinity or [NaN], and stays as it is. *)
Definition least_whole_above (x r : float) : Prop :=
  match Prim2SF x with
  | S754_finite s m e =>
      if (e <? 0)%Z
      then ∃ n : Z, is_whole r s n
                    ∧ ((n - 1) * 2 ^ (- e) < signed s m ≤ n * 2 ^ (- e))%Z
      else r = x
  | _ => r = x
  end.

(** [r] is the whole number nearest to [x], the upper one of two that are
    equally near. For the finite [x = ±m × 2^e] with [e < 0] that is the
    whole number [n] with [n - 1/2 ≤ ±m × 2^e < n + 1/2], a zero having
    the sign of [x]; every other [x] stays as it is. *)
Definition nearest_whole (x r : float) : Prop :=
  match Prim2SF x with
  | S754_finite s m e =>
      if (e <? 0)%Z
      then ∃ n : Z, is_whole r s n
                    ∧ ((2 * n - 1) * 2 ^ (- e) ≤ 2 * signed s m
                       < (2 * n + 1) * 2 ^ (- e))%Z
      else r = x
  | _ => r = x
  end.

(** [fare] is the fare of the flight at the time [now]: the base price
    times the product of the two factors, in hundredths rounded to the
    nearest whole number. *)
Definition is_fare (now : float) (flight : Flight) (fare : float) : Prop :=
  ∃ hundredths : float,
    nearest_whole
      (basePrice flight
       * (timeFactor (days_to_departure now flight)
          * occupancyFactor (occupancy flight)) * 100)%float
      hundredths
    ∧ fare = (hundredths / 100)%float.

(** The occupancy factor for whole numbers of seats, in exact arithmetic:
    more than four fifths of the seats taken, more than three fifths, or
    less. *)
Definition exact_occupancy_factor (total available : Z) : float :=
  if (4 * total <? 5 * (total - available))%Z then 1.4%float
  else if (3 * total <? 5 * (total - available))%Z then 1.2%float
  else 1.0%float.

(** The check of the two thresholds for [total] seats of which [available]
    are available. *)
Definition thresholds_exact (total available : Z) : bool :=
  let rate := ((whole false total - whole false available) / whole false total)%float in
  Bool.eqb (PrimFloat.ltb 0.8 rate) (4 * total <? 5 * (total - available))%Z
  && Bool.eqb (PrimFloat.ltb 0.6 rate) (3 * total <? 5 * (total - available))%Z.

End SearchFlights.

(* ===================================================================== *)
(** * Sample data *)
(* ===================================================================== *)

Module Examples.
Import Store SeatMap.

(** A flight with one occupied seat, emergency exits in rows 12 and 13 and
    two premium seats. *)
Definition flight1 : Flight :=
  mkFlight 180 170 ["1A"] [12%Z; 13%Z] ["1B"; "2A"] 25 200 1700432000000.

Definition table1 : Table := {[ "F1" := flight1 ]}.

(** [new Date()] on 15 June 2024 (months count from 0). *)
Definition today1 : Date := mkDate 2024 5 15.

Definition bornOn (year month day : Z) : Passenger :=
  mkPassenger (Some (mkDate year month day)).

Definition postEvent (requestData : RequestData) : Event :=
  {| httpMethod := Some "POST";
     requestContext_http_method := None;
     event_body := Parsed requestData |}.

Definition seatMapEvent (flightId : string) : Event :=
  postEvent {| action := Some "getSeatMap";
               SeatMap.flightId := Some flightId;
               seats := Falsy;
               passengers := None |}.

Definition reserveEvent (flightId : string) (seats : list string)
    (passengers : list Passenger) : Event :=
  postEvent {| action := Some "reserveSeats";
               SeatMap.flightId := Some flightId;
               SeatMap.seats := Array seats;
               SeatMap.passengers := Some passengers |}.

End Examples.

(* ===================================================================== *)
(** * Patterns of the form checks *)
(* ===================================================================== *)

(** In the modules below a string is a sequence of UTF-16 code units below
    256, one per character of the type [ascii]. *)

Module Pattern.

(** A character class [[...]] or [[^...]]: ranges of code units. *)
Record class : Type := mkClass {
  negated : bool;
  ranges : list (ascii * ascii)
}.

Definition in_class (cls : class) (c : ascii) : bool :=
  xorb (negated cls) (existsb (λ r, JS.in_range r.1 r.2 c) (ranges cls)).

(** The patterns of these files repeat a character class and follow one
    piece by the next: [cls{min,max}], with [cls] for [{1,1}], [cls+] for
    [{1,}]. *)
Inductive pattern : Type :=
| Repeat (cls : class) (min : nat) (max : option nat)
| Seq (p1 p2 : pattern).

(** The rests of [s] after every prefix of [min] to [max] characters of the
    class. *)
Fixpoint repeat_rests (cls : class) (min : nat) (max : option nat) (s : list ascii)
  : list (list ascii) :=
  (match min with 0 => [s] | S _ => [] end)
  ++ match s with
     | c :: rest =>
         if in_class cls c && negb (bool_decide (max = Some 0))
         then repeat_rests cls (pred min) (pred <$> max) rest
         else []
     | [] => []
     end.

Fixpoint rests (p : pattern) (s : list ascii) : list (list ascii) :=
  match p with
  | Repeat cls min max => repeat_rests cls min max s
  | Seq p1 p2 => flat_map (rests p2) (rests p1 s)
  end.

(** [/^p$/.test(s)] *)
Definition test (p : pattern) (s : string) : bool :=
  existsb (λ rest, bool_decide (rest = [])) (rests p (list_ascii_of_string s)).

(** [s.replace(/cls/g, '')]: the characters of the class are dropped. *)
Definition remove_all (cls : class) (s : string) : string :=
  string_of_list_ascii
    (filter (λ c, in_class cls c = false) (list_ascii_of_string s)).

(** [\d], and [\s] among the code units below 256: tab to carriage
    return, space and the no-break space. *)
Definition digit : class := mkClass false [("0", "9")]%char.

Definition white_space : list (ascii * ascii) :=
  [(ascii_of_nat 9, ascii_of_nat 13); (" ", " ")%char;
   (ascii_of_nat 160, ascii_of_nat 160)].

(** The words of a pattern. *)
Fixpoint denotes (p : pattern) (w : list ascii) : Prop :=
  match p with
  | Repeat cls min max =>
      min ≤ length w ∧ (∀ m, max = Some m → length w ≤ m)
      ∧ Forall (λ c, in_class cls c = true) w
  | Seq p1 p2 => ∃ w1 w2, w = w1 ++ w2 ∧ denotes p1 w1 ∧ denotes p2 w2
  end.

End Pattern.

(* ===================================================================== *)
(** * [payment-processor.js]: the card checks *)
(* ===================================================================== *)

Module PaymentProcessor.
Import JS Pattern.

(** [/^\d{3,4}$/] *)
Definition isValidCVV (cvv : string) : bool :=
  test (Repeat digit 3 (Some 4)) cvv.

(** [s[i]] as [parseInt] reads it: the character at index [i]; beyond the
    end it is [undefined], in which [parseInt] finds no digit either. *)
Definition at_index (s : string) (i : nat) : string :=
  match String.get i s with
  | Some c => String c EmptyString
  | None => EmptyString
  end.

(** [for (let i = n - 1; i >= 0; i--) body] *)
Definition for_down {S : Type} (n : nat) (body : nat → S → S) (s : S) : S :=
  fold_left (λ acc i, body i acc) (rev (seq 0 n)) s.

(** Numbers that may be [NaN] ([None]): [digit *= 2], [digit -= 9] and
    [sum += digit] keep a [NaN]. *)
Definition isValidCardNumber (cardNumber : string) : bool :=
  let cardNumber := remove_all (mkClass false (white_space ++ [("-", "-")%char])) cardNumber in
  if negb (test (Repeat digit 16 (Some 16)) cardNumber) then false
  else
    let '(sum, isEven) :=
      for_down (String.length cardNumber) (λ i '(sum, isEven),
        let digit := parseInt (at_index cardNumber i) in
        let digit :=
          if isEven : bool then
            let digit := Z.mul 2 <$> digit in
            match digit with
            | Some d => if (9 <? d)%Z then Some (d - 9)%Z else Some d
            | None => None
            end
          else digit in
        let sum :=
          match sum, digit with
          | Some sum, Some digit => Some (sum + digit)%Z
          | _, _ => None
          end in
        (sum, negb isEven))
        (Some 0%Z, false) in
    match sum with
    | Some sum => (Z.rem sum 10 =? 0)%Z
    | None => false
    end.

(** The checksum in words: from the right, every second digit is doubled,
    and 9 is taken off a double above 9. *)
Definition luhn_double (d : Z) : Z := if (9 <? 2 * d)%Z then (2 * d - 9)%Z else (2 * d)%Z.

Fixpoint luhn_sum (from_right : list Z) (doubled : bool) : Z :=
  match from_right with
  | [] => 0
  | d :: rest => ((if doubled then luhn_double d else d) + luhn_sum rest (negb doubled))%Z
  end.

Definition digit_value (c : ascii) : Z := (Z.of_nat (nat_of_ascii c) - 48)%Z.

(** The characters of a card number that are neither white space nor
    dashes. *)
Definition card_digits (cardNumber : string) : list ascii :=
  filter (λ c, in_class (mkClass false (white_space ++ [("-", "-")%char])) c = false)
         (list_ascii_of_string cardNumber).

End PaymentProcessor.

(* ===================================================================== *)
(** * [validate-passengers.js] *)
(* ===================================================================== *)

Module ValidatePassengers.
Import JS Pattern.

(** A passenger of the manifest. A text field that is absent is
    [undefined]; [dateOfBirth] is [new Date(passenger.dateOfBirth)], [None]
    for an invalid date. *)
Record PassengerForm : Type := mkPassengerForm {
  firstName : option string;
  lastName : option string;
  email : option string;
  dateOfBirth : option Date
}.

(** What [RegExp.prototype.test] makes of its argument: the string, or
    ["undefined"] for an absent field. *)
Definition text (field : option string) : string := default "undefined" field.

Record PassengerTypes : Type := mkPassengerTypes {
  adults : nat;
  children : nat;
  infants : nat
}.

(** [{ valid: false, error }] or [{ valid: true, passengerTypes }] *)
Inductive Validation : Type :=
| Invalid (error : string)
| Valid (passengerTypes : PassengerTypes).

(** [/^[A-Za-z\s-]{2,50}$/] *)
Definition nameRegex : pattern :=
  Repeat (mkClass false ([("A", "Z"); ("a", "z")]%char ++ white_space ++ [("-", "-")%char]))
         2 (Some 50).

(** [/^[^\s@]+@[^\s@]+\.[^\s@]+$/] *)
Definition emailRegex : pattern :=
  Seq (Repeat (mkClass true (white_space ++ [("@", "@")%char])) 1 None)
   (Seq (Repeat (mkClass false [("@", "@")%char]) 1 (Some 1))
    (Seq (Repeat (mkClass true (white_space ++ [("@", "@")%char])) 1 None)
     (Seq (Repeat (mkClass false [(".", ".")%char]) 1 (Some 1))
          (Repeat (mkClass true (white_space ++ [("@", "@")%char])) 1 None)))).

(** [for (const x of l) body], where the body may return from the function:
    [inl] is the value returned, [inr] the state after the loop. *)
Fixpoint for_of {A S R : Type} (l : list A) (body : A → S → R + S) (s : S) : R + S :=
  match l with
  | [] => inr s
  | x :: rest =>
      match body x s with
      | inl r => inl r
      | inr s' => for_of rest body s'
      end
  end.

(** [age < n] and [age >= n] for an age that may be [NaN]. *)
Definition age_lt (age : option Z) (n : Z) : bool :=
  match age with Some age => (age <? n)%Z | None => false end.

Definition age_ge (age : option Z) (n : Z) : bool :=
  match age with Some age => (n <=? age)%Z | None => false end.

(** [calculateAge] is the function of [seat-map.js], word for word. *)
Definition validatePassengers (today : Date) (passengers : list PassengerForm)
  : Validation :=
  let passengerTypes := {| adults := 0; children := 0; infants := 0 |} in
  match
    for_of passengers (λ passenger passengerTypes,
      if negb (test nameRegex (text (firstName passenger)))
         || negb (test nameRegex (text (lastName passenger)))
      then inl (Invalid "Invalid name format. Names must be 2-50 characters long and contain only letters, spaces, and hyphens.")
      else if negb (test emailRegex (text (email passenger)))
      then inl (Invalid "Invalid email format.")
      else
        let age := SeatMap.calculateAge today (dateOfBirth passenger) in
        if age_lt age 0 then inl (Invalid "Invalid date of birth.")
        else if age_ge age 12 then
          inr {| adults := S (adults passengerTypes);
                 children := children passengerTypes;
                 infants := infants passengerTypes |}
        else if age_ge age 2 then
          inr {| adults := adults passengerTypes;
                 children := S (children passengerTypes);
                 infants := infants passengerTypes |}
        else
          inr {| adults := adults passengerTypes;
                 children := children passengerTypes;
                 infants := S (infants passengerTypes) |})
      passengerTypes
  with
  | inl result => result
  | inr passengerTypes =>
      if (adults passengerTypes =? 0)%nat
      then Invalid "At least one adult passenger is required."
      else if (adults passengerTypes <? infants passengerTypes)%nat
      then Invalid "Maximum one infant per adult allowed."
      else Valid passengerTypes
  end.

(** [validatePassengers] on the elements of the array as they come: an
    element is a passenger or [null] ([None]), and reading [firstName] of
    [null] throws when the loop gets to it. On an array without [null] this
    is [validatePassengers] above. *)
Definition validateElements (today : Date) (passengers : list (option PassengerForm))
  : Result Validation :=
  let passengerTypes := {| adults := 0; children := 0; infants := 0 |} in
  match
    for_of passengers (λ passenger passengerTypes,
      match passenger with
      | None =>
          inl (Throw (TypeError "Cannot read properties of null (reading 'firstName')"))
      | Some passenger =>
          if negb (test nameRegex (text (firstName passenger)))
             || negb (test nameRegex (text (lastName passenger)))
          then inl (Ok (Invalid "Invalid name format. Names must be 2-50 characters long and contain only letters, spaces, and hyphens."))
          else if negb (test emailRegex (text (email passenger)))
          then inl (Ok (Invalid "Invalid email format."))
          else
            let age := SeatMap.calculateAge today (dateOfBirth passenger) in
            if age_lt age 0 then inl (Ok (Invalid "Invalid date of birth."))
            else if age_ge age 12 then
              inr {| adults := S (adults passengerTypes);
                     children := children passengerTypes;
                     infants := infants passengerTypes |}
            else if age_ge age 2 then
              inr {| adults := adults passengerTypes;
                     children := S (children passengerTypes);
                     infants := infants passengerTypes |}
            else
              inr {| adults := adults passengerTypes;
                     children := children passengerTypes;
                     infants := S (infants passengerTypes) |}
      end)
      passengerTypes
  with
  | inl result => result
  | inr passengerTypes =>
      if (adults passengerTypes =? 0)%nat
      then Ok (Invalid "At least one adult passenger is required.")
      else if (adults passengerTypes <? infants passengerTypes)%nat
      then Ok (Invalid "Maximum one infant per adult allowed.")
      else Ok (Valid passengerTypes)
  end.

(** The event: a body that does not parse, a body that is [null], or the
    request data (the parsed body or, without a body, the event itself)
    with its [passengers] field; an element of the array is a passenger or
    [null]. *)
Inductive Event : Type :=
| MalformedBody (message : string)
| NullBody
| Request (passengers : SeatMap.Field (option PassengerForm)).

Inductive ResponseBody : Type :=
| ErrorBody (error : string) (details : option string)
| SuccessBody (success : bool) (passengerTypes : PassengerTypes).

Record Response : Type := mkResponse {
  statusCode : Z;
  headers : list (string * string);
  body : ResponseBody
}.

Definition createResponse (statusCode : Z) (body : ResponseBody) : Response :=
  {| statusCode := statusCode;
     headers := [("Access-Control-Allow-Origin", "*");
                 ("Content-Type", "application/json")];
     body := body |}.

Definition handler (today : Date) (event : Event) : Response :=
  match
    match event with
    | MalformedBody message => Throw (SyntaxError message)
    | NullBody =>
        Throw (TypeError "Cannot destructure property 'passengers' of 'requestData' as it is null.")
    | Request passengers =>
        match passengers with
        | SeatMap.Array passengers =>
            if (length passengers =? 0)%nat || (9 <? length passengers)%nat
            then Ok (createResponse 400 (ErrorBody
                   "Invalid number of passengers. Must be between 1 and 9." None))
            else
              match validateElements today passengers with
              | Throw error => Throw error
              | Ok (Invalid error) => Ok (createResponse 400 (ErrorBody error None))
              | Ok (Valid passengerTypes) =>
                  Ok (createResponse 200 (SuccessBody true passengerTypes))
              end
        | _ =>
            Ok (createResponse 400 (ErrorBody
              "Invalid number of passengers. Must be between 1 and 9." None))
        end
    end
  with
  | Ok response => response
  | Throw error =>
      createResponse 500
        (ErrorBody "Internal server error" (Some (error_message error)))
  end.

(** ** Words for the properties *)

Definition age (today : Date) (passenger : PassengerForm) : option Z :=
  SeatMap.calculateAge today (dateOfBirth passenger).

(** Twelve or older; from two to eleven; younger than two, or with a date
    of birth that is no date. *)
Definition is_adult (today : Date) (passenger : PassengerForm) : bool :=
  age_ge (age today passenger) 12.

Definition is_child (today : Date) (passenger : PassengerForm) : bool :=
  negb (age_ge (age today passenger) 12) && age_ge (age today passenger) 2.

Definition is_infant (today : Date) (passenger : PassengerForm) : bool :=
  negb (age_ge (age today passenger) 12) && negb (age_ge (age today passenger) 2).

Definition count_types (today : Date) (passengers : list PassengerForm) : PassengerTypes :=
  {| adults := length (filter (λ p, is_adult today p = true) passengers);
     children := length (filter (λ p, is_child today p = true) passengers);
     infants := length (filter (λ p, is_infant today p = true) passengers) |}.

(** White space, as [\s] has it. *)
Definition is_space (c : ascii) : bool :=
  existsb (λ r, in_range r.1 r.2 c) white_space.

(** The three format checks and the check of the age of one passenger. *)
Definition well_formed (today : Date) (passenger : PassengerForm) : bool :=
  test nameRegex (text (firstName passenger))
  && test nameRegex (text (lastName passenger))
  && test emailRegex (text (email passenger))
  && negb (age_lt (age today passenger) 0).

End ValidatePassengers.

(* ===================================================================== *)
(** * [search-flights.js]: the request handler *)
(* ===================================================================== *)

Module SearchHandler.
Import JS SearchFlights.

Definition validIATACodes : list string :=
  ["JFK"; "LAX"; "SFO"; "ORD"; "MIA"; "DFW"; "SEA"; "LAS"; "ATL"; "BOS"].

(** ** Strings and [toUpperCase]

    A string of a request is the list of its UTF-16 code units, numbers
    below 65536. *)
Definition code_units (s : string) : list N :=
  map N_of_ascii (list_ascii_of_string s).

(** The upper case of the code points that have one of their own, after
    the Unicode Character Database, version 14.0: [UnicodeData.txt] for the
    code points that go to one code point, in runs [(first, last, step,
    image of the first)] along which the image moves with the code point,
    and the unconditional entries of [SpecialCasing.txt] for those that go
    to several. *)
Definition upper_runs : list (N * N * N * N) :=
  [(97, 122, 1, 65); (181, 181, 1, 924); (224, 246, 1, 192);
   (248, 254, 1, 216); (255, 255, 1, 376); (257, 303, 2, 256);
   (305, 305, 1, 73); (307, 311, 2, 306); (314, 328, 2, 313);
   (331, 375, 2, 330); (378, 382, 2, 377); (383, 383, 1, 83);
   (384, 384, 1, 579); (387, 389, 2, 386); (392, 392, 1, 391);
   (396, 396, 1, 395); (402, 402, 1, 401); (405, 405, 1, 502);
   (409, 409, 1, 408); (410, 410, 1, 573); (414, 414, 1, 544);
   (417, 421, 2, 416); (424, 424, 1, 423); (429, 429, 1, 428);
   (432, 432, 1, 431); (436, 438, 2, 435); (441, 441, 1, 440);
   (445, 445, 1, 444); (447, 447, 1, 503); (453, 453, 1, 452);
   (454, 454, 1, 452); (456, 456, 1, 455); (457, 457, 1, 455);
   (459, 459, 1, 458); (460, 460, 1, 458); (462, 476, 2, 461);
   (477, 477, 1, 398); (479, 495, 2, 478); (498, 498, 1, 497);
   (499, 499, 1, 497); (501, 501, 1, 500); (505, 543, 2, 504);
   (547, 563, 2, 546); (572, 572, 1, 571); (575, 576, 1, 11390);
   (578, 578, 1, 577); (583, 591, 2, 582); (592, 592, 1, 11375);
   (593, 593, 1, 11373); (594, 594, 1, 11376); (595, 595, 1, 385);
   (596, 596, 1, 390); (598, 599, 1, 393); (601, 601, 1, 399);
   (603, 603, 1, 400); (604, 604, 1, 42923); (608, 608, 1, 403);
   (609, 609, 1, 42924); (611, 611, 1, 404); (613, 613, 1, 42893);
   (614, 614, 1, 42922); (616, 616, 1, 407); (617, 617, 1, 406);
   (618, 618, 1, 42926); (619, 619, 1, 11362); (620, 620, 1, 42925);
   (623, 623, 1, 412); (625, 625, 1, 11374); (626, 626, 1, 413);
   (629, 629, 1, 415); (637, 637, 1, 11364); (640, 640, 1, 422);
   (642, 642, 1, 42949); (643, 643, 1, 425); (647, 647, 1, 42929);
   (648, 648, 1, 430); (649, 649, 1, 580); (650, 651, 1, 433);
   (652, 652, 1, 581); (658, 658, 1, 439); (669, 669, 1, 42930);
   (670, 670, 1, 42928); (837, 837, 1, 921); (881, 883, 2, 880);
   (887, 887, 1, 886); (891, 893, 1, 1021); (940, 940, 1, 902);
   (941, 943, 1, 904); (945, 961, 1, 913); (962, 962, 1, 931);
   (963, 971, 1, 931); (972, 972, 1, 908); (973, 974, 1, 910);
   (976, 976, 1, 914); (977, 977, 1, 920); (981, 981, 1, 934);
   (982, 982, 1, 928); (983, 983, 1, 975); (985, 1007, 2, 984);
   (1008, 1008, 1, 922); (1009, 1009, 1, 929); (1010, 1010, 1, 1017);
   (1011, 1011, 1, 895); (1013, 1013, 1, 917); (1016, 1016, 1, 1015);
   (1019, 1019, 1, 1018); (1072, 1103, 1, 1040); (1104, 1119, 1, 1024);
   (1121, 1153, 2, 1120); (1163, 1215, 2, 1162); (1218, 1230, 2, 1217);
   (1231, 1231, 1, 1216); (1233, 1327, 2, 1232); (1377, 1414, 1, 1329);
   (4304, 4346, 1, 7312); (4349, 4351, 1, 7357); (5112, 5117, 1, 5104);
   (7296, 7296, 1, 1042); (7297, 7297, 1, 1044); (7298, 7298, 1, 1054);
   (7299, 7300, 1, 1057); (7301, 7301, 1, 1058); (7302, 7302, 1, 1066);
   (7303, 7303, 1, 1122); (7304, 7304, 1, 42570); (7545, 7545, 1, 42877);
   (7549, 7549, 1, 11363); (7566, 7566, 1, 42950); (7681, 7829, 2, 7680);
   (7835, 7835, 1, 7776); (7841, 7935, 2, 7840); (7936, 7943, 1, 7944);
   (7952, 7957, 1, 7960); (7968, 7975, 1, 7976); (7984, 7991, 1, 7992);
   (8000, 8005, 1, 8008); (8017, 8023, 2, 8025); (8032, 8039, 1, 8040);
   (8048, 8049, 1, 8122); (8050, 8053, 1, 8136); (8054, 8055, 1, 8154);
   (8056, 8057, 1, 8184); (8058, 8059, 1, 8170); (8060, 8061, 1, 8186);
   (8112, 8113, 1, 8120); (8126, 8126, 1, 921); (8144, 8145, 1, 8152);
   (8160, 8161, 1, 8168); (8165, 8165, 1, 8172); (8526, 8526, 1, 8498);
   (8560, 8575, 1, 8544); (8580, 8580, 1, 8579); (9424, 9449, 1, 9398);
   (11312, 11359, 1, 11264); (11361, 11361, 1, 11360);
   (11365, 11365, 1, 570); (11366, 11366, 1, 574); (11368, 11372, 2, 11367);
   (11379, 11379, 1, 11378); (11382, 11382, 1, 11381);
   (11393, 11491, 2, 11392); (11500, 11502, 2, 11499);
   (11507, 11507, 1, 11506); (11520, 11557, 1, 4256);
   (11559, 11559, 1, 4295); (11565, 11565, 1, 4301);
   (42561, 42605, 2, 42560); (42625, 42651, 2, 42624);
   (42787, 42799, 2, 42786); (42803, 42863, 2, 42802);
   (42874, 42876, 2, 42873); (42879, 42887, 2, 42878);
   (42892, 42892, 1, 42891); (42897, 42899, 2, 42896);
   (42900, 42900, 1, 42948); (42903, 42921, 2, 42902);
   (42933, 42947, 2, 42932); (42952, 42954, 2, 42951);
   (42961, 42961, 1, 42960); (42967, 42969, 2, 42966);
   (42998, 42998, 1, 42997); (43859, 43859, 1, 42931);
   (43888, 43967, 1, 5024); (65345, 65370, 1, 65313);
   (66600, 66639, 1, 66560); (66776, 66811, 1, 66736);
   (66967, 66977, 1, 66928); (66979, 66993, 1, 66940);
   (66995, 67001, 1, 66956); (67003, 67004, 1, 66964);
   (68800, 68850, 1, 68736); (71872, 71903, 1, 71840);
   (93792, 93823, 1, 93760); (125218, 125251, 1, 125184)]%N.

Definition upper_special : list (N * list N) :=
  [(223, [83; 83]); (329, [700; 78]); (496, [74; 780]);
   (912, [921; 776; 769]); (944, [933; 776; 769]); (1415, [1333; 1362]);
   (7830, [72; 817]); (7831, [84; 776]); (7832, [87; 778]);
   (7833, [89; 778]); (7834, [65; 702]); (8016, [933; 787]);
   (8018, [933; 787; 768]); (8020, [933; 787; 769]); (8022, [933; 787; 834]);
   (8064, [7944; 921]); (8065, [7945; 921]); (8066, [7946; 921]);
   (8067, [7947; 921]); (8068, [7948; 921]); (8069, [7949; 921]);
   (8070, [7950; 921]); (8071, [7951; 921]); (8072, [7944; 921]);
   (8073, [7945; 921]); (8074, [7946; 921]); (8075, [7947; 921]);
   (8076, [7948; 921]); (8077, [7949; 921]); (8078, [7950; 921]);
   (8079, [7951; 921]); (8080, [7976; 921]); (8081, [7977; 921]);
   (8082, [7978; 921]); (8083, [7979; 921]); (8084, [7980; 921]);
   (8085, [7981; 921]); (8086, [7982; 921]); (8087, [7983; 921]);
   (8088, [7976; 921]); (8089, [7977; 921]); (8090, [7978; 921]);
   (8091, [7979; 921]); (8092, [7980; 921]); (8093, [7981; 921]);
   (8094, [7982; 921]); (8095, [7983; 921]); (8096, [8040; 921]);
   (8097, [8041; 921]); (8098, [8042; 921]); (8099, [8043; 921]);
   (8100, [8044; 921]); (8101, [8045; 921]); (8102, [8046; 921]);
   (8103, [8047; 921]); (8104, [8040; 921]); (8105, [8041; 921]);
   (8106, [8042; 921]); (8107, [8043; 921]); (8108, [8044; 921]);
   (8109, [8045; 921]); (8110, [8046; 921]); (8111, [8047; 921]);
   (8114, [8122; 921]); (8115, [913; 921]); (8116, [902; 921]);
   (8118, [913; 834]); (8119, [913; 834; 921]); (8124, [913; 921]);
   (8130, [8138; 921]); (8131, [919; 921]); (8132, [905; 921]);
   (8134, [919; 834]); (8135, [919; 834; 921]); (8140, [919; 921]);
   (8146, [921; 776; 768]); (8147, [921; 776; 769]); (8150, [921; 834]);
   (8151, [921; 776; 834]); (8162, [933; 776; 768]); (8163, [933; 776; 769]);
   (8164, [929; 787]); (8166, [933; 834]); (8167, [933; 776; 834]);
   (8178, [8186; 921]); (8179, [937; 921]); (8180, [911; 921]);
   (8182, [937; 834]); (8183, [937; 834; 921]); (8188, [937; 921]);
   (64256, [70; 70]); (64257, [70; 73]); (64258, [70; 76]);
   (64259, [70; 70; 73]); (64260, [70; 70; 76]); (64261, [83; 84]);
   (64262, [83; 84]); (64275, [1348; 1350]); (64276, [1348; 1333]);
   (64277, [1348; 1339]); (64278, [1358; 1350]); (64279, [1348; 1341])]%N.

Definition in_run (cp : N) (run : N * N * N * N) : bool :=
  let '(first, last, step, _) := run in
  ((first <=? cp) && (cp <=? last) && ((cp - first) mod step =? 0))%N.

Definition upper_point (cp : N) : list N :=
  match find (λ entry, (entry.1 =? cp)%N) upper_special with
  | Some (_, image) => image
  | None =>
      match find (in_run cp) upper_runs with
      | Some (first, _, _, image) => [(image + (cp - first))%N]
      | None => [cp]
      end
  end.

(** Surrogates: a code unit from D800 to DBFF followed by one from DC00 to
    DFFF stands for a code point from 10000 on. *)
Definition is_high (u : N) : bool := ((55296 <=? u) && (u <=? 56319))%N.
Definition is_low (u : N) : bool := ((56320 <=? u) && (u <=? 57343))%N.

Definition code_point (high low : N) : N :=
  (65536 + (high - 55296) * 1024 + (low - 56320))%N.

Definition encode (cp : N) : list N :=
  if (cp <? 65536)%N then [cp]
  else [(55296 + (cp - 65536) / 1024)%N; (56320 + (cp - 65536) mod 1024)%N].

(** [String.prototype.toUpperCase]: code point by code point; a surrogate
    that has no partner stays. *)
Fixpoint toUpperCase (s : list N) : list N :=
  match s with
  | [] => []
  | u :: rest =>
      match rest with
      | v :: rest' =>
          if is_high u && is_low v
          then flat_map encode (upper_point (code_point u v)) ++ toUpperCase rest'
          else upper_point u ++ toUpperCase rest
      | [] => upper_point u
      end
  end.

(** [a < b] on the time values of two dates; an invalid date ([None]) is
    [NaN]. *)
Definition date_lt (a b : option Z) : bool :=
  match a, b with
  | Some a, Some b => (a <? b)%Z
  | _, _ => false
  end.

(** A value of the request data: a string, or a value of another kind. *)
Inductive Value (Other : Type) : Type :=
| Text (s : list N)
| NoText (v : Other).
Arguments Text {Other} s.
Arguments NoText {Other} v.

Section Environment.

(** The values of the request data that are no strings, and what the
    engine makes of them: whether [!!v] holds, and [String(v)], which
    throws for an object that cannot be converted. *)
Variable Other : Type.
Variable truthy_other : Other → bool.
Variable toString : Other → Result (list N).

(** The time value of [new Date(v)], [None] for an invalid date; the
    argument [None] is [undefined]. *)
Variable parseDate : option (Value Other) → option Z.

(** What the store answers to the query of [RouteDate-Index] for a value of
    [routeDate]: the items, or an error. *)
Variable query : list N → Result (list Flight).

(** [!!field] for a field that may be absent. *)
Definition truthy (field : option (Value Other)) : bool :=
  match field with
  | Some (Text s) => negb (bool_decide (s = []))
  | Some (NoText v) => truthy_other v
  | None => false
  end.

(** [`${field}`] *)
Definition template (field : option (Value Other)) : Result (list N) :=
  match field with
  | Some (Text s) => Ok s
  | Some (NoText v) => toString v
  | None => Ok (code_units "undefined")
  end.

(** [validIATACodes.has(code.toUpperCase())]: only a string has the method
    [toUpperCase]. *)
Definition validateIATACode (code : option (Value Other)) : Result bool :=
  match code with
  | Some (Text s) => Ok (bool_decide (toUpperCase s ∈ map code_units validIATACodes))
  | Some (NoText _) => Throw (TypeError "code.toUpperCase is not a function")
  | None =>
      Throw (TypeError "Cannot read properties of undefined (reading 'toUpperCase')")
  end.

(** [today] is the time value of this day's local midnight. *)
Definition validateDates (today : Z) (departDate returnDate : option (Value Other))
  : bool :=
  let depart := parseDate departDate in
  if date_lt depart (Some today) then false
  else if truthy returnDate then
    let return_date := parseDate returnDate in
    if date_lt return_date depart then false else true
  else true.

(** [now] is the time value of [new Date()] when the answer of the store
    has come. *)
Definition searchFlights (now : float) (origin destination date : option (Value Other))
  : Result (list PricedFlight) :=
  match template origin with
  | Throw error => Throw error
  | Ok origin =>
      match template destination with
      | Throw error => Throw error
      | Ok destination =>
          match template date with
          | Throw error => Throw error
          | Ok date =>
              match query (origin ++ code_units "-" ++ destination
                           ++ code_units "-" ++ date) with
              | Ok Items => Ok (applyDynamicPricing now Items)
              | Throw error => Throw error
              end
          end
      end
  end.

Record RequestData : Type := mkRequestData {
  origin : option (Value Other);
  destination : option (Value Other);
  departDate : option (Value Other);
  returnDate : option (Value Other)
}.

(** The event: a body that does not parse, a body that is [null], or the
    request data (the parsed body or, without a body, the event itself). *)
Inductive Event : Type :=
| MalformedBody (message : string)
| NullBody
| Request (requestData : RequestData).

(** [{ outbound, return }], where [return] may be [null]. *)
Inductive ResponseBody : Type :=
| ErrorBody (error : string) (details : option string)
| FlightsBody (outbound : list PricedFlight) (return_ : option (list PricedFlight)).

Record Response : Type := mkResponse {
  statusCode : Z;
  headers : list (string * string);
  body : ResponseBody
}.

Definition createResponse (statusCode : Z) (body : ResponseBody) : Response :=
  {| statusCode := statusCode;
     headers := [("Access-Control-Allow-Origin", "*");
                 ("Content-Type", "application/json")];
     body := body |}.

(** [now] and [now'] are the times at which the two searches price their
    flights. *)
Definition handler (now now' : float) (today : Z) (event : Event) : Response :=
  match
    match event with
    | MalformedBody message => Throw (SyntaxError message)
    | NullBody =>
        Throw (TypeError "Cannot destructure property 'origin' of 'requestData' as it is null.")
    | Request requestData =>
        let origin := origin requestData in
        let destination := destination requestData in
        let departDate := departDate requestData in
        let returnDate := returnDate requestData in
        if negb (truthy origin) || negb (truthy destination) || negb (truthy departDate)
        then Ok (createResponse 400 (ErrorBody
               "Missing required fields: origin, destination, and departDate are required"
               None))
        else
          match validateIATACode origin with
          | Throw error => Throw error
          | Ok false => Ok (createResponse 400 (ErrorBody "Invalid airport code" None))
          | Ok true =>
              match validateIATACode destination with
              | Throw error => Throw error
              | Ok false =>
                  Ok (createResponse 400 (ErrorBody "Invalid airport code" None))
              | Ok true =>
                  if negb (validateDates today departDate returnDate)
                  then Ok (createResponse 400 (ErrorBody "Invalid dates" None))
                  else
                    match searchFlights now origin destination departDate with
                    | Throw error => Throw error
                    | Ok outboundFlights =>
                        if truthy returnDate then
                          match searchFlights now' destination origin returnDate with
                          | Throw error => Throw error
                          | Ok returnFlights =>
                              Ok (createResponse 200
                                    (FlightsBody outboundFlights (Some returnFlights)))
                          end
                        else
                          Ok (createResponse 200 (FlightsBody outboundFlights None))
                    end
              end
          end
    end
  with
  | Ok response => response
  | Throw error =>
      createResponse 500
        (ErrorBody "Internal server error" (Some (error_message error)))
  end.

End Environment.

(** ** Words for the properties *)

(** The code unit [u] is the capital letter [a], the small letter of [a],
    or a letter that only [toUpperCase] turns into [a]: the dotless i
    (U+0131) for I and the long s (U+017F) for S. *)
Definition same_letter (u a : N) : Prop :=
  u = a ∨ u = (a + 32)%N ∨ (a = 73%N ∧ u = 305%N) ∨ (a = 83%N ∧ u = 383%N).

(** The check of an airport code passes, without an error. *)
Definition passes (checked : Result bool) : bool :=
  match checked with
  | Ok true => true
  | _ => false
  end.

(** All that the request has to pass before the store is asked. *)
Definition acceptable {Other : Type} (truthy_other : Other → bool)
    (parseDate : option (Value Other) → option Z) (today : Z)
    (requestData : RequestData Other) : bool :=
  truthy Other truthy_other (origin Other requestData)
  && truthy Other truthy_other (destination Other requestData)
  && truthy Other truthy_other (departDate Other requestData)
  && passes (validateIATACode Other (origin Other requestData))
  && passes (validateIATACode Other (destination Other requestData))
  && validateDates Other truthy_other parseDate today
       (departDate Other requestData) (returnDate Other requestData).

(** A field that holds a value that is no string. *)
Definition no_text {Other : Type} (field : option (Value Other)) : Prop :=
  ∃ v, field = Some (NoText v).

(** The images under [toUpperCase] that begin with a capital letter from A
    to Z and have more than one code unit: those of ß, of the letters j, h,
    t, w, y and a with a mark that has no capital of its own, and of the
    ligatures ff, fi, fl, ffi, ffl, long st and st. *)
Definition long_images : list (list N) :=
  [[83; 83]; [74; 780]; [72; 817]; [84; 776]; [87; 778]; [89; 778]; [65; 702];
   [70; 70]; [70; 73]; [70; 76]; [70; 70; 73]; [70; 70; 76]; [83; 84]]%N.

Definition is_capital (u : N) : bool := ((65 <=? u) && (u <=? 90))%N.

(** What the proofs need of an entry and of a run of the table of the
    upper case: an entry is for a code point below 10000 (hexadecimal) and
    its image, which is not empty, is a long image when it begins with a
    capital letter; a run whose images reach the capital letters is one of
    three (the small letters, the dotless i, the long s), and a run lies
    below 10000 or it lies, with its images, from 10000 on. *)
Definition special_ok (entry : N * list N) : bool :=
  (entry.1 <? 65536)%N
  && match entry.2 with
     | [] => false
     | u :: _ =>
         if is_capital u then bool_decide (entry.2 ∈ long_images) else true
     end.

Definition run_ok (run : N * N * N * N) : bool :=
  let '(first, last, step, image) := run in
  ((if (image <=? 90)%N
    then bool_decide (run ∈ [(97, 122, 1, 65); (305, 305, 1, 73); (383, 383, 1, 83)]%N)
    else true)
   && ((last <? 65536) || ((65536 <=? first) && (65536 <=? image))))%N.

(** Capital letters from A to Z in which no long image begins. *)
Fixpoint plain_capitals (target : list N) : bool :=
  match target with
  | [] => true
  | u :: rest =>
      is_capital u
      && forallb (λ image, negb (bool_decide (take (length image) target = image)))
                 long_images
      && plain_capitals rest
  end.

(** Strings with their upper case, made with another implementation of the
    Unicode case mappings. *)
Definition toUpperCase_samples : list (list N * list N) :=
  [([90; 8119; 42573; 383; 453; 962], [90; 913; 834; 921; 42572; 83; 452; 931]);
   ([7304; 329; 1231; 64275; 255; 963], [42570; 700; 78; 1216; 1348; 1350; 376; 931]);
   ([594; 575; 496; 55297; 56536; 963; 592], [11376; 11390; 74; 780; 55297; 56496; 931; 11375]);
   ([329; 4304; 65345; 329; 42573; 383], [700; 78; 7312; 65313; 700; 78; 42572; 83]);
   ([65345; 305; 8064; 75; 575; 8115], [65313; 73; 7944; 921; 75; 11390; 913; 921]);
   ([4304; 32; 42945; 837; 43888; 5112], [7312; 32; 42944; 921; 5024; 5104]);
   ([962; 496; 329; 64259; 1104; 592], [931; 74; 780; 700; 78; 70; 70; 73; 1024; 11375]);
   ([65; 891; 881; 7304; 107; 55299; 56512], [65; 1021; 880; 42570; 75; 55299; 56448]);
   ([42945; 55299; 56512; 454; 107; 1104; 7549], [42944; 55299; 56448; 452; 75; 1024; 11363]);
   ([670; 8490; 453; 4304; 1377; 575], [42928; 8490; 452; 7312; 1329; 11390]);
   ([9424; 7549; 8119; 1013; 575; 305], [9398; 11363; 913; 834; 921; 917; 11390; 73]);
   ([453; 65; 7549; 7566; 1104; 881], [452; 65; 11363; 42950; 1024; 880]);
   ([55297; 97; 56360; 55297; 56360], [55297; 65; 56360; 55297; 56320])]%N.

End SearchHandler.

(* ===================================================================== *)
(** * [payment-processor.js]: the payment data and the handler *)


Module PaymentData.
Import JS Pattern PaymentProcessor.

(** [s.split('/')] *)
Fixpoint split_slash (s : string) : list string :=
  match s with
  | EmptyString => [EmptyString]
  | String c rest =>
      if bool_decide (c = "/"%char) then EmptyString :: split_slash rest
      else
        match split_slash rest with
        | part :: parts => String c part :: parts
        | [] => [String c EmptyString]
        end
  end.

(** [parseInt] of a part of the split, which is [undefined] when the part
    is not there; leading white space in the full sense of [\s] is
    skipped. *)
Fixpoint skip_space (s : string) : string :=
  match s with
  | String c rest =>
      if existsb (λ r, in_range r.1 r.2 c) white_space then skip_space rest else s
  | EmptyString => s
  end.

Definition parseInt (s : option string) : option Z :=
  match s with
  | Some s => JS.parseInt (skip_space s)
  | None => None
  end.

(** [new Date(year, monthIndex) > now] for a month index from 0 to 11 and
    the date [now] of the moment of the call: a year from 0 to 99 is a
    year of the 1900s; the first day of the month has to lie within the one
    hundred million days on either side of 1970 that a [Date] can hold
    (from 20 April -271821 to 13 September 275760); and local months follow
    each other in time as on the calendar. *)
Definition month_start_after (now : Date) (year monthIndex : Z) : bool :=
  let year := if (0 <=? year)%Z && (year <=? 99)%Z then (1900 + year)%Z else year in
  ((-271821 <? year)%Z || ((year =? -271821)%Z && (4 <=? monthIndex)%Z))
  && ((year <? 275760)%Z || ((year =? 275760)%Z && (monthIndex <=? 8)%Z))
  && ((getFullYear now <? year)%Z
      || ((getFullYear now =? year)%Z && (getMonth now <? monthIndex)%Z)).

Definition isValidExpiryDate (now : Date) (expiryDate : string) : bool :=
  let parts := split_slash expiryDate in
  let monthStr := parts !! 0 in
  let yearStr := parts !! 1 in
  let month := parseInt monthStr in
  let year := Z.add 2000 <$> parseInt yearStr in
  match month, year with
  | Some month, Some year =>
      if (month <? 1)%Z || (12 <? month)%Z then false
      else month_start_after now year (month - 1)
  | _, _ => false
  end.

(** ** The payment data

    A JSON value; an object is the map from its keys to their values. *)
#[warnings="-register-all"]
Inductive Json : Type :=
| JNull
| JBool (b : bool)
| JNumber (x : float)
| JString (s : string)
| JArray (items : list Json)
| JObject (fields : gmap string Json).

(** [!!v] for a field, which is [undefined] ([None]) when it is absent. *)
Definition truthy_value (v : option Json) : bool :=
  match v with
  | None | Some JNull => false
  | Some (JBool b) => b
  | Some (JNumber x) => negb (PrimFloat.eqb x 0 || isNaN x)
  | Some (JString s) => negb (bool_decide (s = ""))
  | Some (JArray _) | Some (JObject _) => true
  end.

(** [v.key]: only an object has properties of its own under the keys that
    the handler reads. *)
Definition get (v : option Json) (key : string) : option Json :=
  match v with
  | Some (JObject fields) => fields !! key
  | _ => None
  end.

(** [v === 'OPTIONS'] *)
Definition is_options (v : option Json) : bool :=
  match v with
  | Some (JString s) => bool_decide (s = "OPTIONS")
  | _ => false
  end.

(** The event of the payment handler, which is the payment data. *)
Record PaymentData : Type := mkPaymentData {
  httpMethod : option Json;
  cardNumber : option Json;
  expiryDate : option Json;
  cvv : option Json;
  cardName : option Json;
  billingAddress : option Json;
  bookingData : option Json
}.

(** [{ valid: false, error }] or [{ valid: true }] *)
Inductive Validation : Type :=
| Invalid (error : string)
| Valid.

(** [processPayment]: [shouldSucceed] is the outcome of
    [Math.random() > 0.1] and [paymentId] the identifier made of the time
    and of a random number. *)
Inductive PaymentResult : Type :=
| Declined (error : string)
| Paid (paymentId : string).

(** The [Bookings] table: items, under their [bookingRef]. *)
Abbreviation Bookings := (gmap string (gmap string Json)).

Inductive ResponseBody : Type :=
| EmptyBody
| FailureBody (error : string) (message : option string)
| SuccessBody (bookingReference : string) (paymentId : string).

Record Response : Type := mkResponse {
  statusCode : Z;
  headers : list (string * string);
  body : ResponseBody
}.

Definition createResponse (statusCode : Z) (body : ResponseBody) : Response :=
  {| statusCode := statusCode;
     headers :=
       [("Access-Control-Allow-Origin",
         "http://my-ssoffice-bucket.s3-website-us-east-1.amazonaws.com");
        ("Access-Control-Allow-Credentials", "true");
        ("Access-Control-Allow-Headers",
         "Content-Type,X-Amz-Date,Authorization,X-Api-Key,X-Amz-Security-Token");
        ("Access-Control-Allow-Methods", "OPTIONS,POST");
        ("Content-Type", "application/json")];
     body := body |}.

(** The own properties of the object that is spread into the item;
    [bookingData] is an object when the handler gets there. *)
Definition properties (v : option Json) : gmap string Json :=
  match v with
  | Some (JObject fields) => fields
  | _ => ∅
  end.

(** [{ bookingRef, paymentId, ...bookingData, status: 'CONFIRMED',
    timestamp }]: a later key takes the place of an earlier one. *)
Definition booking_item (bookingRef paymentId timestamp : string)
    (bookingData : gmap string Json) : gmap string Json :=
  <["timestamp" := JString timestamp]>
    (<["status" := JString "CONFIRMED"]>
       (bookingData ∪ <["paymentId" := JString paymentId]>
                        {["bookingRef" := JString bookingRef]})).

(** Computations that may throw, one after the other. *)
Definition and_then {A B : Type} (r : Result A) (f : A → Result B) : Result B :=
  match r with
  | Ok a => f a
  | Throw error => Throw error
  end.

Notation "'let?' x := r 'in' q" := (and_then r (λ x, q))
  (at level 10, x name, r at level 100, q at level 200, only parsing).

(** [!r] *)
Definition negate (r : Result bool) : Result bool := let? b := r in Ok (negb b).

Section Environment.

(** What the engine makes of a value that is no string where a string is
    asked for ([String(v)]), and of a value that is no number, boolean or
    [null] where a number is ([Number(v)]); both throw for an object that
    cannot be converted. *)
Variable toString : Json → Result string.
Variable toNumber : Json → Result float.

(** Whether the document client can turn the item into attribute values
    and the table takes it (its numbers, its sizes): the store is asked
    only about the key of an item that passes. *)
Variable accepts : gmap string Json → bool.

(** [isValidCardNumber(v)] and [isValidExpiryDate(v)] for a truthy value:
    only a string has the methods [replace] and [split]. *)
Definition checkCardNumber (v : option Json) : Result bool :=
  match v with
  | Some (JString cardNumber) => Ok (isValidCardNumber cardNumber)
  | _ => Throw (TypeError "cardNumber.replace is not a function")
  end.

Definition checkExpiryDate (now : Date) (v : option Json) : Result bool :=
  match v with
  | Some (JString expiryDate) => Ok (isValidExpiryDate now expiryDate)
  | None => Throw (TypeError "Cannot read properties of undefined (reading 'split')")
  | Some JNull => Throw (TypeError "Cannot read properties of null (reading 'split')")
  | _ => Throw (TypeError "expiryDate.split is not a function")
  end.

(** [isValidCVV(v)]: [test] turns its argument into a string. *)
Definition checkCVV (v : option Json) : Result bool :=
  match v with
  | Some (JString cvv) => Ok (isValidCVV cvv)
  | Some v =>
      match toString v with
      | Ok cvv => Ok (isValidCVV cvv)
      | Throw error => Throw error
      end
  | None => Ok (isValidCVV "undefined")
  end.

(** [w < n] for a number [n]. *)
Definition less_than (w : Json) (n : float) : Result bool :=
  match w with
  | JNumber x => Ok (PrimFloat.ltb x n)
  | JBool b => Ok (PrimFloat.ltb (if b then 1 else 0) n)
  | JNull => Ok (PrimFloat.ltb 0 n)
  | _ =>
      match toNumber w with
      | Ok x => Ok (PrimFloat.ltb x n)
      | Throw error => Throw error
      end
  end.

(** [v.length < n] for a truthy value: the length of a string or of an
    array, the property [length] of an object, and [undefined], which is
    below no number, for a number and for [true]. *)
Definition length_below (v : option Json) (n : nat) : Result bool :=
  match v with
  | Some (JString s) => Ok (String.length s <? n)%nat
  | Some (JArray items) => Ok (length items <? n)%nat
  | Some (JObject fields) =>
      match fields !! "length" with
      | Some w => less_than w (PrimFloat.of_uint63 (Uint63.of_Z (Z.of_nat n)))
      | None => Ok false
      end
  | Some (JNumber _) | Some (JBool _) => Ok false
  | Some JNull =>
      Throw (TypeError "Cannot read properties of null (reading 'length')")
  | None =>
      Throw (TypeError "Cannot read properties of undefined (reading 'length')")
  end.

Definition validatePaymentData (now : Date) (paymentData : PaymentData)
  : Result Validation :=
  let cardNumber := cardNumber paymentData in
  let expiryDate := expiryDate paymentData in
  let cvv := cvv paymentData in
  let cardName := cardName paymentData in
  let billingAddress := billingAddress paymentData in
  let bookingData := bookingData paymentData in
  let? invalidCardNumber :=
    if negb (truthy_value cardNumber) then Ok true
    else negate (checkCardNumber cardNumber) in
  if invalidCardNumber : bool then Ok (Invalid "Invalid card number")
  else
    let? invalidExpiryDate :=
      if negb (truthy_value expiryDate) then Ok true
      else negate (checkExpiryDate now expiryDate) in
    if invalidExpiryDate : bool then Ok (Invalid "Invalid or expired card")
    else
      let? invalidCVV :=
        if negb (truthy_value cvv) then Ok true
        else negate (checkCVV cvv) in
      if invalidCVV : bool then Ok (Invalid "Invalid CVV")
      else
        let? invalidCardName :=
          if negb (truthy_value cardName) then Ok true
          else length_below cardName 2 in
        if invalidCardName : bool then Ok (Invalid "Invalid cardholder name")
        else
          let? invalidBillingAddress :=
            if negb (truthy_value billingAddress) then Ok true
            else length_below billingAddress 5 in
          if invalidBillingAddress : bool then Ok (Invalid "Invalid billing address")
          else if negb (truthy_value bookingData)
                  || negb (truthy_value (get bookingData "flights"))
                  || negb (truthy_value (get bookingData "seats"))
                  || negb (truthy_value (get bookingData "passengers"))
          then Ok (Invalid "Missing booking information")
          else
            match get bookingData "totalPrice" with
            | Some (JNumber totalPrice) =>
                if PrimFloat.leb totalPrice 0 then Ok (Invalid "Invalid booking price")
                else Ok Valid
            | _ => Ok (Invalid "Invalid booking price")
            end.

Definition processPayment (now : Date) (shouldSucceed : bool) (paymentId : string)
    (paymentData : PaymentData) : Result PaymentResult :=
  let? valid := checkExpiryDate now (expiryDate paymentData) in
  if negb valid then Ok (Declined "Card has expired")
  else if shouldSucceed then Ok (Paid paymentId)
  else Ok (Declined "Payment declined. Please try a different card.").

(** ** The bookings *)

(** [PutCommand] with the condition [attribute_not_exists(bookingRef)], on
    a table whose key is the string attribute [bookingRef]: an item that
    the client or the table does not accept is refused, and so are an item
    without such a key and an item whose key is taken. *)
Definition put_item (t : Bookings) (item : gmap string Json) : Result unit * Bookings :=
  if negb (accepts item)
  then (Throw (StoreError "ValidationException"
                 "One or more parameter values were invalid"), t)
  else
    match item !! "bookingRef" with
    | Some (JString key) =>
        if bool_decide (key = "")
        then (Throw (StoreError "ValidationException"
                       "One or more parameter values are not valid"), t)
        else
          match t !! key with
          | Some _ => (Throw Store.ConditionalCheckFailed, t)
          | None => (Ok tt, <[key := item]> t)
          end
    | _ => (Throw (StoreError "ValidationException"
                     "One or more parameter values were invalid"), t)
    end.

Definition saveBooking (t : Bookings) (bookingData : gmap string Json)
  : Result unit * Bookings :=
  match put_item t bookingData with
  | (Ok _, t') => (Ok tt, t')
  | (Throw error, t') => (Throw (JsError "Failed to save booking"), t')
  end.

(** The key under which [put_item] stores an item, when it stores it. *)
Definition item_key (t : Bookings) (item : gmap string Json) : option string :=
  if negb (accepts item) then None
  else
    match item !! "bookingRef" with
    | Some (JString key) =>
        if bool_decide (key = "") then None
        else match t !! key with Some _ => None | None => Some key end
    | _ => None
    end.

(** The handler. What the clock and chance decide is given to it: [now] is
    the date when [validatePaymentData] looks at the clock and [now'] the
    date when [processPayment] does, later; [shouldSucceed] and [paymentId]
    are as for [processPayment]; [bookingRef] is the reference that
    [generateBookingReference] draws and [timestamp] is
    [new Date().toISOString()]. *)
Definition handler (now now' : Date) (shouldSucceed : bool)
    (paymentId bookingRef timestamp : string)
    (event : PaymentData) (t : Bookings) : Response * Bookings :=
  let internal (error : Error) :=
    (createResponse 500
       (FailureBody "Internal server error" (Some (error_message error))), t) in
  if is_options (httpMethod event)
  then (createResponse 200 EmptyBody, t)
  else
    let paymentData := event in
    match validatePaymentData now paymentData with
    | Throw error => internal error
    | Ok (Invalid error) => (createResponse 400 (FailureBody error None), t)
    | Ok Valid =>
        match processPayment now' shouldSucceed paymentId paymentData with
        | Throw error => internal error
        | Ok (Declined error) => (createResponse 400 (FailureBody error None), t)
        | Ok (Paid paymentId) =>
            match
              saveBooking t
                (booking_item bookingRef paymentId timestamp
                   (properties (bookingData paymentData)))
            with
            | (Ok _, t') =>
                (createResponse 200 (SuccessBody bookingRef paymentId), t')
            | (Throw saveError, t') =>
                (createResponse 500
                   (FailureBody "Failed to save booking details" None), t')
            end
        end
    end.

End Environment.

(** ** Words for the properties *)

(** A field that is absent or a string. *)
Definition text_or_absent (field : option Json) : Prop :=
  field = None ∨ ∃ s, field = Some (JString s).

(** ** Sample payment data *)

Definition now0 : Date := mkDate 2024 5 15.

Definition booking0 : gmap string Json :=
  <["flights" := JArray [JString "F1"]]>
    (<["seats" := JArray [JString "3C"]]>
       (<["passengers" := JArray [JObject ∅]]> {["totalPrice" := JNumber 260]})).

Definition event0 (booking : gmap string Json) : PaymentData :=
  {| httpMethod := Some (JString "POST");
     cardNumber := Some (JString "4111 1111 1111 1111");
     expiryDate := Some (JString "12/25");
     cvv := Some (JString "123");
     cardName := Some (JString "Ann Lee");
     billingAddress := Some (JString "1 Main St");
     bookingData := Some (JObject booking) |}.

(** An environment for the samples: no conversion succeeds, and the store
    takes every item. *)
Definition toString0 (v : Json) : Result string :=
  Throw (TypeError "Cannot convert object to primitive value").
Definition toNumber0 (v : Json) : Result float :=
  Throw (TypeError "Cannot convert object to primitive value").
Definition accepts0 (item : gmap string Json) : bool := true.

End PaymentData.


(** * Properties *)
(* ===================================================================== *)

Import JS Store SeatMap SearchFlights Examples.

(** ** The primitives on sample values *)

Example round_samples :
  map round [2.5; -2.5; 2.4; 0.49999999999999994; -0.2; 25999.5; 26000]%float
  = [3; -2; 2; 0; -0; 26000; 26000]%float.
Proof. reflexivity. Qed.

Example ceil_samples :
  map ceil [4.2; 5; -0.5; 0.000001; -3.7]%float = [5; 5; -0; 1; -3]%float.
Proof. reflexivity. Qed.

Example floor_samples :
  map floor [4.2; 5; -0.5; 0.3; -3.7; 4503599627370495.5]%float
  = [4; 5; -1; 0; -4; 4503599627370495]%float.
Proof. reflexivity. Qed.

Example applyDynamicPricing_samples :
  map price
    (applyDynamicPricing 1700000000000
       [mkFlight 180 170 [] [] [] 25 200 1700362880000;
        mkFlight 180 18 [] [] [] 25 199.99 1700259200000;
        mkFlight 180 60 [] [] [] 25 149.5 1700864000000;
        mkFlight 180 72 [] [] [] 25 99.95 1701728000000;
        mkFlight 180 36 [] [] [] 25 0.125 1703456000000;
        mkFlight 180 0 [] [] [] 25 1.005 1700604800000;
        mkFlight 180 35 [] [] [] 25 33.335 1700604800008.64;
        mkFlight 180 36 [] [] [] 25 1234.565 1701209600000])
  = [260; 363.98; 215.28; 109.95; 0.15; 1.83; 56; 1777.77]%float.
Proof. reflexivity. Qed.

Example parseInt_samples :
  map parseInt ["14C"; "7F"; " 42"; "-3x"; "0x1F"; "A1"; ""]
  = [Some 14; Some 7; Some 42; Some (-3); Some 31; None; None]%Z.
Proof. reflexivity. Qed.

Example seatPattern_samples :
  map (test seatPattern) ["1A"; "10A"; "99F"; "40A"; "0A"; "100A"; "1G"; "1a"; "12"; "1A "]
  = [true; true; true; true; false; false; false; false; false; false].
Proof. reflexivity. Qed.

(** ** Loops and lists *)

Lemma fold_left_push_many {A B : Type} (g : A → list B) (l : list A) (acc : list B) :
  fold_left (λ acc i, acc ++ g i) l acc = acc ++ flat_map g l.
Proof.
  revert acc. induction l as [|x l IH]; intros acc; simpl.
  - by rewrite app_nil_r.
  - by rewrite IH, app_assoc.
Qed.

Lemma fold_left_ext_eq {A B : Type} (f g : A → B → A) (l : list B) (a : A) :
  (∀ a b, f a b = g a b) → fold_left f l a = fold_left g l a.
Proof.
  intros Hfg. revert a. induction l as [|b l IH]; intros a; simpl; [done|].
  by rewrite Hfg, IH.
Qed.

Lemma for_loop_push {A : Type} (g : Z → A) (lo : Z) (n : nat) (acc : list A) :
  for_loop lo n (λ i acc, push acc (g i)) acc = acc ++ map g (seqZ lo (Z.of_nat n)).
Proof.
  unfold for_loop, push.
  rewrite (fold_left_push_many (λ i, [g i])). f_equal.
Qed.

Lemma lookup_flat_map_uniform {A B : Type} (g : A → list B) (n : nat) (l : list A)
    (i j : nat) (x : A) :
  (∀ a, length (g a) = n) → l !! i = Some x → j < n →
  flat_map g l !! (i * n + j) = g x !! j.
Proof.
  intros Hlen. revert i. induction l as [|a l IH]; intros i Hi Hj; [done|].
  destruct i as [|i]; simpl in *.
  - simplify_eq. rewrite lookup_app_l; [done|]. rewrite Hlen. lia.
  - rewrite lookup_app_r by (rewrite Hlen; lia). rewrite Hlen.
    replace (n + i * n + j - n) with (i * n + j) by lia. by apply IH.
Qed.

(** ** The seat map *)

(** The entry the generator pushes for one row and one column. *)
Lemma generateSeatMap_rows (flight : Flight) :
  generateSeatMap flight =
  flat_map (λ row,
    map (λ seatNum,
      let seatId := toString row +:+ fromCharCode (65 + seatNum) in
      {| id := seatId;
         number := seatId;
         status := if includes (occupiedSeats flight) seatId then occupied else available;
         isEmergencyExit := includes (emergencyExitRows flight) row;
         isPremium := includes (premiumSeats flight) seatId |})
      (seqZ 0 6)) (seqZ 1 30).
Proof.
  unfold generateSeatMap, for_loop at 1.
  erewrite fold_left_ext_eq.
  - rewrite fold_left_push_many. reflexivity.
  - intros acc row. cbv beta. rewrite for_loop_push. reflexivity.
Qed.

Lemma generateSeatMap_status (flight : Flight) (seat : Seat) :
  seat ∈ generateSeatMap flight →
  status seat = if includes (occupiedSeats flight) (id seat) then occupied else available.
Proof.
  rewrite generateSeatMap_rows, list_elem_of_In, in_flat_map.
  intros (row & _ & Hin). apply list_elem_of_In, list_elem_of_fmap in Hin.
  destruct Hin as (seatNum & -> & _). reflexivity.
Qed.

Lemma letters_fromCharCode (column : nat) (letter : string) :
  letters !! column = Some letter →
  column < 6 ∧ fromCharCode (65 + Z.of_nat column) = letter.
Proof.
  intros H.
  do 6 (destruct column as [|column];
        [injection H as <-; split; [lia|reflexivity]|]).
  discriminate H.
Qed.

(** The ids do not depend on the flight. *)
Lemma generateSeatMap_ids (flight : Flight) :
  map id (generateSeatMap flight)
  = flat_map (λ row, map (λ letter, toString row +:+ letter) letters) (seqZ 1 30).
Proof. vm_compute. reflexivity. Qed.

(** C1: the seat map of any flight has 30 × 6 = 180 entries, one per row
    1..30 and column A..F in row-major order (1A, 1B, ..., 1F, 2A, ...),
    with distinct ids; the entry of a row and a letter has the id "row
    followed by letter", is occupied exactly when its id is among the
    flight's occupied seats and available otherwise, is an emergency exit
    exactly when its row is among the flight's emergency exit rows, and is
    premium exactly when its id is among the premium seats. In particular
    every entry is available when no seat is occupied, and every entry is
    occupied when all seats are. *)
Theorem generateSeatMap_layout (flight : Flight) :
  let seatMap := generateSeatMap flight in
  length seatMap = 180
  ∧ map id seatMap
    = flat_map (λ row, map (λ letter, toString row +:+ letter) letters) (seqZ 1 30)
  ∧ NoDup (map id seatMap)
  ∧ (∀ (row column : nat) (letter : string),
       row < 30 → letters !! column = Some letter →
       ∃ seat, seatMap !! (6 * row + column) = Some seat
         ∧ id seat = toString (Z.of_nat row + 1) +:+ letter
         ∧ (status seat = occupied ↔ id seat ∈ occupiedSeats flight)
         ∧ (status seat = available ↔ id seat ∉ occupiedSeats flight)
         ∧ (isEmergencyExit seat = true
            ↔ (Z.of_nat row + 1)%Z ∈ emergencyExitRows flight)
         ∧ (isPremium seat = true ↔ id seat ∈ premiumSeats flight))
  ∧ (occupiedSeats flight = [] →
     ∀ seat, seat ∈ seatMap → status seat = available)
  ∧ ((∀ seat, seat ∈ seatMap → id seat ∈ occupiedSeats flight) →
     ∀ seat, seat ∈ seatMap → status seat = occupied).
Proof.
  intros seatMap. subst seatMap.
  split; [vm_compute; reflexivity|].
  split; [apply generateSeatMap_ids|].
  split.
  { rewrite generateSeatMap_ids. apply (bool_decide_unpack _). vm_compute. exact I. }
  split.
  { intros row column letter Hrow Hletter.
    apply letters_fromCharCode in Hletter as [Hcolumn <-].
    rewrite generateSeatMap_rows, (Nat.mul_comm 6 row).
    rewrite (lookup_flat_map_uniform _ 6 _ row column (Z.of_nat row + 1)%Z).
    - rewrite list_lookup_fmap, lookup_seqZ_lt by lia. simpl.
      eexists. split; [reflexivity|]. simpl.
      split; [by rewrite Z.add_0_l|].
      unfold includes. repeat split; intros H;
        repeat case_bool_decide; try done; by rewrite ?Z.add_0_l in *.
    - intros a. by rewrite length_map.
    - rewrite lookup_seqZ_lt by lia. f_equal. lia.
    - done. }
  split.
  - intros Hnone seat Hseat. rewrite (generateSeatMap_status flight seat Hseat).
    unfold includes. rewrite Hnone. case_bool_decide as Hin; [|done].
    by apply elem_of_nil in Hin.
  - intros Hall seat Hseat. rewrite (generateSeatMap_status flight seat Hseat).
    unfold includes. rewrite bool_decide_eq_true_2; [done|by apply Hall].
Qed.

(** ** Validation *)

Lemma every_true {A : Type} (f : A → nat → Result bool) (l : list A) (k : nat) :
  every f l k = Ok true ↔ ∀ i x, l !! i = Some x → f x (k + i) = Ok true.
Proof.
  revert k. induction l as [|a l IH]; intros k; simpl.
  - split; [intros _ i x Hi; by destruct i|done].
  - split.
    + intros H i x Hi.
      destruct (f a k) as [[|]|e] eqn:Ha; try discriminate H.
      destruct i as [|i]; simpl in Hi.
      * simplify_eq. by rewrite Nat.add_0_r.
      * replace (k + S i) with (S k + i) by lia. by apply (proj1 (IH (S k))).
    + intros H.
      rewrite <- (Nat.add_0_r k) at 1. rewrite (H 0 a eq_refl).
      apply IH. intros i x Hi.
      replace (S k + i) with (k + S i) by lia. by apply H.
Qed.

Lemma every_no_throw {A : Type} (f : A → nat → Result bool) (l : list A) (k : nat) :
  (∀ i x, l !! i = Some x → ∃ b, f x (k + i) = Ok b) →
  ∃ b, every f l k = Ok b.
Proof.
  revert k. induction l as [|a l IH]; intros k H; simpl; [by eexists|].
  destruct (H 0 a eq_refl) as [b Hb]. rewrite Nat.add_0_r in Hb. rewrite Hb.
  destruct b; [|by eexists].
  apply IH. intros i x Hi.
  replace (S k + i) with (k + S i) by lia. by apply H.
Qed.

(** The selected seat at position [i] lies in an emergency exit row. *)
Lemma validateEmergencyExitRows_true (today : Date) (seats : list string)
    (passengers : list Passenger) (flight : Flight) :
  length seats ≤ length passengers →
  validateEmergencyExitRows today seats passengers flight = Ok true
  ↔ ∀ i seat row passenger,
      seats !! i = Some seat → parseInt seat = Some row →
      row ∈ emergencyExitRows flight → passengers !! i = Some passenger →
      isEligibleForEmergencyRow today passenger = true.
Proof.
  intros Hlen. unfold validateEmergencyExitRows.
  destruct seats as [|seat0 seats']; [simpl; split; [by intros _ []|done]|].
  change (length (seat0 :: seats') =? 0) with false. cbv iota.
  rewrite every_true. split.
  - intros H i seat row passenger Hseat Hrow Hexit Hpassenger.
    specialize (H i seat Hseat). simpl in H.
    rewrite Hrow, Hpassenger in H. unfold includes in H.
    rewrite bool_decide_eq_true_2 in H by done. by simplify_eq.
  - intros H i seat Hseat. simpl.
    destruct (parseInt seat) as [row|] eqn:Hrow; [|done].
    unfold includes. case_bool_decide as Hexit; [|done].
    destruct (passengers !! i) as [passenger|] eqn:Hpassenger.
    + f_equal. by eapply H.
    + apply lookup_ge_None in Hpassenger. apply lookup_lt_Some in Hseat. lia.
Qed.

Lemma validateEmergencyExitRows_no_throw (today : Date) (seats : list string)
    (passengers : list Passenger) (flight : Flight) :
  length seats ≤ length passengers →
  ∃ b, validateEmergencyExitRows today seats passengers flight = Ok b.
Proof.
  intros Hlen. unfold validateEmergencyExitRows.
  destruct (length seats =? 0); [by eexists|].
  apply every_no_throw. intros i seat Hseat. simpl.
  destruct (match parseInt seat with Some row => _ | None => _ end); [|by eexists].
  destruct (passengers !! i) as [passenger|] eqn:Hpassenger; [by eexists|].
  apply lookup_ge_None in Hpassenger. apply lookup_lt_Some in Hseat. lia.
Qed.

Lemma calculateAge_whole_years (today birthDate : Date) (age : Z) :
  calculateAge today (Some birthDate) = Some age ↔ whole_years today birthDate age.
Proof.
  unfold calculateAge, whole_years, day_le.
  destruct (_ || _) eqn:Hcase.
  - apply orb_true_iff in Hcase as [H|H].
    + apply Z.ltb_lt in H. split; [intros [= <-]; lia|intros ?; f_equal; lia].
    + apply andb_true_iff in H as [H1 H2].
      apply Z.eqb_eq in H1. apply Z.ltb_lt in H2.
      split; [intros [= <-]; lia|intros ?; f_equal; lia].
  - apply orb_false_iff in Hcase as [H1 H2]. apply Z.ltb_ge in H1.
    apply andb_false_iff in H2.
    split; [intros [= <-]|intros ?; f_equal];
      (destruct H2 as [H2|H2]; [apply Z.eqb_neq in H2|apply Z.ltb_ge in H2]; lia).
Qed.

(** A seat id made of a row from 1 to 99 and a letter from A to F matches
    the seat pattern, and [parseInt] reads its row back. *)
Lemma parseInt_seat_id (row : Z) (letter : string) :
  (1 ≤ row ≤ 99)%Z → letter ∈ letters →
  test seatPattern (toString row +:+ letter) = true
  ∧ parseInt (toString row +:+ letter) = Some row.
Proof.
  intros Hrow Hletter.
  assert (Hall : forallb (λ row, forallb (λ letter,
            test seatPattern (toString row +:+ letter)
            && bool_decide (parseInt (toString row +:+ letter) = Some row))
            letters) (seqZ 1 99) = true) by (vm_compute; reflexivity).
  rewrite forallb_forall in Hall.
  specialize (Hall row). rewrite forallb_forall in Hall.
  assert (Hin : In row (seqZ 1 99)) by (apply list_elem_of_In, elem_of_seqZ; lia).
  apply list_elem_of_In in Hletter.
  specialize (Hall Hin letter Hletter).
  apply andb_true_iff in Hall as [Htest Hparse].
  by apply bool_decide_eq_true in Hparse.
Qed.

(** C4: for each selected seat at position i whose row is an emergency exit
    row of the flight, validation requires the passenger at position i to
    have an age, in whole years elapsed since the date of birth (one less
    than the difference of the years while the birthday's month and day are
    still to come), between 15 and 75 inclusive: ages 14 and 76 are
    rejected, ages 15 and 75 pass. *)
Theorem emergency_exit_age_rule (today : Date) (seats : list string)
    (passengers : list Passenger) (flight : Flight) :
  length seats ≤ length passengers →
  (validateEmergencyExitRows today seats passengers flight = Ok true
   ↔ ∀ i seat row passenger,
       seats !! i = Some seat → parseInt seat = Some row →
       row ∈ emergencyExitRows flight → passengers !! i = Some passenger →
       ∃ birthDate age,
         dateOfBirth passenger = Some birthDate
         ∧ whole_years today birthDate age ∧ (15 ≤ age ≤ 75)%Z)
  ∧ (validateEmergencyExitRows today seats passengers flight = Ok true
     ∨ validateEmergencyExitRows today seats passengers flight = Ok false)
  ∧ (∀ row letter, (1 ≤ row ≤ 99)%Z → letter ∈ letters →
       parseInt (toString row +:+ letter) = Some row)
  ∧ (∀ passenger birthDate,
       dateOfBirth passenger = Some birthDate →
       (whole_years today birthDate 14 → isEligibleForEmergencyRow today passenger = false)
       ∧ (whole_years today birthDate 15 → isEligibleForEmergencyRow today passenger = true)
       ∧ (whole_years today birthDate 75 → isEligibleForEmergencyRow today passenger = true)
       ∧ (whole_years today birthDate 76 → isEligibleForEmergencyRow today passenger = false)).
Proof.
  intros Hlen. split; [|split; [|split]].
  - rewrite validateEmergencyExitRows_true by done.
    split; intros H i seat row passenger Hseat Hrow Hexit Hpassenger;
      specialize (H i seat row passenger Hseat Hrow Hexit Hpassenger).
    + unfold isEligibleForEmergencyRow in H.
      destruct (dateOfBirth passenger) as [birthDate|]; [|done].
      destruct (calculateAge today (Some birthDate)) as [age|] eqn:Hage; [|done].
      exists birthDate, age. split; [done|].
      split; [by apply calculateAge_whole_years|lia].
    + destruct H as (birthDate & age & Hbirth & Hage & Hrange).
      unfold isEligibleForEmergencyRow. rewrite Hbirth.
      apply calculateAge_whole_years in Hage. rewrite Hage. lia.
  - destruct (validateEmergencyExitRows_no_throw today seats passengers flight Hlen)
      as [[|] Hb]; auto.
  - intros row letter Hrow Hletter. by apply parseInt_seat_id.
  - intros passenger birthDate Hbirth. unfold isEligibleForEmergencyRow.
    rewrite Hbirth.
    repeat split; intros Hage; apply calculateAge_whole_years in Hage;
      by rewrite Hage.
Qed.

(** A passenger who turns 15 today, seated in emergency exit row 12. *)
Lemma emergency_exit_age_rule_witness :
  validateEmergencyExitRows today1 ["12A"] [bornOn 2009 5 15] flight1 = Ok true.
Proof.
  apply (emergency_exit_age_rule today1 ["12A"] [bornOn 2009 5 15] flight1);
    [simpl; lia|].
  intros i seat row passenger Hseat Hrow Hexit Hpassenger.
  destruct i as [|i]; [|discriminate Hseat].
  injection Hpassenger as <-.
  exists (mkDate 2009 5 15), 15%Z.
  split; [reflexivity|]. split; [|lia].
  unfold whole_years, day_le. simpl. lia.
Defined.

(** ** The handler on a reservation request *)

Lemma is_post_checks (event : Event) :
  is_post event →
  bool_decide (httpMethod event = Some "OPTIONS") = false
  ∧ negb (bool_decide (httpMethod event = Some "POST"))
    && negb (bool_decide (requestContext_http_method event = Some "POST")) = false.
Proof.
  intros [Hoptions Hpost]. split; [by apply bool_decide_eq_false_2|].
  destruct Hpost as [H|H]; rewrite (bool_decide_eq_true_2 _ H); simpl;
    [done|by rewrite andb_false_r].
Qed.

Lemma truthy_Some (s : string) : s ≠ "" → truthy (Some s) = true.
Proof. intros H. unfold truthy. by rewrite bool_decide_eq_false_2. Qed.

(** What is left of the handler once the flight has been read. *)
Lemma step_handler_reserve (today : Date) (event : Event) (flightId : string)
    (seats : list string) (passengers : list Passenger) (t : Table) (flight : Flight) :
  reserve_request event flightId seats passengers →
  validateSeatSelection (Array seats) passengers = true →
  t !! flightId = Some flight →
  validateSeatAvailability seats flight = true →
  validateEmergencyExitRows today seats passengers flight = Ok true →
  ∃ p, step (handler today event) t = (p, t)
    ∧ ∀ t' : Table,
        run p t' =
        match t' !! flightId with
        | Some flight' =>
            (Ok (createResponse 200
                   (ReservedBody true seats (calculateSeatCost seats flight))),
             <[flightId := append_occupied flight' seats]> t')
        | None =>
            (Ok (createResponse 500
                   (ErrorBody "Internal server error"
                      (Some "Concurrent seat reservation detected"))), t')
        end.
Proof.
  intros (Hpost & Hid & Hbody) Hselection Hflight Havailable Heligible.
  destruct (is_post_checks event Hpost) as [Hoptions Hmethod].
  unfold handler. rewrite Hbody. simpl.
  rewrite Hoptions, Hmethod. simpl.
  rewrite (truthy_Some _ Hid). simpl. rewrite Hselection. simpl.
  unfold get_item. rewrite Hflight. simpl.
  rewrite Havailable, Heligible. simpl.
  eexists. split; [reflexivity|].
  intros t'. destruct (t' !! flightId) as [flight'|] eqn:Hflight';
    simpl; unfold update_item; rewrite Hflight'; reflexivity.
Qed.

(** The handler on a reservation request when no other request touches the
    table in between. *)
Lemma run_handler_reserve (today : Date) (event : Event) (flightId : string)
    (seats : list string) (passengers : list Passenger) (t : Table) :
  reserve_request event flightId seats passengers →
  run (handler today event) t =
  if validateSeatSelection (Array seats) passengers then
    match t !! flightId with
    | None =>
        (Ok (createResponse 500
               (ErrorBody "Internal server error" (Some "Flight not found"))), t)
    | Some flight =>
        if validateSeatAvailability seats flight then
          match validateEmergencyExitRows today seats passengers flight with
          | Ok true =>
              (Ok (createResponse 200
                     (ReservedBody true seats (calculateSeatCost seats flight))),
               <[flightId := append_occupied flight seats]> t)
          | Ok false =>
              (Ok (createResponse 400
                     (ErrorBody "Invalid emergency exit row selection" None)), t)
          | Throw e =>
              (Ok (createResponse 500
                     (ErrorBody "Internal server error" (Some (error_message e)))), t)
          end
        else
          (Ok (createResponse 409
                 (ErrorBody "Selected seats are no longer available" None)), t)
    end
  else (Ok (createResponse 400 (ErrorBody "Invalid seat selection" None)), t).
Proof.
  intros (Hpost & Hid & Hbody).
  destruct (is_post_checks event Hpost) as [Hoptions Hmethod].
  unfold handler. rewrite Hbody. simpl.
  rewrite Hoptions, Hmethod. simpl.
  rewrite (truthy_Some _ Hid). simpl.
  destruct (validateSeatSelection (Array seats) passengers); simpl; [|done].
  unfold get_item. destruct (t !! flightId) as [flight|] eqn:Hflight; simpl; [|done].
  destruct (validateSeatAvailability seats flight); simpl; [|done].
  destruct (validateEmergencyExitRows today seats passengers flight) as [[|]|e];
    simpl; [|done|done].
  unfold update_item. by rewrite Hflight.
Qed.

Lemma run_handler_getSeatMap (today : Date) (event : Event) (flightId : string)
    (t : Table) :
  seat_map_request event flightId →
  run (handler today event) t =
  match t !! flightId with
  | None =>
      (Ok (createResponse 500
             (ErrorBody "Internal server error" (Some "Flight not found"))), t)
  | Some flight =>
      (Ok (createResponse 200
             (SeatMapBody (generateSeatMap flight)
                          (emergencyExitRows flight) (premiumSeats flight))), t)
  end.
Proof.
  intros (Hpost & Hid & requestData & Hbody & Haction & Hflight).
  destruct (is_post_checks event Hpost) as [Hoptions Hmethod].
  unfold handler. rewrite Hbody. simpl.
  rewrite Hoptions, Hmethod. simpl.
  rewrite Haction, Hflight. simpl. rewrite (truthy_Some _ Hid). simpl.
  unfold get_item. by destruct (t !! flightId).
Qed.

Lemma append_occupied_nil (flight : Flight) : append_occupied flight [] = flight.
Proof. destruct flight. unfold append_occupied. simpl. by rewrite app_nil_r. Qed.

(** C6: a selection of length 0 passes seat-selection validation whatever
    the passengers and the flight record are: the cardinality and format
    checks, the availability check and the emergency-row check are all
    skipped, and a reservation request with an empty selection for a stored
    flight succeeds, reserving nothing. *)
Theorem empty_selection_valid (today : Date) (passengers : list Passenger)
    (flight : Flight) :
  validateSeatSelection (Array []) passengers = true
  ∧ validateSeatAvailability [] flight = true
  ∧ validateEmergencyExitRows today [] passengers flight = Ok true
  ∧ (∀ (event : Event) (flightId : string) (t : Table),
       reserve_request event flightId [] passengers →
       t !! flightId = Some flight →
       run (handler today event) t
       = (Ok (createResponse 200 (ReservedBody true [] 0%float)), t)).
Proof.
  repeat split.
  intros event flightId t Hrequest Hflight.
  rewrite (run_handler_reserve today event flightId [] passengers t Hrequest).
  rewrite Hflight.
  change (validateSeatSelection (Array []) passengers) with true.
  change (validateSeatAvailability [] flight) with true.
  change (validateEmergencyExitRows today [] passengers flight) with (Ok (A:=bool) true).
  cbv iota. rewrite append_occupied_nil, insert_id by done. reflexivity.
Qed.

(** ** Pricing *)

(** The rounding functions, against the whole numbers they stand for. *)
Lemma pow2_pos (k : Z) : (0 < 2 ^ k ∨ k < 0)%Z.
Proof.
  destruct (Z.lt_ge_cases k 0) as [H|H]; [by right|left].
  by apply Z.pow_pos_nonneg.
Qed.

Section WholeNumbers.
Local Open Scope Z_scope.

Lemma digits2_pos_iter (p : positive) (k : positive) :
  Z.pos (digits2_pos (Pos.iter xO p k)) = (Z.pos (digits2_pos p) + Z.pos k)%Z.
Proof.
  induction k as [|k IH] using Pos.peano_ind.
  - cbn [Pos.iter digits2_pos]. rewrite Pos2Z.inj_succ. lia.
  - rewrite Pos.iter_succ. cbn [digits2_pos]. rewrite Pos2Z.inj_succ, IH. lia.
Qed.

Lemma digits2_pos_shiftl (p : positive) (k : N) :
  Z.pos (digits2_pos (Pos.shiftl p k)) = (Z.pos (digits2_pos p) + Z.of_N k)%Z.
Proof.
  destruct k as [|k]; [|apply digits2_pos_iter].
  change (Pos.shiftl p 0) with p. change (Z.of_N 0) with 0%Z. lia.
Qed.

Lemma pos_iter_value (p k : positive) :
  Z.pos (Pos.iter xO p k) = Z.pos p * 2 ^ Z.pos k.
Proof.
  induction k as [|k IH] using Pos.peano_ind.
  - cbn [Pos.iter]. rewrite Pos2Z.inj_xO. change (2 ^ 1) with 2. lia.
  - rewrite Pos.iter_succ, Pos2Z.inj_xO, IH, Pos2Z.inj_succ, Z.pow_succ_r by lia. lia.
Qed.

Lemma pos_shiftl_value (p : positive) (k : N) :
  Z.pos (Pos.shiftl p k) = Z.pos p * 2 ^ Z.of_N k.
Proof.
  destruct k as [|k]; [|apply pos_iter_value].
  change (Pos.shiftl p 0) with p. change (2 ^ Z.of_N 0)%Z with 1%Z. lia.
Qed.

Lemma whole_pos_valid (negative : bool) (p : positive) :
  (Z.pos (digits2_pos p) ≤ 53)%Z → valid_binary (whole_pos negative p) = true.
Proof.
  intros Hdigits. unfold whole_pos.
  rewrite (proj2 (Z.leb_le _ _) Hdigits).
  unfold SpecFloat.valid_binary, bounded, canonical_mantissa, fexp.
  rewrite digits2_pos_shiftl, Z2N.id by lia.
  apply andb_true_iff. split.
  - apply Z.eqb_eq. unfold SpecFloat.emin, prec, emax. lia.
  - apply Z.leb_le. unfold prec, emax. lia.
Qed.

Lemma digits2_pos_bound (p : positive) :
  (Z.pos p < 2 ^ 53)%Z → (Z.pos (digits2_pos p) ≤ 53)%Z.
Proof.
  intros Hp.
  destruct (Z.le_gt_cases (Z.pos (digits2_pos p)) 53) as [|Hd]; [done|exfalso].
  assert (H : ∀ q : positive, (2 ^ (Z.pos (digits2_pos q) - 1) ≤ Z.pos q)%Z).
  { induction q as [q IH|q IH|]; simpl digits2_pos.
    - rewrite Pos2Z.inj_succ. replace (Z.succ (Z.pos (digits2_pos q)) - 1)
        with (Z.succ (Z.pos (digits2_pos q) - 1)) by lia.
      rewrite Z.pow_succ_r by lia. lia.
    - rewrite Pos2Z.inj_succ. replace (Z.succ (Z.pos (digits2_pos q)) - 1)
        with (Z.succ (Z.pos (digits2_pos q) - 1)) by lia.
      rewrite Z.pow_succ_r by lia. lia.
    - simpl. lia. }
  specialize (H p).
  assert (2 ^ 53 ≤ 2 ^ (Z.pos (digits2_pos p) - 1))%Z by (apply Z.pow_le_mono_r; lia).
  lia.
Qed.

Lemma whole_pos_value (negative : bool) (p : positive) :
  (Z.pos p < 2 ^ 53)%Z →
  ∃ m e, whole_pos negative p = S754_finite negative m e
         ∧ valid_binary (S754_finite negative m e) = true
         ∧ (e ≤ 0)%Z ∧ (Z.pos m = Z.pos p * 2 ^ (- e))%Z.
Proof.
  intros Hp.
  assert (Hd : (Z.pos (digits2_pos p) ≤ 53)%Z) by by apply digits2_pos_bound.
  pose proof (whole_pos_valid negative p Hd) as Hvalid.
  unfold whole_pos in *. rewrite (proj2 (Z.leb_le _ _) Hd) in *.
  eexists _, _. split; [reflexivity|]. split; [exact Hvalid|]. split; [lia|].
  rewrite pos_shiftl_value, Z2N.id by lia. f_equal. f_equal. lia.
Qed.

Lemma whole_is_whole (negative : bool) (n : Z) :
  (- 2 ^ 53 < n < 2 ^ 53)%Z → is_whole (whole negative n) negative n.
Proof.
  intros Hn. unfold is_whole, whole.
  destruct n as [|p|p].
  - by rewrite Prim2SF_SF2Prim.
  - destruct (whole_pos_value false p) as (m & e & -> & Hvalid & He & Hm); [lia|].
    rewrite Prim2SF_SF2Prim by done. cbn [signed].
    destruct (Z.ltb_spec e 0) as [Hlt|Hge]; [done|].
    replace e with 0%Z in * by lia. change (2 ^ (- 0))%Z with 1%Z in Hm. lia.
  - destruct (whole_pos_value true p) as (m & e & -> & Hvalid & He & Hm); [lia|].
    rewrite Prim2SF_SF2Prim by done. cbn [signed].
    destruct (Z.ltb_spec e 0) as [Hlt|Hge]; [lia|].
    replace e with 0%Z in * by lia. change (2 ^ (- 0))%Z with 1%Z in Hm. lia.
Qed.

End WholeNumbers.

Lemma digits2_pos_upper (q : positive) : (Z.pos q < 2 ^ Z.pos (digits2_pos q))%Z.
Proof.
  induction q as [q IH|q IH|]; cbn [digits2_pos]; [| |done].
  - rewrite Pos2Z.inj_succ, Z.pow_succ_r by lia. lia.
  - rewrite Pos2Z.inj_succ, Z.pow_succ_r by lia. lia.
Qed.

(** The mantissa of a float has at most 53 binary digits. *)
Lemma mantissa_bound (x : float) (s : bool) (m : positive) (e : Z) :
  Prim2SF x = S754_finite s m e → (Z.pos m < 2 ^ 53)%Z.
Proof.
  intros Hx. pose proof (Prim2SF_valid x) as Hvalid. rewrite Hx in Hvalid.
  unfold SpecFloat.valid_binary, bounded, canonical_mantissa, fexp in Hvalid.
  apply andb_true_iff in Hvalid as [Hcanonical _]. apply Z.eqb_eq in Hcanonical.
  assert (Hdigits : (Z.pos (digits2_pos m) ≤ 53)%Z) by (unfold FloatOps.prec in *; lia).
  pose proof (digits2_pos_upper m).
  assert (2 ^ Z.pos (digits2_pos m) ≤ 2 ^ 53)%Z by (apply Z.pow_le_mono_r; lia).
  lia.
Qed.

Lemma ceil_least_whole_above (x : float) : least_whole_above x (ceil x).
Proof.
  unfold least_whole_above, ceil.
  destruct (Prim2SF x) as [| | |s m e] eqn:Hx; try reflexivity.
  destruct (Z.ltb_spec e 0) as [He|He].
  - rewrite (proj2 (Z.leb_gt 0 e)) by lia.
    pose proof (mantissa_bound x s m e Hx) as Hm.
    destruct (pow2_pos (- e)) as [Hpos|]; [|lia].
    set (P := (2 ^ (- e))%Z) in *.
    pose proof (Z.div_mod (- signed s m) P ltac:(lia)) as Hdiv.
    pose proof (Z.mod_pos_bound (- signed s m) P Hpos) as Hmod.
    assert (Hsigned : (- Z.pos m ≤ signed s m ≤ Z.pos m)%Z) by (destruct s; simpl; lia).
    eexists. split; [apply whole_is_whole; nia|nia].
  - by rewrite (proj2 (Z.leb_le 0 e)) by lia.
Qed.

Lemma round_nearest_whole (x : float) : nearest_whole x (round x).
Proof.
  unfold nearest_whole, round.
  destruct (Prim2SF x) as [| | |s m e] eqn:Hx; try reflexivity.
  destruct (Z.ltb_spec e 0) as [He|He].
  - rewrite (proj2 (Z.leb_gt 0 e)) by lia.
    pose proof (mantissa_bound x s m e Hx) as Hm.
    replace (1 - e)%Z with (Z.succ (- e)) by lia. rewrite Z.pow_succ_r by lia.
    destruct (pow2_pos (- e)) as [Hpos|]; [|lia].
    assert (Hpow : (2 ≤ 2 ^ (- e))%Z).
    { change 2%Z with (2 ^ 1)%Z at 1. apply Z.pow_le_mono_r; lia. }
    set (P := (2 ^ (- e))%Z) in *.
    pose proof (Z.div_mod (2 * signed s m + P) (2 * P) ltac:(lia)) as Hdiv.
    pose proof (Z.mod_pos_bound (2 * signed s m + P) (2 * P) ltac:(lia)) as Hmod.
    assert (Hsigned : (- Z.pos m ≤ signed s m ≤ Z.pos m)%Z) by (destruct s; simpl; lia).
    eexists. split; [apply whole_is_whole; nia|nia].
  - by rewrite (proj2 (Z.leb_le 0 e)) by lia.
Qed.

(** The two thresholds of the occupancy, for every flight of up to 400
    seats. *)
Lemma thresholds_exact_upto_400 :
  forallb (λ total,
    forallb (λ available, thresholds_exact total available) (seqZ 0 (total + 1)))
    (seqZ 1 400) = true.
Proof. vm_cast_no_check (eq_refl true). Qed.

(** C5: the fare of every flight is its base price times the product of the
    time factor (1.3 up to 7 days before departure, 1.2 up to 14, 1.1 up to
    30, else 1.0) and the occupancy factor (1.4 above an occupancy of 0.8,
    1.2 above 0.6, else 1.0), rounded to two decimals as [Math.round] does:
    in hundredths, it is the whole number nearest to the product, the upper
    one of two. The days to departure are the time to the departure in
    days, rounded up to the least whole number not below; a whole number
    is a float whose mantissa and exponent make that number. The occupancy is
    the share of the seats that are not available: for whole numbers of
    seats, up to 400, the factor is 1.4 exactly when more than four fifths
    of the seats are taken, and 1.2 exactly when more than three fifths but
    not more than four fifths are. For 180 seats of which 170 are available,
    a base price of 200 and a departure in 5 days the fare is 260. *)
Theorem applyDynamicPricing_fare (today : float) (flights : list Flight) :
  Forall2 (λ flight priced,
             SearchFlights.flight priced = flight
             ∧ is_fare today flight (price priced))
          flights (applyDynamicPricing today flights)
  ∧ (∀ flight : Flight,
       least_whole_above ((departureTime flight - today) / day)%float
                         (days_to_departure today flight))
  ∧ (∀ (negative : bool) (n : Z),
       (- 2 ^ 53 < n < 2 ^ 53)%Z → is_whole (whole negative n) negative n)
  ∧ (∀ (flight : Flight) (total available : Z),
       (0 < total ≤ 400)%Z → (0 ≤ available ≤ total)%Z →
       totalSeats flight = whole false total →
       availableSeats flight = whole false available →
       occupancyFactor (occupancy flight) = exact_occupancy_factor total available)
  ∧ (∀ flight : Flight,
       totalSeats flight = 180%float → availableSeats flight = 170%float →
       basePrice flight = 200%float → days_to_departure today flight = 5%float →
       applyDynamicPricing today [flight] = [{| flight := flight; price := 260 |}]).
Proof.
  assert (Hmultiplier : ∀ flight : Flight,
    (let daysUntilFlight := daysUntilFlight today flight in
     let priceMultiplier := 1.0%float in
     let priceMultiplier :=
       if PrimFloat.leb daysUntilFlight 7 then (priceMultiplier * 1.3)%float
       else if PrimFloat.leb daysUntilFlight 14 then (priceMultiplier * 1.2)%float
       else if PrimFloat.leb daysUntilFlight 30 then (priceMultiplier * 1.1)%float
       else priceMultiplier in
     let occupancyRate := occupancyRate flight in
     if PrimFloat.ltb 0.8 occupancyRate then (priceMultiplier * 1.4)%float
     else if PrimFloat.ltb 0.6 occupancyRate then (priceMultiplier * 1.2)%float
     else priceMultiplier)
    = (timeFactor (days_to_departure today flight)
       * occupancyFactor (occupancy flight))%float).
  { intros flight. unfold timeFactor, occupancyFactor. cbv zeta.
    change (daysUntilFlight today flight) with (days_to_departure today flight).
    change (occupancyRate flight) with (occupancy flight).
    destruct (PrimFloat.leb (days_to_departure today flight) 7);
      destruct (PrimFloat.leb (days_to_departure today flight) 14);
      destruct (PrimFloat.leb (days_to_departure today flight) 30);
      destruct (PrimFloat.ltb 0.8 (occupancy flight));
      destruct (PrimFloat.ltb 0.6 (occupancy flight)); reflexivity. }
  split; [|split; [|split; [|split]]].
  - unfold applyDynamicPricing. apply Forall2_fmap_r, Forall_Forall2_diag, Forall_forall.
    intros flight _. cbn [SearchFlights.flight price]. split; [done|].
    cbv zeta in Hmultiplier. rewrite Hmultiplier.
    eexists. split; [apply round_nearest_whole|reflexivity].
  - intros flight. apply ceil_least_whole_above.
  - apply whole_is_whole.
  - intros flight total available Htotal Havailable Hseats Hfree.
    assert (Hexact : thresholds_exact total available = true).
    { pose proof thresholds_exact_upto_400 as Hall.
      rewrite forallb_forall in Hall.
      specialize (Hall total). rewrite forallb_forall in Hall.
      apply Hall; apply list_elem_of_In, elem_of_seqZ; lia. }
    unfold thresholds_exact in Hexact. cbv zeta in Hexact.
    apply andb_true_iff in Hexact as [H8 H6].
    apply Bool.eqb_prop in H8, H6.
    unfold occupancyFactor, exact_occupancy_factor, occupancy.
    by rewrite Hseats, Hfree, H8, H6.
  - intros flight Htotal Havailable Hbase Hdays.
    unfold applyDynamicPricing. simpl. f_equal. f_equal.
    change (daysUntilFlight today flight) with (days_to_departure today flight).
    unfold occupancyRate. rewrite Hdays, Htotal, Havailable, Hbase.
    vm_compute. reflexivity.
Qed.

(** A flight that leaves in four days and a fifth of a day. *)
Example applyDynamicPricing_fare_witness :
  applyDynamicPricing 1700000000000
    [mkFlight 180 170 [] [] [] 25 200 1700362880000]
  = [{| flight := mkFlight 180 170 [] [] [] 25 200 1700362880000; price := 260 |}].
Proof.
  apply (proj2 (proj2 (proj2 (proj2 (applyDynamicPricing_fare 1700000000000 [])))));
    reflexivity.
Defined.

(** ** Reservation *)

Lemma run_reserveSeats (flightId : string) (seats : list string) (t : Table) :
  run (reserveSeats flightId seats) t =
  match t !! flightId with
  | Some flight => (Ok tt, <[flightId := append_occupied flight seats]> t)
  | None => (Throw (JsError "Concurrent seat reservation detected"), t)
  end.
Proof.
  unfold reserveSeats. simpl. unfold update_item.
  by destruct (t !! flightId).
Qed.

(** C7: a reservation that commits changes the flight record only by
    appending the selected seat ids at the end of its occupied seats, which
    keep their elements and their order; the seat counts, the emergency exit
    rows, the premium seats and their cost, the base price and the departure
    time stay as they are, and so does every other flight. *)
Theorem reserveSeats_appends_only (flightId : string) (seats : list string)
    (t t' : Table) :
  run (reserveSeats flightId seats) t = (Ok tt, t') →
  ∃ flight flight',
    t !! flightId = Some flight ∧ t' !! flightId = Some flight'
    ∧ occupiedSeats flight' = occupiedSeats flight ++ seats
    ∧ occupiedSeats flight `prefix_of` occupiedSeats flight'
    ∧ availableSeats flight' = availableSeats flight
    ∧ totalSeats flight' = totalSeats flight
    ∧ emergencyExitRows flight' = emergencyExitRows flight
    ∧ premiumSeats flight' = premiumSeats flight
    ∧ premiumSeatCost flight' = premiumSeatCost flight
    ∧ basePrice flight' = basePrice flight
    ∧ departureTime flight' = departureTime flight
    ∧ (∀ other, other ≠ flightId → t' !! other = t !! other).
Proof.
  rewrite run_reserveSeats.
  destruct (t !! flightId) as [flight|] eqn:Hflight; [|discriminate].
  intros [= <-]. exists flight, (append_occupied flight seats).
  split; [done|]. split; [by rewrite lookup_insert_eq|].
  split; [done|]. split; [by apply prefix_app_r|].
  repeat (split; [done|]).
  intros other Hother. by rewrite lookup_insert_ne.
Qed.

Lemma reserveSeats_appends_only_witness :
  ∃ flight flight',
    ({[ "F1" := mkFlight 180 170 ["1A"] [12%Z] ["1B"] 25 200 0 ]} : Table) !! "F1"
      = Some flight
    ∧ (<[ "F1" := mkFlight 180 170 ["1A"; "3C"; "3D"] [12%Z] ["1B"] 25 200 0 ]>
         {[ "F1" := mkFlight 180 170 ["1A"] [12%Z] ["1B"] 25 200 0 ]} : Table) !! "F1"
      = Some flight'
    ∧ occupiedSeats flight' = occupiedSeats flight ++ ["3C"; "3D"].
Proof.
  destruct (reserveSeats_appends_only "F1" ["3C"; "3D"]
              {[ "F1" := mkFlight 180 170 ["1A"] [12%Z] ["1B"] 25 200 0 ]}
              (<[ "F1" := mkFlight 180 170 ["1A"; "3C"; "3D"] [12%Z] ["1B"] 25 200 0 ]>
                 {[ "F1" := mkFlight 180 170 ["1A"] [12%Z] ["1B"] 25 200 0 ]}))
    as (flight & flight' & H1 & H2 & H3 & _).
  - vm_compute. reflexivity.
  - exists flight, flight'. auto.
Defined.

(** C8: when two reservations for the same stored flight are in flight at
    once, whatever the order in which the store carries out their commands,
    both commit and the occupied seats of the flight then hold the seats
    that were there before and every seat of both calls (the seat sets of
    the two calls may be disjoint or not). *)
Theorem concurrent_reserveSeats_keep_both (schedule : list bool)
    (flightId : string) (seats1 seats2 : list string) (t : Table) (flight : Flight) :
  t !! flightId = Some flight →
  ∃ flight',
    interleave schedule (reserveSeats flightId seats1) (reserveSeats flightId seats2) t
    = (Ok tt, Ok tt, <[flightId := flight']> t)
    ∧ (occupiedSeats flight' = occupiedSeats flight ++ seats1 ++ seats2
       ∨ occupiedSeats flight' = occupiedSeats flight ++ seats2 ++ seats1)
    ∧ (∀ seat, seat ∈ occupiedSeats flight ∨ seat ∈ seats1 ∨ seat ∈ seats2 →
               seat ∈ occupiedSeats flight').
Proof.
  intros Hflight.
  assert (Hfirst : ∀ seats seats',
    <[flightId := append_occupied (append_occupied flight seats) seats']>
      (<[flightId := append_occupied flight seats]> t)
    = <[flightId := append_occupied (append_occupied flight seats) seats']> t)
    by (intros; apply insert_insert_eq).
  assert (Horder12 : ∃ flight',
    (Ok tt, Ok tt,
     <[flightId := append_occupied (append_occupied flight seats1) seats2]> t)
    = (Ok tt, Ok tt, <[flightId := flight']> t)
    ∧ (occupiedSeats flight' = occupiedSeats flight ++ seats1 ++ seats2
       ∨ occupiedSeats flight' = occupiedSeats flight ++ seats2 ++ seats1)
    ∧ (∀ seat, seat ∈ occupiedSeats flight ∨ seat ∈ seats1 ∨ seat ∈ seats2 →
               seat ∈ occupiedSeats flight')).
  { eexists. split; [reflexivity|]. simpl. split.
    - left. by rewrite <- app_assoc.
    - intros seat. rewrite !elem_of_app. tauto. }
  assert (Horder21 : ∃ flight',
    (Ok tt, Ok tt,
     <[flightId := append_occupied (append_occupied flight seats2) seats1]> t)
    = (Ok tt, Ok tt, <[flightId := flight']> t)
    ∧ (occupiedSeats flight' = occupiedSeats flight ++ seats1 ++ seats2
       ∨ occupiedSeats flight' = occupiedSeats flight ++ seats2 ++ seats1)
    ∧ (∀ seat, seat ∈ occupiedSeats flight ∨ seat ∈ seats1 ∨ seat ∈ seats2 →
               seat ∈ occupiedSeats flight')).
  { eexists. split; [reflexivity|]. simpl. split.
    - right. by rewrite <- app_assoc.
    - intros seat. rewrite !elem_of_app. tauto. }
  assert (Hsecond : ∀ seats,
    (<[flightId := append_occupied flight seats]> t) !! flightId
    = Some (append_occupied flight seats)) by (intros; apply lookup_insert_eq).
  destruct schedule as [|[|] [|[|] [|[|] schedule]]]; simpl;
    unfold update_item; rewrite Hflight; simpl;
    unfold update_item; rewrite ?Hsecond; simpl;
    rewrite ?Hfirst; assumption.
Qed.

Lemma concurrent_reserveSeats_keep_both_witness :
  ∃ flight',
    interleave [false; true] (reserveSeats "F1" ["3C"]) (reserveSeats "F1" ["4D"; "4E"])
      {[ "F1" := mkFlight 180 170 ["1A"] [12%Z] ["1B"] 25 200 0 ]}
    = (Ok tt, Ok tt,
       <[ "F1" := flight' ]> {[ "F1" := mkFlight 180 170 ["1A"] [12%Z] ["1B"] 25 200 0 ]})
    ∧ (occupiedSeats flight' = ["1A"] ++ ["3C"] ++ ["4D"; "4E"]
       ∨ occupiedSeats flight' = ["1A"] ++ ["4D"; "4E"] ++ ["3C"]).
Proof.
  destruct (concurrent_reserveSeats_keep_both [false; true] "F1" ["3C"] ["4D"; "4E"]
              {[ "F1" := mkFlight 180 170 ["1A"] [12%Z] ["1B"] 25 200 0 ]}
              (mkFlight 180 170 ["1A"] [12%Z] ["1B"] 25 200 0))
    as (flight' & Hrun & Horder & _).
  - vm_compute. reflexivity.
  - exists flight'. auto.
Defined.

(** ** Error responses *)

(** Amended C2: when the conditional write of a reservation fails because
    the flight record is not there at commit time, [reserveSeats] throws
    the error "Concurrent seat reservation detected" and leaves the table
    as it is; a handler that had read the flight and validated the
    selection before the record vanished answers with status 500, the
    internal-error classification, with that message as details. *)
Theorem reserve_vanished_internal_error (today : Date) (event : Event)
    (flightId : string) (seats : list string) (passengers : list Passenger)
    (t t' : Table) (flight : Flight) :
  reserve_request event flightId seats passengers →
  validateSeatSelection (Array seats) passengers = true →
  t !! flightId = Some flight →
  validateSeatAvailability seats flight = true →
  validateEmergencyExitRows today seats passengers flight = Ok true →
  t' !! flightId = None →
  run (reserveSeats flightId seats) t'
  = (Throw (JsError "Concurrent seat reservation detected"), t')
  ∧ ∃ response,
      run (step (handler today event) t).1 t' = (Ok response, t')
      ∧ response = createResponse 500
          (ErrorBody "Internal server error" (Some "Concurrent seat reservation detected"))
      ∧ classification response = Internal.
Proof.
  intros Hrequest Hselection Hflight Havailable Heligible Hgone.
  split; [by rewrite run_reserveSeats, Hgone|].
  destruct (step_handler_reserve today event flightId seats passengers t flight)
    as (p & Hstep & Hrun); try done.
  rewrite Hstep. simpl. rewrite Hrun, Hgone. by eexists.
Qed.

Lemma reserveEvent_request (flightId : string) (seats : list string)
    (passengers : list Passenger) :
  flightId ≠ "" → reserve_request (reserveEvent flightId seats passengers)
                                  flightId seats passengers.
Proof. intros Hid. repeat split; [done|by left|done]. Qed.

Lemma seatMapEvent_request (flightId : string) :
  flightId ≠ "" → seat_map_request (seatMapEvent flightId) flightId.
Proof.
  intros Hid. split; [split; [done|by left]|]. split; [done|].
  eexists. repeat split.
Qed.

Lemma reserve_vanished_internal_error_witness :
  ∃ response,
    run (step (handler today1 (reserveEvent "F1" ["3C"] [bornOn 1990 0 1])) table1).1 ∅
    = (Ok response, ∅)
    ∧ classification response = Internal.
Proof.
  destruct (reserve_vanished_internal_error today1
              (reserveEvent "F1" ["3C"] [bornOn 1990 0 1]) "F1" ["3C"]
              [bornOn 1990 0 1] table1 ∅ flight1)
    as (_ & response & Hrun & _ & Hclass).
  - by apply reserveEvent_request.
  - reflexivity.
  - reflexivity.
  - reflexivity.
  - reflexivity.
  - reflexivity.
  - exists response. auto.
Defined.

(** C2 as stated fails: the flight is read, the selection is validated, the
    record is gone when the conditional write is carried out, and the
    response is classified as an internal error, not as not found. *)
Lemma reserve_vanished_counterexample :
  reserve_request (reserveEvent "F1" ["3C"] [bornOn 1990 0 1]) "F1" ["3C"] [bornOn 1990 0 1]
  ∧ table1 !! "F1" = Some flight1
  ∧ (∅ : Table) !! "F1" = None
  ∧ run (reserveSeats "F1" ["3C"]) ∅
    = (Throw (JsError "Concurrent seat reservation detected"), ∅)
  ∧ ∃ response,
      run (step (handler today1 (reserveEvent "F1" ["3C"] [bornOn 1990 0 1])) table1).1 ∅
      = (Ok response, ∅)
      ∧ statusCode response = 500%Z
      ∧ classification response = Internal
      ∧ classification response ≠ NotFound.
Proof.
  split; [by apply reserveEvent_request|].
  repeat (split; [reflexivity|]).
  eexists. split; [vm_compute; reflexivity|].
  repeat split. discriminate.
Qed.

(** The handler on a [reserveSeats] request, up to the reading of the
    flight. *)
Lemma run_handler_reserve_any (today : Date) (event : Event) (flightId : string)
    (seats : Field string) (passengers : option (list Passenger)) (t : Table) :
  reserve_request_any event flightId seats passengers →
  t !! flightId = None →
  run (handler today event) t
  = (Ok (match seats, passengers with
         | Falsy, _ | _, None =>
             createResponse 400 (ErrorBody
               "Missing required fields: flightId, seats, and passengers are required"
               None)
         | _, Some passengers =>
             if validateSeatSelection seats passengers
             then createResponse 500
                    (ErrorBody "Internal server error" (Some "Flight not found"))
             else createResponse 400 (ErrorBody "Invalid seat selection" None)
         end), t).
Proof.
  intros (Hpost & Hid & Hbody) Hnone.
  destruct (is_post_checks event Hpost) as [Hoptions Hmethod].
  unfold handler. rewrite Hbody. simpl.
  rewrite Hoptions, Hmethod. simpl.
  rewrite (truthy_Some _ Hid). simpl.
  destruct seats as [| |items], passengers as [passengers|]; simpl; try done.
  destruct (validateSeatSelection (Array items) passengers); simpl; [|done].
  unfold get_item. by rewrite Hnone.
Qed.

(** Amended C3: a [getSeatMap] request, and a [reserveSeats] request whose
    selection passes the shape, cardinality and format checks, for a flight
    id that has no flight record is answered with status 500, the
    internal-error classification, and the details "Flight not found"; a
    [reserveSeats] request whose selection fails those checks (it is no
    array, it has more seats than there are passengers, or one of its ids
    does not have the format) is answered with status 400 before the record
    is looked up, and so is one without seats or without passengers. The
    table is left as it is. *)
Theorem unknown_flight_internal_error (today : Date) (event : Event)
    (flightId : string) (t : Table) :
  t !! flightId = None →
  (seat_map_request event flightId →
   run (handler today event) t
   = (Ok (createResponse 500
            (ErrorBody "Internal server error" (Some "Flight not found"))), t))
  ∧ (∀ seats passengers,
       reserve_request event flightId seats passengers →
       run (handler today event) t
       = (Ok (if validateSeatSelection (Array seats) passengers
              then createResponse 500
                     (ErrorBody "Internal server error" (Some "Flight not found"))
              else createResponse 400 (ErrorBody "Invalid seat selection" None)), t))
  ∧ (∀ seats passengers,
       reserve_request_any event flightId seats passengers →
       run (handler today event) t
       = (Ok (match seats, passengers with
              | Falsy, _ | _, None =>
                  createResponse 400 (ErrorBody
                    "Missing required fields: flightId, seats, and passengers are required"
                    None)
              | _, Some passengers =>
                  if validateSeatSelection seats passengers
                  then createResponse 500
                         (ErrorBody "Internal server error" (Some "Flight not found"))
                  else createResponse 400 (ErrorBody "Invalid seat selection" None)
              end), t))
  ∧ (∀ passengers, validateSeatSelection NotArray passengers = false)
  ∧ classification
      (createResponse 500 (ErrorBody "Internal server error" (Some "Flight not found")))
    = Internal
  ∧ classification (createResponse 400 (ErrorBody "Invalid seat selection" None))
    = BadInput.
Proof.
  intros Hnone. split; [|split; [|split; [|split; [|split]]]]; [..|reflexivity|reflexivity].
  - intros Hrequest. by rewrite (run_handler_getSeatMap _ _ _ _ Hrequest), Hnone.
  - intros seats passengers Hrequest.
    rewrite (run_handler_reserve _ _ _ _ _ _ Hrequest), Hnone.
    by destruct (validateSeatSelection (Array seats) passengers).
  - intros seats passengers Hrequest.
    by apply (run_handler_reserve_any today event flightId).
  - reflexivity.
Qed.

Lemma unknown_flight_internal_error_witness :
  run (handler today1 (seatMapEvent "F9")) table1
  = (Ok (createResponse 500
           (ErrorBody "Internal server error" (Some "Flight not found"))), table1)
  ∧ run (handler today1 (reserveEvent "F9" ["3C"] [bornOn 1990 0 1])) table1
    = (Ok (createResponse 500
             (ErrorBody "Internal server error" (Some "Flight not found"))), table1).
Proof.
  destruct (unknown_flight_internal_error today1 (seatMapEvent "F9") "F9" table1)
    as (Hmap & _); [reflexivity|].
  destruct (unknown_flight_internal_error today1
              (reserveEvent "F9" ["3C"] [bornOn 1990 0 1]) "F9" table1)
    as (_ & Hreserve & _); [reflexivity|].
  split.
  - apply Hmap. by apply seatMapEvent_request.
  - apply (Hreserve ["3C"] [bornOn 1990 0 1]). by apply reserveEvent_request.
Defined.

(** C3 as stated fails: both kinds of request for a flight id without a
    record are classified as internal errors, not as not found. *)
Lemma unknown_flight_counterexample :
  seat_map_request (seatMapEvent "F9") "F9"
  ∧ reserve_request (reserveEvent "F9" ["3C"] [bornOn 1990 0 1]) "F9" ["3C"] [bornOn 1990 0 1]
  ∧ table1 !! "F9" = None
  ∧ (∃ response,
       run (handler today1 (seatMapEvent "F9")) table1 = (Ok response, table1)
       ∧ statusCode response = 500%Z
       ∧ classification response = Internal
       ∧ classification response ≠ NotFound)
  ∧ (∃ response,
       run (handler today1 (reserveEvent "F9" ["3C"] [bornOn 1990 0 1])) table1
       = (Ok response, table1)
       ∧ statusCode response = 500%Z
       ∧ classification response = Internal
       ∧ classification response ≠ NotFound).
Proof.
  split; [by apply seatMapEvent_request|].
  split; [by apply reserveEvent_request|].
  split; [reflexivity|].
  split; (eexists; split; [vm_compute; reflexivity|]; repeat split; discriminate).
Qed.

(** No error leaves the handler: whatever the request and the table, it
    settles with a response. *)
Lemma run_try_catch_ret {A : Type} (p : Async A) (h : Error → A) (t : Table) :
  ∃ a t', run (try_catch p (λ error, ret (h error))) t = (Ok a, t').
Proof.
  revert t. induction p as [[a|e]|flightId k IH|flightId seats k IH];
    intros t; simpl; eauto.
  destruct (update_item t flightId seats) as [r t']. apply IH.
Qed.

Lemma handler_responds (today : Date) (event : Event) (t : Table) :
  ∃ response t', run (handler today event) t = (Ok response, t').
Proof. apply run_try_catch_ret. Qed.

(** ** Seat ids the checks let through *)

Ltac decide_closed := apply (bool_decide_unpack _); vm_compute; exact I.

(** No seat map has a row beyond 30. *)
Lemma generateSeatMap_no_high_row (flight : Flight) (row : Z) (letter : string) :
  (31 ≤ row ≤ 99)%Z → letter ∈ letters →
  toString row +:+ letter ∉ map id (generateSeatMap flight).
Proof.
  intros Hrow Hletter.
  rewrite generateSeatMap_ids.
  assert (Hall : forallb (λ row, forallb (λ letter,
            bool_decide (toString row +:+ letter ∉
              flat_map (λ row, map (λ letter, toString row +:+ letter) letters)
                       (seqZ 1 30)))
            letters) (seqZ 31 69) = true) by (vm_compute; reflexivity).
  rewrite forallb_forall in Hall.
  specialize (Hall row). rewrite forallb_forall in Hall.
  assert (Hin : In row (seqZ 31 69)) by (apply list_elem_of_In, elem_of_seqZ; lia).
  apply list_elem_of_In in Hletter.
  specialize (Hall Hin letter Hletter).
  by apply bool_decide_eq_true in Hall.
Qed.

Lemma validateSeatAvailability_free (seats : list string) (flight : Flight) :
  (∀ seat, seat ∈ seats → seat ∉ occupiedSeats flight) →
  validateSeatAvailability seats flight = true.
Proof.
  intros Hfree. unfold validateSeatAvailability.
  destruct (length seats =? 0); [done|].
  replace (filter (λ seat, includes (occupiedSeats flight) seat = true) seats)
    with (@nil string); [done|].
  symmetry. induction seats as [|seat seats IH]; [done|].
  rewrite filter_cons. unfold includes at 1.
  rewrite decide_False.
  2: { intros Hin%bool_decide_eq_true. apply (Hfree seat); [by left|done]. }
  apply IH. intros s Hs. apply Hfree. by right.
Qed.

(** C9: a seat id with a row from 31 to 99 and a letter from A to F, such as
    40A, passes the format check although no seat map contains it; selected
    alone, with at least one passenger, on a stored flight where it is not
    occupied and its row is not an emergency exit row, it passes every
    check, the reservation commits and the id is appended to the occupied
    seats of the flight. *)
Theorem unmapped_seat_reserved (today : Date) (event : Event) (flightId : string)
    (row : Z) (letter : string) (passengers : list Passenger)
    (t : Table) (flight : Flight) :
  let seat := toString row +:+ letter in
  (31 ≤ row ≤ 99)%Z → letter ∈ letters →
  reserve_request event flightId [seat] passengers →
  1 ≤ length passengers →
  t !! flightId = Some flight →
  seat ∉ occupiedSeats flight →
  row ∉ emergencyExitRows flight →
  test seatPattern seat = true
  ∧ (∀ anyFlight : Flight, seat ∉ map id (generateSeatMap anyFlight))
  ∧ validateSeatSelection (Array [seat]) passengers = true
  ∧ validateSeatAvailability [seat] flight = true
  ∧ validateEmergencyExitRows today [seat] passengers flight = Ok true
  ∧ run (handler today event) t
    = (Ok (createResponse 200
             (ReservedBody true [seat] (calculateSeatCost [seat] flight))),
       <[flightId := append_occupied flight [seat]]> t)
  ∧ occupiedSeats (append_occupied flight [seat]) = occupiedSeats flight ++ [seat].
Proof.
  intros seat Hrow Hletter Hrequest Hpassengers Hflight Hfree Hexit.
  destruct (parseInt_seat_id row letter) as [Htest Hparse]; [lia|done|].
  fold seat in Htest, Hparse.
  assert (Hselection : validateSeatSelection (Array [seat]) passengers = true).
  { unfold validateSeatSelection. simpl.
    rewrite (proj2 (Nat.ltb_ge _ _)) by done. by rewrite Htest. }
  assert (Havailable : validateSeatAvailability [seat] flight = true).
  { apply validateSeatAvailability_free. by intros ? ->%list_elem_of_singleton. }
  assert (Heligible : validateEmergencyExitRows today [seat] passengers flight = Ok true).
  { unfold validateEmergencyExitRows. simpl. rewrite Hparse.
    unfold includes. by rewrite bool_decide_eq_false_2. }
  split; [done|].
  split; [intros anyFlight; by apply generateSeatMap_no_high_row|].
  repeat (split; [done|]).
  split; [|done].
  rewrite (run_handler_reserve _ _ _ _ _ _ Hrequest).
  by rewrite Hselection, Hflight, Havailable, Heligible.
Qed.

Lemma unmapped_seat_reserved_witness :
  test seatPattern "40A" = true
  ∧ (∀ anyFlight : Flight, "40A" ∉ map id (generateSeatMap anyFlight))
  ∧ run (handler today1 (reserveEvent "F1" ["40A"] [bornOn 1990 0 1])) table1
    = (Ok (createResponse 200 (ReservedBody true ["40A"] 0)),
       <["F1" := append_occupied flight1 ["40A"]]> table1).
Proof.
  destruct (unmapped_seat_reserved today1 (reserveEvent "F1" ["40A"] [bornOn 1990 0 1])
              "F1" 40 "A" [bornOn 1990 0 1] table1 flight1)
    as (Htest & Hmap & _ & _ & _ & Hrun & _).
  - lia.
  - decide_closed.
  - by apply reserveEvent_request.
  - simpl. lia.
  - reflexivity.
  - decide_closed.
  - decide_closed.
  - split; [exact Htest|]. split; [exact Hmap|]. exact Hrun.
Defined.

(** C10: a selection that holds the same well-formed, unoccupied seat id
    twice, with at least two passengers who are eligible where the seat's
    row is an emergency exit row, passes every check: nothing rejects the
    duplicate. The reservation commits, the id is appended to the occupied
    seats once per occurrence, and for a premium seat the premium seat cost
    is added to the additional cost once per occurrence. *)
Theorem duplicate_seat_reserved_twice (today : Date) (event : Event)
    (flightId seat : string) (passengers : list Passenger)
    (t : Table) (flight : Flight) :
  reserve_request event flightId [seat; seat] passengers →
  2 ≤ length passengers →
  test seatPattern seat = true →
  seat ∉ occupiedSeats flight →
  (∀ row i passenger,
     parseInt seat = Some row → row ∈ emergencyExitRows flight →
     i < 2 → passengers !! i = Some passenger →
     isEligibleForEmergencyRow today passenger = true) →
  t !! flightId = Some flight →
  validateSeatSelection (Array [seat; seat]) passengers = true
  ∧ validateSeatAvailability [seat; seat] flight = true
  ∧ validateEmergencyExitRows today [seat; seat] passengers flight = Ok true
  ∧ run (handler today event) t
    = (Ok (createResponse 200
             (ReservedBody true [seat; seat]
                (if includes (premiumSeats flight) seat
                 then (0 + premiumSeatCost flight + premiumSeatCost flight)%float
                 else 0%float))),
       <[flightId := append_occupied flight [seat; seat]]> t)
  ∧ occupiedSeats (append_occupied flight [seat; seat])
    = occupiedSeats flight ++ [seat; seat].
Proof.
  intros Hrequest Hpassengers Htest Hfree Hages Hflight.
  assert (Hselection : validateSeatSelection (Array [seat; seat]) passengers = true).
  { unfold validateSeatSelection. simpl.
    rewrite (proj2 (Nat.ltb_ge _ _)) by done. by rewrite Htest. }
  assert (Havailable : validateSeatAvailability [seat; seat] flight = true).
  { apply validateSeatAvailability_free. intros s Hs.
    apply elem_of_cons in Hs as [->|Hs]; [done|].
    by apply list_elem_of_singleton in Hs as ->. }
  assert (Heligible :
    validateEmergencyExitRows today [seat; seat] passengers flight = Ok true).
  { apply validateEmergencyExitRows_true; [done|].
    intros i s row passenger Hs Hrow Hexit Hpassenger.
    assert (Hi : i < 2) by (apply lookup_lt_Some in Hs; simpl in Hs; lia).
    assert (s = seat) as ->.
    { destruct i as [|[|i]]; simpl in Hs; [by simplify_eq|by simplify_eq|lia]. }
    by apply (Hages row i passenger). }
  repeat (split; [done|]).
  split; [|done].
  rewrite (run_handler_reserve _ _ _ _ _ _ Hrequest).
  rewrite Hselection, Hflight, Havailable, Heligible.
  unfold calculateSeatCost. simpl.
  by destruct (includes (premiumSeats flight) seat).
Qed.

Lemma duplicate_seat_reserved_twice_witness :
  run (handler today1 (reserveEvent "F1" ["2A"; "2A"] [bornOn 1990 0 1; bornOn 2020 3 9]))
      table1
  = (Ok (createResponse 200 (ReservedBody true ["2A"; "2A"] 50)),
     <["F1" := mkFlight 180 170 ["1A"; "2A"; "2A"] [12%Z; 13%Z] ["1B"; "2A"]
                        25 200 1700432000000]> table1).
Proof.
  destruct (duplicate_seat_reserved_twice today1
              (reserveEvent "F1" ["2A"; "2A"] [bornOn 1990 0 1; bornOn 2020 3 9])
              "F1" "2A" [bornOn 1990 0 1; bornOn 2020 3 9] table1 flight1)
    as (_ & _ & _ & Hrun & _).
  - by apply reserveEvent_request.
  - simpl. lia.
  - reflexivity.
  - decide_closed.
  - intros row i passenger [= <-] Hexit. exfalso. revert Hexit. decide_closed.
  - reflexivity.
  - exact Hrun.
Defined.

(* ===================================================================== *)
(** * Further properties of [seat-map.js] *)
(* ===================================================================== *)

(** ** The format of a seat id *)





Lemma validateSeatAvailability_occupied (seats : list string) (flight : Flight)
    (seat : string) :
  seat ∈ seats → seat ∈ occupiedSeats flight →
  validateSeatAvailability seats flight = false.
Proof.
  intros Hseat Hocc. unfold validateSeatAvailability.
  destruct seats as [|seat0 seats0]; [by apply elem_of_nil in Hseat|].
  change (length (seat0 :: seats0) =? 0) with false. cbv iota.
  assert (Hin : seat ∈ filter (λ seat, includes (occupiedSeats flight) seat = true)
                              (seat0 :: seats0)).
  { apply list_elem_of_filter. split; [|done].
    unfold includes. by apply bool_decide_eq_true. }
  by destruct (filter _ (seat0 :: seats0)); [apply elem_of_nil in Hin|].
Qed.


(** X2: the availability check passes exactly when none of the selected
    seats is among the occupied seats of the flight. *)
Theorem validateSeatAvailability_accepts (seats : list string) (flight : Flight) :
  validateSeatAvailability seats flight = true
  ↔ ∀ seat, seat ∈ seats → seat ∉ occupiedSeats flight.
Proof.
  split; [|apply validateSeatAvailability_free].
  intros Hfree seat Hseat Hocc.
  rewrite (validateSeatAvailability_occupied seats flight seat Hseat Hocc) in Hfree.
  discriminate Hfree.
Qed.

(** X3: the ids of a seat map are exactly the ids made of a row from 1 to
    30 and a letter from A to F; every seat of the map has its id as its
    number, passes the format check of the seat selection, and the row that
    [parseInt] reads from its id is the row that decided its emergency exit
    flag: the eligibility check looks at the seats the map marks. *)
Theorem generateSeatMap_ids_selectable (flight : Flight) :
  (∀ seatId, seatId ∈ map id (generateSeatMap flight)
     ↔ ∃ row letter, (1 ≤ row ≤ 30)%Z ∧ letter ∈ letters
                     ∧ seatId = toString row +:+ letter)
  ∧ (∀ seat, seat ∈ generateSeatMap flight →
       number seat = id seat
       ∧ test seatPattern (id seat) = true
       ∧ ∃ row, (1 ≤ row ≤ 30)%Z ∧ parseInt (id seat) = Some row
                ∧ isEmergencyExit seat = includes (emergencyExitRows flight) row).
Proof.
  split.
  - intros seatId. rewrite generateSeatMap_ids. split.
    + intros Hin. apply list_elem_of_In, in_flat_map in Hin as (row & Hrow & Hin).
      apply list_elem_of_In, list_elem_of_fmap in Hin as (letter & -> & Hletter).
      apply list_elem_of_In, elem_of_seqZ in Hrow.
      exists row, letter. split; [lia|done].
    + intros (row & letter & Hrow & Hletter & ->).
      apply list_elem_of_In, in_flat_map. exists row.
      split; [apply list_elem_of_In, elem_of_seqZ; lia|].
      apply list_elem_of_In, list_elem_of_fmap. by exists letter.
  - intros seat. rewrite generateSeatMap_rows, list_elem_of_In, in_flat_map.
    intros (row & Hrow & Hin).
    apply list_elem_of_In, list_elem_of_fmap in Hin as (seatNum & -> & HseatNum).
    apply list_elem_of_In, elem_of_seqZ in Hrow.
    cbv zeta. simpl.
    assert (Hletter : fromCharCode (65 + seatNum) ∈ letters).
    { revert HseatNum. generalize seatNum. apply Forall_forall.
      apply (bool_decide_unpack _). vm_compute. exact I. }
    destruct (parseInt_seat_id row (fromCharCode (65 + seatNum))) as [Htest Hparse];
      [lia|done|].
    split; [done|]. split; [done|]. exists row. split; [lia|done].
Qed.

(** ** The handler and the table *)


Lemma run_handler_reserve_200 (today : Date) (event : Event) (flightId : string)
    (seats : list string) (passengers : list Passenger) (t t1 : Table)
    (response : Response) :
  reserve_request event flightId seats passengers →
  run (handler today event) t = (Ok response, t1) →
  statusCode response = 200%Z →
  ∃ flight, t !! flightId = Some flight
    ∧ validateSeatSelection (Array seats) passengers = true
    ∧ validateSeatAvailability seats flight = true
    ∧ validateEmergencyExitRows today seats passengers flight = Ok true
    ∧ t1 = <[flightId := append_occupied flight seats]> t
    ∧ response = createResponse 200
        (ReservedBody true seats (calculateSeatCost seats flight)).
Proof.
  intros Hrequest Hrun Hstatus.
  rewrite (run_handler_reserve _ _ _ _ _ _ Hrequest) in Hrun.
  destruct (validateSeatSelection (Array seats) passengers);
    [|injection Hrun as <- <-; discriminate Hstatus].
  destruct (t !! flightId) as [flight|];
    [|injection Hrun as <- <-; discriminate Hstatus].
  destruct (validateSeatAvailability seats flight) eqn:Havailable;
    [|injection Hrun as <- <-; discriminate Hstatus].
  destruct (validateEmergencyExitRows today seats passengers flight) as [[|]|e]
    eqn:Heligible; injection Hrun as <- <-; try discriminate Hstatus.
  by exists flight.
Qed.

(** X5: after a reservation that was answered 200, the seat map served for
    the same flight marks as occupied exactly the seats that were occupied
    before and the seats just reserved. *)
Theorem reserve_then_seat_map (today : Date) (event1 event2 : Event)
    (flightId : string) (seats : list string) (passengers : list Passenger)
    (t t1 : Table) (response : Response) :
  reserve_request event1 flightId seats passengers →
  seat_map_request event2 flightId →
  run (handler today event1) t = (Ok response, t1) →
  statusCode response = 200%Z →
  ∃ flight seatMap,
    t !! flightId = Some flight
    ∧ run (handler today event2) t1
      = (Ok (createResponse 200
               (SeatMapBody seatMap (emergencyExitRows flight) (premiumSeats flight))),
         t1)
    ∧ ∀ seat, seat ∈ seatMap →
        (status seat = occupied
         ↔ id seat ∈ occupiedSeats flight ∨ id seat ∈ seats).
Proof.
  intros Hreserve Hmap Hrun Hstatus.
  destruct (run_handler_reserve_200 _ _ _ _ _ _ _ _ Hreserve Hrun Hstatus)
    as (flight & Hflight & _ & _ & _ & -> & _).
  exists flight, (generateSeatMap (append_occupied flight seats)).
  split; [done|]. split.
  - rewrite (run_handler_getSeatMap _ _ _ _ Hmap). by rewrite lookup_insert_eq.
  - intros seat Hseat. rewrite (generateSeatMap_status _ _ Hseat).
    unfold includes. simpl. rewrite <- elem_of_app.
    case_bool_decide; split; done.
Qed.

(** X6: after a reservation that was answered 200, a later reservation for
    the same flight whose selection passes the format check and holds one
    of the seats just reserved is answered 409, and the table stays as it
    is. *)
Theorem reserve_again_conflict (today : Date) (event1 event2 : Event)
    (flightId : string) (seats seats2 : list string)
    (passengers passengers2 : list Passenger)
    (t t1 : Table) (response : Response) (seat : string) :
  reserve_request event1 flightId seats passengers →
  run (handler today event1) t = (Ok response, t1) →
  statusCode response = 200%Z →
  reserve_request event2 flightId seats2 passengers2 →
  validateSeatSelection (Array seats2) passengers2 = true →
  seat ∈ seats → seat ∈ seats2 →
  run (handler today event2) t1
  = (Ok (createResponse 409 (ErrorBody "Selected seats are no longer available" None)),
     t1).
Proof.
  intros Hreserve Hrun Hstatus Hreserve2 Hselection2 Hseat Hseat2.
  destruct (run_handler_reserve_200 _ _ _ _ _ _ _ _ Hreserve Hrun Hstatus)
    as (flight & Hflight & _ & _ & _ & -> & _).
  rewrite (run_handler_reserve _ _ _ _ _ _ Hreserve2), Hselection2, lookup_insert_eq.
  destruct (validateSeatAvailability seats2 (append_occupied flight seats)) eqn:Hfree;
    [|done].
  exfalso.
  rewrite (validateSeatAvailability_occupied seats2 _ seat Hseat2) in Hfree;
    [discriminate|].
  simpl. apply elem_of_app. by right.
Qed.


Lemma fold_left_cost (seats : list string) (flight : Flight) (total : float) :
  fold_left (λ total seat,
    if includes (premiumSeats flight) seat
    then (total + premiumSeatCost flight)%float else total) seats total
  = Nat.iter (length (filter (λ seat, seat ∈ premiumSeats flight) seats))
      (λ total, (total + premiumSeatCost flight)%float) total.
Proof.
  revert total. induction seats as [|seat seats IH]; intros total; simpl; [done|].
  rewrite IH, filter_cons. unfold includes.
  case_bool_decide; rewrite ?decide_True, ?decide_False by done; [|done].
  cbn [length]. by rewrite Nat.iter_succ_r.
Qed.

(** X8: the additional cost is the premium seat cost added, starting from
    0, once for every selected seat that is a premium seat; it is 0 when no
    selected seat is premium, and it does not depend on the order of the
    selection. *)
Theorem calculateSeatCost_premium_count (seats : list string) (flight : Flight) :
  calculateSeatCost seats flight
  = Nat.iter (length (filter (λ seat, seat ∈ premiumSeats flight) seats))
      (λ total, (total + premiumSeatCost flight)%float) 0%float
  ∧ ((∀ seat, seat ∈ seats → seat ∉ premiumSeats flight) →
     calculateSeatCost seats flight = 0%float)
  ∧ (∀ seats', seats ≡ₚ seats' →
       calculateSeatCost seats' flight = calculateSeatCost seats flight).
Proof.
  unfold calculateSeatCost. split; [apply fold_left_cost|]. split.
  - intros Hnone. rewrite fold_left_cost.
    replace (filter (λ seat, seat ∈ premiumSeats flight) seats) with (@nil string);
      [done|].
    symmetry. induction seats as [|seat seats IH]; [done|].
    rewrite filter_cons, decide_False by (apply Hnone; by left).
    apply IH. intros s Hs. apply Hnone. by right.
  - intros seats' Hperm. rewrite !fold_left_cost. f_equal.
    apply Permutation_length. by rewrite Hperm.
Qed.

Lemma reserve_then_seat_map_witness :
  ∃ flight seatMap,
    table1 !! "F1" = Some flight
    ∧ run (handler today1 (seatMapEvent "F1"))
          (<["F1" := append_occupied flight1 ["3C"; "3D"]]> table1)
      = (Ok (createResponse 200
               (SeatMapBody seatMap (emergencyExitRows flight) (premiumSeats flight))),
         <["F1" := append_occupied flight1 ["3C"; "3D"]]> table1)
    ∧ ∀ seat, seat ∈ seatMap →
        (status seat = occupied
         ↔ id seat ∈ occupiedSeats flight ∨ id seat ∈ ["3C"; "3D"]).
Proof.
  apply (reserve_then_seat_map today1
           (reserveEvent "F1" ["3C"; "3D"] [bornOn 1990 0 1; bornOn 2015 3 9])
           (seatMapEvent "F1") "F1" ["3C"; "3D"] [bornOn 1990 0 1; bornOn 2015 3 9]
           table1 (<["F1" := append_occupied flight1 ["3C"; "3D"]]> table1)
           (createResponse 200 (ReservedBody true ["3C"; "3D"] 0))).
  - by apply reserveEvent_request.
  - by apply seatMapEvent_request.
  - vm_compute. reflexivity.
  - reflexivity.
Defined.

Lemma reserve_again_conflict_witness :
  run (handler today1 (reserveEvent "F1" ["4A"; "3D"] [bornOn 1980 7 2; bornOn 1982 1 5]))
      (<["F1" := append_occupied flight1 ["3C"; "3D"]]> table1)
  = (Ok (createResponse 409 (ErrorBody "Selected seats are no longer available" None)),
     <["F1" := append_occupied flight1 ["3C"; "3D"]]> table1).
Proof.
  apply (reserve_again_conflict today1
           (reserveEvent "F1" ["3C"; "3D"] [bornOn 1990 0 1; bornOn 2015 3 9])
           (reserveEvent "F1" ["4A"; "3D"] [bornOn 1980 7 2; bornOn 1982 1 5])
           "F1" ["3C"; "3D"] ["4A"; "3D"]
           [bornOn 1990 0 1; bornOn 2015 3 9] [bornOn 1980 7 2; bornOn 1982 1 5]
           table1 (<["F1" := append_occupied flight1 ["3C"; "3D"]]> table1)
           (createResponse 200 (ReservedBody true ["3C"; "3D"] 0)) "3D").
  - by apply reserveEvent_request.
  - vm_compute. reflexivity.
  - reflexivity.
  - by apply reserveEvent_request.
  - reflexivity.
  - decide_closed.
  - decide_closed.
Defined.


Lemma handler_reserve_shape (today : Date) (event : Event) (flightId : string)
    (seats : list string) (passengers : list Passenger) :
  reserve_request event flightId seats passengers →
  validateSeatSelection (Array seats) passengers = true →
  ∃ k, handler today event = SendGet flightId k
    ∧ ∀ flight,
        validateSeatAvailability seats flight = true →
        validateEmergencyExitRows today seats passengers flight = Ok true →
        ∃ k2, k (Ok (Some flight)) = SendUpdate flightId seats k2
          ∧ k2 (Ok tt)
            = Settle (Ok (createResponse 200
                            (ReservedBody true seats (calculateSeatCost seats flight)))).
Proof.
  intros (Hpost & Hid & Hbody) Hselection.
  destruct (is_post_checks event Hpost) as [Hoptions Hmethod].
  unfold handler. rewrite Hbody. simpl.
  rewrite Hoptions, Hmethod. simpl.
  rewrite (truthy_Some _ Hid). simpl. rewrite Hselection. simpl.
  eexists. split; [reflexivity|].
  intros flight Havailable Heligible. simpl.
  rewrite Havailable, Heligible. simpl.
  eexists. split; reflexivity.
Qed.

(** X9: two reservation requests for the same flight that both read the
    flight before either writes are both answered 200 when each selection
    is valid for the flight as it was read, whether the two selections
    share seats or not, and the seats of both are appended: the conditional
    write does not look at the seats. *)
Theorem concurrent_double_booking (today : Date) (event1 event2 : Event)
    (flightId : string) (seats1 seats2 : list string)
    (passengers1 passengers2 : list Passenger) (t : Table) (flight : Flight)
    (first : bool) (rest : list bool) :
  reserve_request event1 flightId seats1 passengers1 →
  reserve_request event2 flightId seats2 passengers2 →
  t !! flightId = Some flight →
  validateSeatSelection (Array seats1) passengers1 = true →
  validateSeatSelection (Array seats2) passengers2 = true →
  validateSeatAvailability seats1 flight = true →
  validateSeatAvailability seats2 flight = true →
  validateEmergencyExitRows today seats1 passengers1 flight = Ok true →
  validateEmergencyExitRows today seats2 passengers2 flight = Ok true →
  ∃ flight',
    interleave (first :: negb first :: rest)
      (handler today event1) (handler today event2) t
    = (Ok (createResponse 200
             (ReservedBody true seats1 (calculateSeatCost seats1 flight))),
       Ok (createResponse 200
             (ReservedBody true seats2 (calculateSeatCost seats2 flight))),
       <[flightId := flight']> t)
    ∧ (occupiedSeats flight' = occupiedSeats flight ++ seats1 ++ seats2
       ∨ occupiedSeats flight' = occupiedSeats flight ++ seats2 ++ seats1).
Proof.
  intros Hrequest1 Hrequest2 Hflight Hsel1 Hsel2 Hfree1 Hfree2 Hage1 Hage2.
  destruct (handler_reserve_shape today _ _ _ _ Hrequest1 Hsel1) as (k1 & -> & Hk1).
  destruct (handler_reserve_shape today _ _ _ _ Hrequest2 Hsel2) as (k2 & -> & Hk2).
  destruct (Hk1 flight Hfree1 Hage1) as (u1 & Hu1 & Hdone1).
  destruct (Hk2 flight Hfree2 Hage2) as (u2 & Hu2 & Hdone2).
  assert (Hboth : interleave rest (k1 (Ok (Some flight))) (k2 (Ok (Some flight))) t
    = (Ok (createResponse 200
             (ReservedBody true seats1 (calculateSeatCost seats1 flight))),
       Ok (createResponse 200
             (ReservedBody true seats2 (calculateSeatCost seats2 flight))),
       <[flightId := append_occupied (append_occupied flight seats1) seats2]> t)
    ∨ interleave rest (k1 (Ok (Some flight))) (k2 (Ok (Some flight))) t
    = (Ok (createResponse 200
             (ReservedBody true seats1 (calculateSeatCost seats1 flight))),
       Ok (createResponse 200
             (ReservedBody true seats2 (calculateSeatCost seats2 flight))),
       <[flightId := append_occupied (append_occupied flight seats2) seats1]> t)).
  { rewrite Hu1, Hu2.
    assert (Hsecond : ∀ seats,
      (<[flightId := append_occupied flight seats]> t) !! flightId
      = Some (append_occupied flight seats)) by (intros; apply lookup_insert_eq).
    destruct rest as [|[|] [|[|] [|[|] rest]]]; simpl;
      unfold update_item; rewrite Hflight; simpl;
      rewrite ?Hdone1, ?Hdone2; simpl;
      unfold update_item; rewrite ?Hsecond; simpl;
      rewrite ?Hdone1, ?Hdone2; simpl; rewrite ?insert_insert_eq; auto. }
  assert (Hstart : interleave (first :: negb first :: rest)
            (SendGet flightId k1) (SendGet flightId k2) t
          = interleave rest (k1 (Ok (Some flight))) (k2 (Ok (Some flight))) t).
  { destruct first; simpl; unfold get_item; rewrite Hflight; [rewrite Hu1|rewrite Hu2];
      reflexivity. }
  rewrite Hstart.
  destruct Hboth as [->| ->]; eexists; (split; [reflexivity|]); simpl;
    rewrite <- app_assoc; auto.
Qed.

(** Two requests for the same seat. *)
Lemma concurrent_double_booking_witness :
  ∃ flight',
    interleave [true; false]
      (handler today1 (reserveEvent "F1" ["3C"] [bornOn 1990 0 1]))
      (handler today1 (reserveEvent "F1" ["3C"] [bornOn 1980 7 2])) table1
    = (Ok (createResponse 200
             (ReservedBody true ["3C"] (calculateSeatCost ["3C"] flight1))),
       Ok (createResponse 200
             (ReservedBody true ["3C"] (calculateSeatCost ["3C"] flight1))),
       <["F1" := flight']> table1)
    ∧ (occupiedSeats flight' = occupiedSeats flight1 ++ ["3C"] ++ ["3C"]
       ∨ occupiedSeats flight' = occupiedSeats flight1 ++ ["3C"] ++ ["3C"]).
Proof.
  apply (concurrent_double_booking today1
           (reserveEvent "F1" ["3C"] [bornOn 1990 0 1])
           (reserveEvent "F1" ["3C"] [bornOn 1980 7 2])
           "F1" ["3C"] ["3C"] [bornOn 1990 0 1] [bornOn 1980 7 2] table1 flight1
           true []).
  - by apply reserveEvent_request.
  - by apply reserveEvent_request.
  - reflexivity.
  - reflexivity.
  - reflexivity.
  - reflexivity.
  - reflexivity.
  - reflexivity.
  - reflexivity.
Defined.

(** X10: the order of the first checks of the handler. A body that does
    not parse is answered 500 whatever the method, also for OPTIONS; then
    OPTIONS is answered with the preflight response; then a request that is
    not a POST is answered 405; a POST without a body is answered 500, and
    a POST with an action other than the two known ones 400. The table is
    never touched. *)
Theorem handler_routing (today : Date) (event : Event) (t : Table) :
  (∀ message, event_body event = Malformed message →
     run (handler today event) t
     = (Ok (createResponse 500
              (ErrorBody "Internal server error" (Some message))), t))
  ∧ ((∀ message, event_body event ≠ Malformed message) →
     httpMethod event = Some "OPTIONS" →
     run (handler today event) t = (Ok optionsResponse, t))
  ∧ ((∀ message, event_body event ≠ Malformed message) →
     httpMethod event ≠ Some "OPTIONS" → httpMethod event ≠ Some "POST" →
     requestContext_http_method event ≠ Some "POST" →
     run (handler today event) t
     = (Ok (createResponse 405 (ErrorBody "Method not allowed" None)), t))
  ∧ (is_post event → event_body event = Absent →
     ∃ message,
       run (handler today event) t
       = (Ok (createResponse 500
                (ErrorBody "Internal server error" (Some message))), t))
  ∧ (∀ requestData,
       is_post event → event_body event = Parsed requestData →
       action requestData ≠ Some "getSeatMap" →
       action requestData ≠ Some "reserveSeats" →
       run (handler today event) t
       = (Ok (createResponse 400 (ErrorBody "Invalid action specified" None)), t)).
Proof.
  unfold handler. repeat split.
  - intros message ->. reflexivity.
  - intros Hbody ->. destruct (event_body event) as [m| | |requestData];
      [by destruct (Hbody m)|reflexivity..].
  - intros Hbody Hoptions Hpost Hpost2.
    rewrite (bool_decide_eq_false_2 _ Hoptions), (bool_decide_eq_false_2 _ Hpost),
      (bool_decide_eq_false_2 _ Hpost2).
    destruct (event_body event) as [m| | |requestData];
      [by destruct (Hbody m)|reflexivity..].
  - intros Hpost ->. destruct (is_post_checks event Hpost) as [-> Hmethod].
    simpl. rewrite Hmethod. simpl. by eexists.
  - intros requestData Hpost -> Haction1 Haction2.
    destruct (is_post_checks event Hpost) as [-> Hmethod].
    simpl. rewrite Hmethod. simpl.
    by rewrite (bool_decide_eq_false_2 _ Haction1), (bool_decide_eq_false_2 _ Haction2).
Qed.

(* ===================================================================== *)
(** * Patterns *)
(* ===================================================================== *)

Module PatternProps.
Import Pattern.

Lemma repeat_rests_spec (cls : class) (min : nat) (max : option nat)
    (s rest : list ascii) :
  rest ∈ repeat_rests cls min max s
  ↔ ∃ pre, s = pre ++ rest ∧ denotes (Repeat cls min max) pre.
Proof.
  revert min max. induction s as [|c s IH]; intros min max; simpl.
  - rewrite app_nil_r. split.
    + destruct min; [|by intros ?%elem_of_nil].
      intros ->%list_elem_of_singleton. exists []. repeat split; simpl; [lia..|done].
    + intros (pre & Hpre & Hmin & Hmax & Hall).
      symmetry in Hpre. apply app_eq_nil in Hpre as [-> ->].
      simpl in Hmin. destruct min; [|lia]. by apply list_elem_of_singleton.
  - rewrite elem_of_app. split.
    + intros [Hhere|Hlater].
      * destruct min; [|by apply elem_of_nil in Hhere].
        apply list_elem_of_singleton in Hhere as ->.
        exists []. repeat split; simpl; [lia..|done].
      * destruct (in_class cls c) eqn:Hc; [|by apply elem_of_nil in Hlater].
        case_bool_decide as Hzero; simpl in Hlater; [by apply elem_of_nil in Hlater|].
        apply IH in Hlater as (pre & -> & Hmin & Hmax & Hall).
        exists (c :: pre). split; [done|]. simpl. split; [lia|]. split.
        -- intros m ->. destruct m as [|m]; [done|].
           specialize (Hmax m eq_refl). lia.
        -- by constructor.
    + intros (pre & Hpre & Hmin & Hmax & Hall).
      destruct pre as [|c' pre]; simpl in *.
      * subst rest. left. destruct min; [|lia]. by apply list_elem_of_singleton.
      * injection Hpre as <- ->. right.
        apply Forall_cons in Hall as [Hc Hall]. rewrite Hc.
        rewrite bool_decide_eq_false_2.
        2: { intros ->. specialize (Hmax 0 eq_refl). lia. }
        simpl. apply IH. exists pre. split; [done|]. split; [lia|]. split; [|done].
        intros m Hm. destruct max as [m0|]; simpl in Hm; [|done].
        injection Hm as <-. specialize (Hmax m0 eq_refl). lia.
Qed.

Lemma rests_spec (p : pattern) (s rest : list ascii) :
  rest ∈ rests p s ↔ ∃ pre, s = pre ++ rest ∧ denotes p pre.
Proof.
  revert s rest. induction p as [cls min max|p1 IH1 p2 IH2]; intros s rest.
  - apply repeat_rests_spec.
  - simpl. rewrite list_elem_of_In, in_flat_map. split.
    + intros (mid & Hmid & Hrest).
      apply list_elem_of_In, IH1 in Hmid as (w1 & -> & Hw1).
      apply list_elem_of_In, IH2 in Hrest as (w2 & -> & Hw2).
      exists (w1 ++ w2). split; [by rewrite app_assoc|]. by exists w1, w2.
    + intros (pre & -> & w1 & w2 & -> & Hw1 & Hw2).
      exists (w2 ++ rest). split.
      * apply list_elem_of_In, IH1. exists w1. by rewrite app_assoc.
      * apply list_elem_of_In, IH2. by exists w2.
Qed.

Lemma test_denotes (p : pattern) (s : string) :
  test p s = true ↔ denotes p (list_ascii_of_string s).
Proof.
  unfold test. rewrite existsb_exists. split.
  - intros (rest & Hin & Hnil). apply bool_decide_eq_true in Hnil as ->.
    apply list_elem_of_In, rests_spec in Hin as (pre & Hpre & Hden).
    rewrite app_nil_r in Hpre. by rewrite Hpre.
  - intros Hden. exists []. split; [|done].
    apply list_elem_of_In, rests_spec. exists (list_ascii_of_string s).
    by rewrite app_nil_r.
Qed.

End PatternProps.

(* ===================================================================== *)
(** * The card checks of [payment-processor.js] *)
(* ===================================================================== *)

Module PaymentProps.
Import Pattern PatternProps PaymentProcessor.

Lemma get_lookup (s : string) (i : nat) :
  String.get i s = list_ascii_of_string s !! i.
Proof.
  revert i. induction s as [|c s IH]; intros [|i]; simpl; done.
Qed.

Lemma string_length_list (s : string) :
  String.length s = length (list_ascii_of_string s).
Proof. induction s as [|c s IH]; simpl; [done|by rewrite IH]. Qed.

Lemma list_ascii_of_string_append (s1 s2 : string) :
  list_ascii_of_string (s1 +:+ s2) = list_ascii_of_string s1 ++ list_ascii_of_string s2.
Proof. induction s1 as [|c s1 IH]; simpl; [done|by rewrite IH]. Qed.

Lemma map_lookup_seq {A B : Type} (g : option A → B) (l : list A) :
  map (λ i, g (l !! i)) (seq 0 (length l)) = map (λ x, g (Some x)) l.
Proof.
  induction l as [|x l IH]; simpl; [done|]. f_equal.
  rewrite <- seq_shift, map_map. apply IH.
Qed.

Lemma fold_left_map {A B C : Type} (f : A → B → A) (g : C → B) (l : list C) (a : A) :
  fold_left f (map g l) a = fold_left (λ a c, f a (g c)) l a.
Proof. revert a. induction l as [|c l IH]; intros a; simpl; [done|apply IH]. Qed.

(** The loop over the indices is a loop over the characters from the
    right. *)
Lemma for_down_chars {S : Type} (s : string) (body : string → S → S) (init : S) :
  for_down (String.length s) (λ i acc, body (at_index s i) acc) init
  = fold_left (λ acc c, body (String c EmptyString) acc)
      (rev (list_ascii_of_string s)) init.
Proof.
  unfold for_down.
  rewrite <- (fold_left_map (λ acc x, body x acc) (λ c, String c EmptyString)).
  rewrite <- (fold_left_map (λ acc x, body x acc) (at_index s)).
  rewrite !map_rev. f_equal. f_equal.
  rewrite string_length_list.
  rewrite <- (map_lookup_seq (λ o, match o with
                                   | Some c => String c EmptyString
                                   | None => EmptyString
                                   end)).
  apply map_ext. intros i. unfold at_index. by rewrite get_lookup.
Qed.

Lemma digit_parseInt (c : ascii) :
  in_class digit c = true →
  JS.parseInt (String c EmptyString) = Some (digit_value c)
  ∧ (0 ≤ digit_value c ≤ 9)%Z
  ∧ in_class (mkClass false (white_space ++ [("-", "-")%char])) c = false.
Proof.
  destruct c as [[] [] [] [] [] [] [] []]; vm_compute; intros H;
    try discriminate H; repeat split; discriminate.
Qed.

Lemma digit_value_inj (c c' : ascii) :
  in_class digit c = true → in_class digit c' = true →
  digit_value c = digit_value c' → c = c'.
Proof.
  intros _ _ H. unfold digit_value in H.
  rewrite <- (ascii_nat_embedding c), <- (ascii_nat_embedding c').
  f_equal. lia.
Qed.

Lemma luhn_double_range (d : Z) :
  (0 ≤ d ≤ 9)%Z → (0 ≤ luhn_double d ≤ 9)%Z.
Proof. unfold luhn_double. intros H. destruct (9 <? 2 * d)%Z eqn:E; lia. Qed.

Lemma luhn_double_inj (d d' : Z) :
  (0 ≤ d ≤ 9)%Z → (0 ≤ d' ≤ 9)%Z → luhn_double d = luhn_double d' → d = d'.
Proof.
  unfold luhn_double. intros H H'.
  destruct (9 <? 2 * d)%Z eqn:E; destruct (9 <? 2 * d')%Z eqn:E'; lia.
Qed.

Lemma luhn_sum_nonneg (l : list Z) (doubled : bool) :
  Forall (λ d, (0 ≤ d ≤ 9)%Z) l → (0 ≤ luhn_sum l doubled)%Z.
Proof.
  intros Hl. revert doubled. induction Hl as [|d l Hd Hl IH]; intros doubled; simpl; [done|].
  specialize (IH (negb doubled)). pose proof (luhn_double_range d Hd).
  destruct doubled; lia.
Qed.

Lemma luhn_fold (chars : list ascii) (sum : Z) (isEven : bool) :
  Forall (λ c, in_class digit c = true) chars →
  fold_left (λ acc c,
    (λ (str : string) '(sum, isEven),
       let digit := JS.parseInt str in
       let digit :=
         if isEven : bool then
           let digit := Z.mul 2 <$> digit in
           match digit with
           | Some d => if (9 <? d)%Z then Some (d - 9)%Z else Some d
           | None => None
           end
         else digit in
       let sum :=
         match sum, digit with
         | Some sum, Some digit => Some (sum + digit)%Z
         | _, _ => None
         end in
       (sum, negb isEven)) (String c EmptyString) acc)
    chars (Some sum, isEven)
  = (Some (sum + luhn_sum (map digit_value chars) isEven)%Z,
     xorb isEven (Nat.odd (length chars))).
Proof.
  intros Hchars. revert sum isEven.
  induction Hchars as [|c chars Hc Hchars IH]; intros sum isEven.
  - simpl. by rewrite Z.add_0_r, xorb_false_r.
  - cbn [fold_left]. cbv beta zeta iota.
    destruct (digit_parseInt c Hc) as (-> & Hrange & _).
    destruct isEven; simpl fmap; cbv iota beta.
    + fold (luhn_double (digit_value c)).
      replace (if (9 <? 2 * digit_value c)%Z then Some (2 * digit_value c - 9)%Z
               else Some (2 * digit_value c)%Z)
        with (Some (luhn_double (digit_value c)))
        by (unfold luhn_double; by destruct (9 <? 2 * digit_value c)%Z).
      rewrite IH. cbn [map luhn_sum length negb]. f_equal; [f_equal; lia|].
      rewrite Nat.odd_succ, <- Nat.negb_odd. by destruct (Nat.odd (length chars)).
    + rewrite IH. cbn [map luhn_sum length negb]. f_equal; [f_equal; lia|].
      rewrite Nat.odd_succ, <- Nat.negb_odd. by destruct (Nat.odd (length chars)).
Qed.

Lemma isValidCardNumber_iff (cardNumber : string) :
  isValidCardNumber cardNumber = true
  ↔ length (card_digits cardNumber) = 16
    ∧ Forall (λ c, in_class digit c = true) (card_digits cardNumber)
    ∧ (luhn_sum (map digit_value (rev (card_digits cardNumber))) false mod 10 = 0)%Z.
Proof.
  unfold isValidCardNumber, remove_all. fold (card_digits cardNumber).
  generalize (card_digits cardNumber). intros chars.
  destruct (test (Repeat digit 16 (Some 16)) (string_of_list_ascii chars)) eqn:Htest;
    cbn [negb].
  - apply test_denotes in Htest. rewrite list_ascii_of_string_of_list_ascii in Htest.
    destruct Htest as (Hmin & Hmax & Hall). specialize (Hmax 16 eq_refl).
    rewrite (for_down_chars (string_of_list_ascii chars)
      (λ (str : string) '(sum, isEven),
         let digit := JS.parseInt str in
         let digit :=
           if isEven : bool then
             let digit := Z.mul 2 <$> digit in
             match digit with
             | Some d => if (9 <? d)%Z then Some (d - 9)%Z else Some d
             | None => None
             end
           else digit in
         let sum :=
           match sum, digit with
           | Some sum, Some digit => Some (sum + digit)%Z
           | _, _ => None
           end in
         (sum, negb isEven))).
    rewrite list_ascii_of_string_of_list_ascii.
    rewrite luhn_fold by (by apply Forall_rev).
    rewrite Z.add_0_l.
    assert (Hnonneg : (0 ≤ luhn_sum (map digit_value (rev chars)) false)%Z).
    { apply luhn_sum_nonneg, Forall_fmap, Forall_rev.
      eapply Forall_impl; [exact Hall|]. intros c Hc. simpl.
      by destruct (digit_parseInt c Hc) as (_ & ? & _). }
    rewrite Z.rem_mod_nonneg by lia. rewrite Z.eqb_eq.
    split; [intros H; split; [lia|done]|by intros (_ & _ & H)].
  - split; [discriminate|]. intros (Hlen & Hall & _).
    assert (test (Repeat digit 16 (Some 16)) (string_of_list_ascii chars) = true);
      [|congruence].
    apply test_denotes. rewrite list_ascii_of_string_of_list_ascii.
    split; [lia|]. split; [intros m [= <-]; lia|done].
Qed.

Lemma luhn_sum_app (l1 l2 : list Z) (doubled : bool) :
  luhn_sum (l1 ++ l2) doubled
  = (luhn_sum l1 doubled + luhn_sum l2 (xorb doubled (Nat.odd (length l1))))%Z.
Proof.
  revert doubled. induction l1 as [|d l1 IH]; intros doubled; simpl.
  - by rewrite xorb_false_r.
  - rewrite IH. rewrite Nat.odd_succ, <- Nat.negb_odd.
    destruct doubled, (Nat.odd (length l1)); simpl; lia.
Qed.

Lemma card_digits_append (pre post : string) :
  card_digits (pre +:+ post) = card_digits pre ++ card_digits post.
Proof. unfold card_digits. by rewrite list_ascii_of_string_append, filter_app. Qed.

Lemma card_digits_digit (c : ascii) (post : string) :
  in_class digit c = true →
  card_digits (String c post) = c :: card_digits post.
Proof.
  intros Hc. unfold card_digits. simpl. rewrite filter_cons.
  destruct (digit_parseInt c Hc) as (_ & _ & Hsep). by rewrite decide_True.
Qed.

(** X11: a CVV is accepted exactly when it is three or four decimal
    digits. *)
Theorem isValidCVV_iff (cvv : string) :
  isValidCVV cvv = true
  ↔ (String.length cvv = 3 ∨ String.length cvv = 4)
    ∧ Forall (λ c, in_class digit c = true) (list_ascii_of_string cvv).
Proof.
  unfold isValidCVV. rewrite test_denotes, string_length_list. simpl. split.
  - intros (Hmin & Hmax & Hall). specialize (Hmax 4 eq_refl). split; [lia|done].
  - intros (Hlen & Hall). split; [lia|]. split; [intros m [= <-]; lia|done].
Qed.

(** X12: a card number is accepted exactly when, white space and dashes
    taken out, it is 16 decimal digits whose checksum (from the right,
    every second digit doubled, 9 taken off a double above 9) is a multiple
    of 10; two card numbers that differ only in white space and dashes get
    the same verdict. *)
Theorem isValidCardNumber_accepts (cardNumber : string) :
  (isValidCardNumber cardNumber = true
   ↔ length (card_digits cardNumber) = 16
     ∧ Forall (λ c, in_class digit c = true) (card_digits cardNumber)
     ∧ (luhn_sum (map digit_value (rev (card_digits cardNumber))) false mod 10 = 0)%Z)
  ∧ (∀ other, card_digits other = card_digits cardNumber →
       isValidCardNumber other = isValidCardNumber cardNumber).
Proof.
  split; [apply isValidCardNumber_iff|].
  intros other Hsame.
  destruct (isValidCardNumber cardNumber) eqn:H.
  - apply isValidCardNumber_iff. rewrite Hsame. by apply isValidCardNumber_iff.
  - destruct (isValidCardNumber other) eqn:H'; [|done].
    apply isValidCardNumber_iff in H'. rewrite Hsame in H'.
    apply isValidCardNumber_iff in H'. congruence.
Qed.

(** X13: changing one digit of an accepted card number into another digit
    gives a card number that is rejected. *)
Theorem isValidCardNumber_single_digit_error (pre post : string) (c c' : ascii) :
  in_class digit c = true → in_class digit c' = true → c ≠ c' →
  isValidCardNumber (pre +:+ String c post) = true →
  isValidCardNumber (pre +:+ String c' post) = false.
Proof.
  intros Hc Hc' Hne Hvalid.
  destruct (isValidCardNumber (pre +:+ String c' post)) eqn:Hvalid'; [exfalso|done].
  apply isValidCardNumber_iff in Hvalid as (_ & _ & Hsum).
  apply isValidCardNumber_iff in Hvalid' as (_ & _ & Hsum').
  rewrite card_digits_append, card_digits_digit in Hsum, Hsum' by done.
  rewrite rev_app_distr in Hsum, Hsum'. simpl in Hsum, Hsum'.
  rewrite <- app_assoc, !map_app, !luhn_sum_app in Hsum, Hsum'.
  simpl in Hsum, Hsum'.
  destruct (digit_parseInt c Hc) as (_ & Hd & _).
  destruct (digit_parseInt c' Hc') as (_ & Hd' & _).
  assert (Hvalue : digit_value c ≠ digit_value c')
    by (intros H; by apply Hne, digit_value_inj).
  pose proof (luhn_double_range _ Hd). pose proof (luhn_double_range _ Hd').
  assert (Hdouble : luhn_double (digit_value c) ≠ luhn_double (digit_value c'))
    by (intros H'; by apply Hvalue, luhn_double_inj).
  destruct (Nat.odd (length (map digit_value (rev (card_digits post)))));
    cbv iota in Hsum, Hsum'; Z.div_mod_to_equations; lia.
Qed.

(** X14: swapping two neighbouring digits of an accepted card number that
    are different, and are not 0 and 9, gives a card number that is
    rejected. *)
Theorem isValidCardNumber_transposition (pre post : string) (c1 c2 : ascii) :
  in_class digit c1 = true → in_class digit c2 = true → c1 ≠ c2 →
  ¬ (digit_value c1 = 0 ∧ digit_value c2 = 9)%Z →
  ¬ (digit_value c1 = 9 ∧ digit_value c2 = 0)%Z →
  isValidCardNumber (pre +:+ String c1 (String c2 post)) = true →
  isValidCardNumber (pre +:+ String c2 (String c1 post)) = false.
Proof.
  intros Hc1 Hc2 Hne H09 H90 Hvalid.
  destruct (isValidCardNumber (pre +:+ String c2 (String c1 post))) eqn:Hvalid';
    [exfalso|done].
  apply isValidCardNumber_iff in Hvalid as (_ & _ & Hsum).
  apply isValidCardNumber_iff in Hvalid' as (_ & _ & Hsum').
  rewrite card_digits_append, !card_digits_digit in Hsum, Hsum' by done.
  rewrite rev_app_distr in Hsum, Hsum'. simpl in Hsum, Hsum'.
  rewrite <- !app_assoc, !map_app, !luhn_sum_app in Hsum, Hsum'.
  simpl in Hsum, Hsum'.
  destruct (digit_parseInt c1 Hc1) as (_ & Hd1 & _).
  destruct (digit_parseInt c2 Hc2) as (_ & Hd2 & _).
  assert (Hvalue : digit_value c1 ≠ digit_value c2)
    by (intros H; by apply Hne, digit_value_inj).
  unfold luhn_double in Hsum, Hsum'.
  destruct (Nat.odd (length (map digit_value (rev (card_digits post)))));
    change (Nat.odd 1) with true in Hsum, Hsum'; cbn [xorb negb] in Hsum, Hsum';
    destruct (9 <? 2 * digit_value c1)%Z eqn:E1;
    destruct (9 <? 2 * digit_value c2)%Z eqn:E2; Z.div_mod_to_equations; lia.
Qed.

Lemma isValidCardNumber_single_digit_error_witness :
  isValidCardNumber ("4111 1111 1111 " +:+ String "7" "111") = false.
Proof.
  apply (isValidCardNumber_single_digit_error "4111 1111 1111 " "111" "1" "7").
  - reflexivity.
  - reflexivity.
  - discriminate.
  - vm_compute. reflexivity.
Defined.

Lemma isValidCardNumber_transposition_witness :
  isValidCardNumber ("" +:+ String "1" (String "4" "11-1111-1111-1111")) = false.
Proof.
  apply (isValidCardNumber_transposition "" "11-1111-1111-1111" "4" "1").
  - reflexivity.
  - reflexivity.
  - discriminate.
  - intros [H _]. discriminate H.
  - intros [H _]. discriminate H.
  - vm_compute. reflexivity.
Defined.

End PaymentProps.

(* ===================================================================== *)
(** * The manifest check of [validate-passengers.js] *)
(* ===================================================================== *)

Module ValidatePassengersProps.
Import Pattern PatternProps PaymentProps ValidatePassengers.

Lemma validate_loop (today : Date) (passengers : list PassengerForm)
    (types : PassengerTypes) :
  match
    for_of passengers (λ passenger passengerTypes,
      if negb (test nameRegex (text (firstName passenger)))
         || negb (test nameRegex (text (lastName passenger)))
      then inl (Invalid "Invalid name format. Names must be 2-50 characters long and contain only letters, spaces, and hyphens.")
      else if negb (test emailRegex (text (email passenger)))
      then inl (Invalid "Invalid email format.")
      else
        let age := SeatMap.calculateAge today (dateOfBirth passenger) in
        if age_lt age 0 then inl (Invalid "Invalid date of birth.")
        else if age_ge age 12 then
          inr {| adults := S (adults passengerTypes);
                 children := children passengerTypes;
                 infants := infants passengerTypes |}
        else if age_ge age 2 then
          inr {| adults := adults passengerTypes;
                 children := S (children passengerTypes);
                 infants := infants passengerTypes |}
        else
          inr {| adults := adults passengerTypes;
                 children := children passengerTypes;
                 infants := S (infants passengerTypes) |})
      types
  with
  | inl result =>
      forallb (well_formed today) passengers = false ∧ ∃ error, result = Invalid error
  | inr result =>
      forallb (well_formed today) passengers = true
      ∧ result = {| adults := adults types + adults (count_types today passengers);
                    children := children types + children (count_types today passengers);
                    infants := infants types + infants (count_types today passengers) |}
  end.
Proof.
  revert types. induction passengers as [|passenger passengers IH]; intros types.
  - simpl. split; [done|]. destruct types. simpl. f_equal; lia.
  - cbn [for_of forallb].
    assert (Hwf : well_formed today passenger
                  = test nameRegex (text (firstName passenger))
                    && test nameRegex (text (lastName passenger))
                    && test emailRegex (text (email passenger))
                    && negb (age_lt (age today passenger) 0)) by done.
    rewrite Hwf. clear Hwf.
    destruct (test nameRegex (text (firstName passenger))); cbn [negb orb andb];
      [|by eauto].
    destruct (test nameRegex (text (lastName passenger))); cbn [negb orb andb];
      [|by eauto].
    destruct (test emailRegex (text (email passenger))); cbn [negb orb andb];
      [|by eauto].
    cbv zeta. fold (age today passenger).
    destruct (age_lt (age today passenger) 0); cbn [negb]; [by eauto|].
    unfold count_types. cbn [adults children infants]. rewrite !filter_cons.
    destruct (age_ge (age today passenger) 12) eqn:H12;
      [|destruct (age_ge (age today passenger) 2) eqn:H2].
    all: assert (Ha : is_adult today passenger = age_ge (age today passenger) 12) by done;
      assert (Hc : is_child today passenger
                   = negb (age_ge (age today passenger) 12)
                     && age_ge (age today passenger) 2) by done;
      assert (Hi : is_infant today passenger
                   = negb (age_ge (age today passenger) 12)
                     && negb (age_ge (age today passenger) 2)) by done;
      rewrite H12 in Ha; rewrite H12, ?H2 in Hc; rewrite H12, ?H2 in Hi;
      cbn [negb andb] in Hc, Hi.
    + specialize (IH {| adults := S (adults types); children := children types;
                        infants := infants types |}).
      revert IH.
      match goal with |- _ → match ?x with _ => _ end => destruct x end;
        [intros [-> ?]; by eauto|]. intros [-> ->]. split; [done|].
      rewrite decide_True by done.
      rewrite !decide_False by (rewrite ?Hc, ?Hi; done). cbn. f_equal; lia.
    + specialize (IH {| adults := adults types; children := S (children types);
                        infants := infants types |}).
      revert IH.
      match goal with |- _ → match ?x with _ => _ end => destruct x end;
        [intros [-> ?]; by eauto|]. intros [-> ->]. split; [done|].
      rewrite (decide_True _ _ Hc).
      rewrite !decide_False by (rewrite ?Ha, ?Hi; done). cbn. f_equal; lia.
    + specialize (IH {| adults := adults types; children := children types;
                        infants := S (infants types) |}).
      revert IH.
      match goal with |- _ → match ?x with _ => _ end => destruct x end;
        [intros [-> ?]; by eauto|]. intros [-> ->]. split; [done|].
      rewrite (decide_True _ _ Hi).
      rewrite !decide_False by (rewrite ?Ha, ?Hc; done). cbn. f_equal; lia.
Qed.

Lemma count_types_total (today : Date) (passengers : list PassengerForm) :
  adults (count_types today passengers) + children (count_types today passengers)
  + infants (count_types today passengers) = length passengers.
Proof.
  unfold count_types. cbn [adults children infants].
  induction passengers as [|passenger passengers IH]; [done|].
  rewrite !filter_cons. cbn [length]. rewrite <- IH.
  assert (Ha : is_adult today passenger = age_ge (age today passenger) 12) by done.
  assert (Hc : is_child today passenger
               = negb (age_ge (age today passenger) 12)
                 && age_ge (age today passenger) 2) by done.
  assert (Hi : is_infant today passenger
               = negb (age_ge (age today passenger) 12)
                 && negb (age_ge (age today passenger) 2)) by done.
  destruct (age_ge (age today passenger) 12), (age_ge (age today passenger) 2);
    cbn [negb andb] in Hc, Hi; repeat case_decide; try congruence;
    cbn [length]; lia.
Qed.

Lemma validatePassengers_valid (today : Date) (passengers : list PassengerForm)
    (passengerTypes : PassengerTypes) :
  validatePassengers today passengers = Valid passengerTypes →
  forallb (well_formed today) passengers = true
  ∧ passengerTypes = count_types today passengers
  ∧ 1 ≤ adults passengerTypes
  ∧ infants passengerTypes ≤ adults passengerTypes.
Proof.
  unfold validatePassengers.
  pose proof (validate_loop today passengers
                {| adults := 0; children := 0; infants := 0 |}) as Hloop.
  revert Hloop.
  match goal with |- match ?x with _ => _ end → _ => destruct x as [result|result] end.
  - by intros [Hbad [error ->]].
  - intros [Hgood ->]. cbn [adults children infants]. rewrite !Nat.add_0_l.
    fold (count_types today passengers).
    replace {| adults := adults (count_types today passengers);
               children := children (count_types today passengers);
               infants := infants (count_types today passengers) |}
      with (count_types today passengers) by (by destruct (count_types today passengers)).
    destruct (adults (count_types today passengers) =? 0) eqn:Hzero; [discriminate|].
    apply Nat.eqb_neq in Hzero.
    destruct (adults (count_types today passengers)
              <? infants (count_types today passengers)) eqn:Hlt; [discriminate|].
    apply Nat.ltb_ge in Hlt.
    intros [= <-]. repeat split; [done|lia|done].
Qed.

(** X15: a manifest is valid exactly when every passenger passes the two
    name checks, the email check and has no negative age, there is at least
    one adult and there are no more infants than adults; the counts it
    returns are the numbers of passengers aged 12 or more, aged 2 to 11,
    and younger than 2 or with a date of birth that is no date, and they
    add up to the number of passengers. *)
Theorem validatePassengers_accepts (today : Date) (passengers : list PassengerForm)
    (passengerTypes : PassengerTypes) :
  (validatePassengers today passengers = Valid passengerTypes
   ↔ forallb (well_formed today) passengers = true
     ∧ passengerTypes = count_types today passengers
     ∧ 1 ≤ adults passengerTypes
     ∧ infants passengerTypes ≤ adults passengerTypes)
  ∧ adults (count_types today passengers) + children (count_types today passengers)
    + infants (count_types today passengers) = length passengers.
Proof.
  split; [|apply count_types_total].
  split; [apply validatePassengers_valid|].
  intros (Hgood & -> & Hadult & Hinfant). unfold validatePassengers.
  pose proof (validate_loop today passengers
                {| adults := 0; children := 0; infants := 0 |}) as Hloop.
  revert Hloop.
  match goal with |- match ?x with _ => _ end → _ => destruct x as [result|result] end.
  - intros [Hbad _]. congruence.
  - intros [_ ->]. cbn [adults children infants]. rewrite !Nat.add_0_l.
    fold (count_types today passengers).
    replace {| adults := adults (count_types today passengers);
               children := children (count_types today passengers);
               infants := infants (count_types today passengers) |}
      with (count_types today passengers) by (by destruct (count_types today passengers)).
    rewrite (proj2 (Nat.eqb_neq _ 0)) by lia.
    by rewrite (proj2 (Nat.ltb_ge _ _)) by lia.
Qed.

Lemma in_range_single (a c : ascii) : JS.in_range a a c = true ↔ c = a.
Proof.
  unfold JS.in_range. rewrite andb_true_iff, !N.leb_le. split.
  - intros [H1 H2]. rewrite <- (ascii_N_embedding c), <- (ascii_N_embedding a).
    f_equal. lia.
  - intros ->. lia.
Qed.

Lemma single_char_word (a : ascii) (w : list ascii) :
  denotes (Repeat (mkClass false [(a, a)]) 1 (Some 1)) w ↔ w = [a].
Proof.
  simpl. split.
  - intros (Hmin & Hmax & Hall). specialize (Hmax 1 eq_refl).
    destruct w as [|c [|c' w]]; simpl in *; [lia| |lia].
    apply Forall_cons in Hall as [Hc _]. unfold in_class in Hc. simpl in Hc.
    rewrite orb_false_r in Hc. by apply in_range_single in Hc as ->.
  - intros ->. split; [simpl; lia|]. split; [by intros m [= <-]|].
    constructor; [|done]. unfold in_class. simpl. rewrite orb_false_r.
    by apply in_range_single.
Qed.

Lemma address_char (c : ascii) :
  in_class (mkClass true (white_space ++ [("@", "@")%char])) c = true
  ↔ is_space c = false ∧ c ≠ "@"%char.
Proof.
  unfold in_class, is_space. cbn [negated ranges]. rewrite existsb_app.
  cbn [existsb fst snd]. rewrite orb_false_r.
  destruct (existsb _ white_space); cbn [orb xorb]; [split; [done|by intros []]|].
  destruct (JS.in_range "@" "@" c) eqn:Hat; cbn [negb].
  - apply in_range_single in Hat. split; [done|by intros [_ []]].
  - split; [|done]. intros _. split; [done|]. intros Heq.
    apply in_range_single in Heq. congruence.
Qed.

Lemma address_part (w : list ascii) :
  denotes (Repeat (mkClass true (white_space ++ [("@", "@")%char])) 1 None) w
  ↔ w ≠ [] ∧ Forall (λ c, is_space c = false ∧ c ≠ "@"%char) w.
Proof.
  cbn [denotes]. split.
  - intros (Hmin & _ & Hall). split; [by destruct w; simpl in *; [lia|]|].
    eapply Forall_impl; [exact Hall|]. intros c. apply address_char.
  - intros [Hne Hall]. split; [destruct w; simpl; [done|lia]|].
    split; [done|]. eapply Forall_impl; [exact Hall|]. intros c. apply address_char.
Qed.

Lemma emailRegex_iff (s : string) :
  test emailRegex s = true
  ↔ ∃ local domain top,
      list_ascii_of_string s = local ++ "@"%char :: domain ++ "."%char :: top
      ∧ local ≠ [] ∧ domain ≠ [] ∧ top ≠ []
      ∧ Forall (λ c, is_space c = false ∧ c ≠ "@"%char) (local ++ domain ++ top).
Proof.
  rewrite test_denotes. unfold emailRegex. cbn [denotes].
  setoid_rewrite single_char_word. setoid_rewrite address_part. split.
  - intros (local & w1 & -> & [Hlocal Hl] & at_ & w2 & -> & -> & domain & w3 & ->
            & [Hdomain Hd] & dot & top & -> & -> & [Htop Ht]).
    exists local, domain, top. repeat split; try done.
    by rewrite !Forall_app.
  - intros (local & domain & top & -> & Hlocal & Hdomain & Htop & Hall).
    apply Forall_app in Hall as [Hl Hall]. apply Forall_app in Hall as [Hd Ht].
    eexists local, _. split; [reflexivity|]. split; [done|].
    eexists ["@"%char], _. split; [reflexivity|]. split; [done|].
    eexists domain, _. split; [reflexivity|]. split; [done|].
    eexists ["."%char], top. done.
Qed.

(** X16: a name is accepted exactly when it has 2 to 50 characters, each a
    letter from A to Z or a to z, white space or a hyphen; an email is
    accepted exactly when it is a non-empty part, an at sign, a non-empty
    part, a dot and a non-empty part, the three parts free of white space
    and at signs, so that an accepted email has exactly one at sign and no
    white space. An absent name is read as the text "undefined" and
    accepted; an absent email is rejected. *)
Theorem passenger_text_formats (s : string) :
  (test nameRegex s = true
   ↔ 2 ≤ String.length s ≤ 50
     ∧ Forall (λ c, JS.in_range "A" "Z" c = true ∨ JS.in_range "a" "z" c = true
                    ∨ is_space c = true ∨ c = "-"%char)
              (list_ascii_of_string s))
  ∧ (test emailRegex s = true
     ↔ ∃ local domain top,
         list_ascii_of_string s = local ++ "@"%char :: domain ++ "."%char :: top
         ∧ local ≠ [] ∧ domain ≠ [] ∧ top ≠ []
         ∧ Forall (λ c, is_space c = false ∧ c ≠ "@"%char) (local ++ domain ++ top))
  ∧ (test emailRegex s = true →
     length (filter (λ c, c = "@"%char) (list_ascii_of_string s)) = 1
     ∧ Forall (λ c, is_space c = false) (list_ascii_of_string s))
  ∧ test nameRegex (text None) = true
  ∧ test emailRegex (text None) = false.
Proof.
  split; [|split; [apply emailRegex_iff|split; [|split; reflexivity]]].
  - rewrite test_denotes, string_length_list. unfold nameRegex. cbn [denotes].
    assert (Hchar : ∀ c,
      in_class (mkClass false ([("A", "Z"); ("a", "z")]%char ++ white_space
                               ++ [("-", "-")%char])) c = true
      ↔ JS.in_range "A" "Z" c = true ∨ JS.in_range "a" "z" c = true
        ∨ is_space c = true ∨ c = "-"%char).
    { intros c. unfold in_class, is_space. cbn [negated ranges xorb].
      rewrite !existsb_app. cbn [existsb fst snd].
      rewrite !orb_true_iff, in_range_single. intuition discriminate. }
    split.
    + intros (Hmin & Hmax & Hall). specialize (Hmax 50 eq_refl). split; [lia|].
      eapply Forall_impl; [exact Hall|]. intros c. apply Hchar.
    + intros ([Hmin Hmax] & Hall). split; [done|]. split; [by intros m [= <-]|].
      eapply Forall_impl; [exact Hall|]. intros c. apply Hchar.
  - intros (local & domain & top & -> & _ & _ & _ & Hall)%emailRegex_iff.
    apply Forall_app in Hall as [Hl Hall]. apply Forall_app in Hall as [Hd Ht].
    assert (Hnone : ∀ w, Forall (λ c, is_space c = false ∧ c ≠ "@"%char) w →
                         filter (λ c, c = "@"%char) w = []).
    { intros w Hw. induction Hw as [|c w [_ Hc] Hw IH]; [done|].
      by rewrite filter_cons, decide_False. }
    split.
    + rewrite filter_app, filter_cons, decide_True by done.
      rewrite filter_app, filter_cons, decide_False by done.
      by rewrite !Hnone.
    + rewrite Forall_app, Forall_cons, Forall_app, Forall_cons.
      repeat split; try done;
        (eapply Forall_impl; [eassumption|]; by intros c [? _]).
Qed.






End ValidatePassengersProps.

(* ===================================================================== *)
(** * The request handler of [search-flights.js] *)
(* ===================================================================== *)

Module SearchHandlerProps.
Import SearchHandler.

(** X18: a departure date that is no date passes the check of the dates,
    whatever the return date; a departure date that is a date passes
    exactly when it is not before today's midnight and the return date,
    when given and a date, is not before the departure. *)
Theorem validateDates_accepts (Other : Type) (truthy_other : Other → bool)
    (parseDate : option (Value Other) → option Z) (today : Z)
    (departDate returnDate : option (Value Other)) :
  (parseDate departDate = None →
   validateDates Other truthy_other parseDate today departDate returnDate = true)
  ∧ (∀ depart, parseDate departDate = Some depart →
       (validateDates Other truthy_other parseDate today departDate returnDate = true
        ↔ (today ≤ depart)%Z
          ∧ (truthy Other truthy_other returnDate = true →
             ∀ back, parseDate returnDate = Some back → (depart ≤ back)%Z))).
Proof.
  unfold validateDates. split.
  - intros ->. simpl. destruct (truthy Other truthy_other returnDate); [|done].
    by destruct (parseDate returnDate).
  - intros depart ->. simpl.
    destruct (depart <? today)%Z eqn:Hpast.
    + apply Z.ltb_lt in Hpast. split; [discriminate|]. intros [H _]. lia.
    + apply Z.ltb_ge in Hpast.
      destruct (truthy Other truthy_other returnDate); [|by split].
      destruct (parseDate returnDate) as [back|]; simpl.
      * destruct (back <? depart)%Z eqn:Hback.
        -- apply Z.ltb_lt in Hback. split; [discriminate|].
           intros [_ H]. specialize (H eq_refl back eq_refl). lia.
        -- apply Z.ltb_ge in Hback. split; [|done]. intros _. split; [done|].
           by intros _ ? [= <-].
      * split; [|done]. intros _. split; [done|]. by intros _ ? [=].
Qed.

Example toUpperCase_on_samples :
  Forall (λ sample, toUpperCase sample.1 = sample.2) toUpperCase_samples.
Proof. apply (bool_decide_unpack _). vm_compute. exact I. Qed.

(** ** The table of the upper case *)

Lemma upper_special_ok : forallb special_ok upper_special = true.
Proof. vm_compute. reflexivity. Qed.

Lemma upper_runs_ok : forallb run_ok upper_runs = true.
Proof. vm_compute. reflexivity. Qed.

(** The upper case of one code point, by cases. *)
Lemma upper_point_cases (cp : N) :
  (∃ image, (cp, image) ∈ upper_special ∧ upper_point cp = image)
  ∨ (∃ first last step image,
       (first, last, step, image) ∈ upper_runs
       ∧ (first ≤ cp ≤ last)%N
       ∧ upper_point cp = [(image + (cp - first))%N])
  ∨ upper_point cp = [cp].
Proof.
  unfold upper_point.
  destruct (find _ upper_special) as [[key image]|] eqn:Hspecial.
  - left. apply find_some in Hspecial as [Hin Hkey]. cbn in Hkey.
    apply N.eqb_eq in Hkey as ->. exists image. split; [|done].
    by apply list_elem_of_In.
  - destruct (find (in_run cp) upper_runs) as [[[[first last] step] image]|] eqn:Hrun;
      [|by right; right].
    right. left. apply find_some in Hrun as [Hin Hrun].
    unfold in_run in Hrun.
    apply andb_true_iff in Hrun as [Hrun _].
    apply andb_true_iff in Hrun as [Hfirst Hlast].
    apply N.leb_le in Hfirst, Hlast.
    exists first, last, step, image. split; [by apply list_elem_of_In|done].
Qed.

Lemma special_entry_ok (cp : N) (image : list N) :
  (cp, image) ∈ upper_special → special_ok (cp, image) = true.
Proof.
  intros Hin. pose proof upper_special_ok as Hall.
  rewrite forallb_forall in Hall. by apply Hall, list_elem_of_In.
Qed.

Lemma run_entry_ok (run : N * N * N * N) : run ∈ upper_runs → run_ok run = true.
Proof.
  intros Hin. pose proof upper_runs_ok as Hall.
  rewrite forallb_forall in Hall. by apply Hall, list_elem_of_In.
Qed.

(** A code unit whose upper case begins with a capital letter: it is that
    letter, in one of its forms, or its upper case is a long image. *)
Lemma upper_point_capital (u x : N) (l : list N) :
  upper_point u = x :: l → is_capital x = true →
  (l = [] ∧ same_letter u x) ∨ x :: l ∈ long_images.
Proof.
  intros Hupper Hx.
  destruct (upper_point_cases u)
    as [(image & Hin & Himage)|[(first & last & step & image & Hin & Hu & Himage)|Hself]].
  - right. apply special_entry_ok in Hin. unfold special_ok in Hin. cbn [fst snd] in Hin.
    rewrite Himage in Hupper. subst image.
    apply andb_true_iff in Hin as [_ Hin]. rewrite Hx in Hin.
    by apply bool_decide_eq_true in Hin.
  - left. rewrite Himage in Hupper. injection Hupper as <- <-. split; [done|].
    apply run_entry_ok in Hin. unfold run_ok in Hin.
    apply andb_true_iff in Hin as [Hin _].
    unfold is_capital in Hx. apply andb_true_iff in Hx as [Hlow Hhigh].
    apply N.leb_le in Hlow, Hhigh.
    rewrite (proj2 (N.leb_le image 90)) in Hin by lia.
    apply bool_decide_eq_true in Hin.
    unfold same_letter.
    repeat (apply elem_of_cons in Hin as [[= -> -> -> ->]|Hin]; [lia|]).
    by apply elem_of_nil in Hin.
  - left. rewrite Hself in Hupper. injection Hupper as <- <-. split; [done|].
    by left.
Qed.

(** The upper case of a code point from 10000 on begins with a surrogate. *)
Lemma upper_point_pair (high low : N) :
  ∃ u l, flat_map encode (upper_point (code_point high low)) = u :: l
         ∧ (55296 ≤ u)%N.
Proof.
  assert (Hcp : (65536 ≤ code_point high low)%N) by (unfold code_point; lia).
  assert (Hencode : ∀ cp, (65536 ≤ cp)%N →
            encode cp = [(55296 + (cp - 65536) / 1024)%N;
                         (56320 + (cp - 65536) mod 1024)%N]).
  { intros cp H. unfold encode. by rewrite (proj2 (N.ltb_ge cp 65536)). }
  destruct (upper_point_cases (code_point high low))
    as [(image & Hin & Himage)|[(first & last & step & image & Hin & Hu & Himage)|Hself]].
  - apply special_entry_ok in Hin. unfold special_ok in Hin. cbn [fst snd] in Hin.
    apply andb_true_iff in Hin as [Hin _]. apply N.ltb_lt in Hin. lia.
  - rewrite Himage. apply run_entry_ok in Hin. unfold run_ok in Hin.
    apply andb_true_iff in Hin as [_ Hin].
    apply orb_true_iff in Hin as [Hin|Hin]; [apply N.ltb_lt in Hin; lia|].
    apply andb_true_iff in Hin as [Hfirst Himg]. apply N.leb_le in Hfirst, Himg.
    cbn [flat_map]. rewrite Hencode by lia. eexists _, _. split; [done|].
    apply N.le_add_r.
  - rewrite Hself. cbn [flat_map]. rewrite Hencode by lia.
    eexists _, _. split; [done|]. apply N.le_add_r.
Qed.

Lemma toUpperCase_cons (u : N) (rest : list N) :
  toUpperCase (u :: rest)
  = match rest with
    | v :: rest' =>
        if is_high u && is_low v
        then flat_map encode (upper_point (code_point u v)) ++ toUpperCase rest'
        else upper_point u ++ toUpperCase rest
    | [] => upper_point u ++ toUpperCase rest
    end.
Proof. destruct rest; [|done]. cbn. by rewrite app_nil_r. Qed.

(** A string whose upper case is made of capital letters in which no long
    image begins has, letter by letter, the letters of its upper case. *)
Lemma toUpperCase_plain (code target : list N) :
  plain_capitals target = true →
  toUpperCase code = target →
  Forall2 same_letter code target.
Proof.
  revert target. induction code as [|u rest IH]; intros target Hplain Hupper.
  { cbn in Hupper. subst target. constructor. }
  rewrite toUpperCase_cons in Hupper.
  assert (Hsingle : upper_point u ++ toUpperCase rest = target →
                    Forall2 same_letter (u :: rest) target).
  { clear Hupper. intros Hupper.
    destruct target as [|x target].
    { apply app_eq_nil in Hupper as [Hnil _].
      destruct (upper_point_cases u)
        as [(image & Hin & Himage)|[(? & ? & ? & ? & _ & _ & Himage)|Hself]];
        [|congruence..].
      apply special_entry_ok in Hin. unfold special_ok in Hin. cbn [fst snd] in Hin.
      rewrite <- Himage, Hnil in Hin. by rewrite andb_false_r in Hin. }
    cbn [plain_capitals] in Hplain.
    apply andb_true_iff in Hplain as [Hplain Hrest].
    apply andb_true_iff in Hplain as [Hx Hlong].
    destruct (upper_point u) as [|y l] eqn:Hu.
    { exfalso.
      destruct (upper_point_cases u)
        as [(image & Hin & Himage)|[(? & ? & ? & ? & _ & _ & Himage)|Hself]];
        [|congruence..].
      apply special_entry_ok in Hin. unfold special_ok in Hin. cbn [fst snd] in Hin.
      rewrite <- Himage, Hu in Hin. by rewrite andb_false_r in Hin. }
    injection Hupper as -> Hupper.
    destruct (upper_point_capital u x l Hu Hx) as [[-> Hsame]|Hin].
    - constructor; [done|]. by apply IH.
    - exfalso. rewrite forallb_forall in Hlong.
      specialize (Hlong (x :: l) (proj1 (list_elem_of_In _ _) Hin)).
      apply negb_true_iff, bool_decide_eq_false in Hlong. apply Hlong.
      rewrite <- Hupper.
      change (x :: l ++ toUpperCase rest) with ((x :: l) ++ toUpperCase rest).
      by rewrite take_app_length. }
  destruct rest as [|v rest']; [by apply Hsingle|].
  destruct (is_high u && is_low v); [|by apply Hsingle].
  exfalso.
  destruct (upper_point_pair u v) as (w & l & Hpair & Hw).
  rewrite Hpair in Hupper. subst target.
  cbn [plain_capitals app] in Hplain.
  apply andb_true_iff in Hplain as [Hplain _].
  apply andb_true_iff in Hplain as [Hcap _].
  unfold is_capital in Hcap. apply andb_true_iff in Hcap as [_ Hcap].
  apply N.leb_le in Hcap. lia.
Qed.

Lemma validIATACodes_plain :
  Forall (λ airport, plain_capitals (code_units airport) = true) validIATACodes.
Proof. repeat constructor. Qed.

(** X19: an airport code that is a string is accepted exactly when it has
    three code units that are, one by one, the letters of one of the ten
    known codes, each as the capital letter, as the small letter, or, for I
    and S, as the dotless i (U+0131) and the long s (U+017F), which
    [toUpperCase] turns into I and S: so that, for instance, the code made
    of m, dotless i and a is accepted as MIA. The check of a string never
    throws; the check of a value that is no string always does. *)
Theorem validateIATACode_accepts (Other : Type) (code : list N) :
  (validateIATACode Other (Some (Text code)) = Ok true
   ↔ ∃ airport, airport ∈ validIATACodes
       ∧ Forall2 same_letter code (code_units airport))
  ∧ (∃ accepted, validateIATACode Other (Some (Text code)) = Ok accepted)
  ∧ (∀ v : Other, ∃ error, validateIATACode Other (Some (NoText v)) = Throw error)
  ∧ validateIATACode Other (Some (Text [109; 305; 97]%N)) = Ok true
  ∧ validateIATACode Other (Some (Text [383; 102; 111]%N)) = Ok true.
Proof.
  split; [|split; [by eexists|split; [by eexists|split; [|]]]].
  - unfold validateIATACode. split.
    + intros Hok.
      assert (Hin : toUpperCase code ∈ map code_units validIATACodes).
      { eapply bool_decide_eq_true_1. congruence. }
      apply list_elem_of_fmap in Hin as (airport & Hupper & Hairport).
      exists airport. split; [done|].
      apply toUpperCase_plain; [|done].
      pose proof validIATACodes_plain as Hplain.
      rewrite Forall_forall in Hplain. by apply Hplain.
    + intros (airport & Hairport & Hsame). f_equal.
      apply bool_decide_eq_true. apply list_elem_of_fmap.
      exists airport. split; [|done].
      unfold validIATACodes in Hairport.
      repeat (apply elem_of_cons in Hairport as [->|Hairport];
        [cbn in Hsame;
         apply Forall2_cons_inv_r in Hsame as (c1 & w1 & H1 & Hsame & ->);
         apply Forall2_cons_inv_r in Hsame as (c2 & w2 & H2 & Hsame & ->);
         apply Forall2_cons_inv_r in Hsame as (c3 & w3 & H3 & Hsame & ->);
         apply Forall2_nil_inv_r in Hsame as ->;
         destruct H1 as [->|[->|[[? ->]|[? ->]]]]; try discriminate;
         destruct H2 as [->|[->|[[? ->]|[? ->]]]]; try discriminate;
         destruct H3 as [->|[->|[[? ->]|[? ->]]]]; try discriminate;
         vm_compute; reflexivity|]).
      by apply elem_of_nil in Hairport.
  - vm_compute. reflexivity.
  - vm_compute. reflexivity.
Qed.

(** X20: a search request that does not pass all checks is answered
    without the store being asked and whatever the time is: with 500 when
    the three required fields are truthy and the origin is no string, or
    the origin is a known code and the destination is no string; with 400
    otherwise (a required field missing or falsy, an unknown airport code,
    unacceptable dates). A request that passes them has strings as origin
    and destination and is answered from the query for
    origin-destination-departDate, with the codes as they were typed, and,
    when a return date is given, the query for
    destination-origin-returnDate: 200 with the flights of the first query
    priced at the time of its answer and those of the second priced at the
    time of its answer ([return] being [null] without a return date), or
    500 when a query fails or a date cannot be turned into a string. *)
Theorem handler_search (Other : Type) (truthy_other : Other → bool)
    (toString : Other → Result (list N))
    (parseDate : option (Value Other) → option Z)
    (query : list N → Result (list Flight)) (now now' : float) (today : Z)
    (requestData : RequestData Other) :
  let answer := handler Other truthy_other toString parseDate query now now' today
                  (Request Other requestData) in
  let internal (error : Error) :=
    createResponse 500
      (ErrorBody "Internal server error" (Some (error_message error))) in
  (acceptable truthy_other parseDate today requestData = false →
   (∀ query' later later',
      handler Other truthy_other toString parseDate query' later later' today
        (Request Other requestData) = answer)
   ∧ (statusCode answer = 400%Z ∨ statusCode answer = 500%Z)
   ∧ (statusCode answer = 500%Z
      ↔ truthy Other truthy_other (origin Other requestData) = true
        ∧ truthy Other truthy_other (destination Other requestData) = true
        ∧ truthy Other truthy_other (departDate Other requestData) = true
        ∧ (no_text (origin Other requestData)
           ∨ (validateIATACode Other (origin Other requestData) = Ok true
              ∧ no_text (destination Other requestData)))))
  ∧ (acceptable truthy_other parseDate today requestData = true →
     ∃ from to,
       origin Other requestData = Some (Text from)
       ∧ destination Other requestData = Some (Text to)
       ∧ answer
         = match template Other toString (departDate Other requestData) with
           | Throw error => internal error
           | Ok depart =>
               match query (from ++ code_units "-" ++ to ++ code_units "-" ++ depart) with
               | Throw error => internal error
               | Ok outbound =>
                   if truthy Other truthy_other (returnDate Other requestData) then
                     match template Other toString (returnDate Other requestData) with
                     | Throw error => internal error
                     | Ok back =>
                         match query (to ++ code_units "-" ++ from
                                      ++ code_units "-" ++ back) with
                         | Throw error => internal error
                         | Ok inbound =>
                             createResponse 200
                               (FlightsBody
                                  (SearchFlights.applyDynamicPricing now outbound)
                                  (Some (SearchFlights.applyDynamicPricing now' inbound)))
                         end
                     end
                   else
                     createResponse 200
                       (FlightsBody (SearchFlights.applyDynamicPricing now outbound)
                          None)
               end
           end).
Proof.
  intros answer internal. subst answer internal.
  unfold acceptable, handler, no_text.
  destruct (truthy Other truthy_other (origin Other requestData)) eqn:Horigin;
    cbn [negb orb andb].
  2: { split; [|discriminate]. intros _. split; [done|]. split; [by left|].
       split; [discriminate|]. by intros (? & _). }
  destruct (truthy Other truthy_other (destination Other requestData)) eqn:Hdestination;
    cbn [negb orb andb].
  2: { split; [|discriminate]. intros _. split; [done|]. split; [by left|].
       split; [discriminate|]. by intros (_ & ? & _). }
  destruct (truthy Other truthy_other (departDate Other requestData)) eqn:Hdepart;
    cbn [negb orb andb].
  2: { split; [|discriminate]. intros _. split; [done|]. split; [by left|].
       split; [discriminate|]. by intros (_ & _ & ? & _). }
  destruct (origin Other requestData) as [[from|v]|] eqn:Hfrom; [| |discriminate].
  2: { cbn [validateIATACode passes andb]. split; [|discriminate]. intros _.
       split; [done|]. split; [by right|]. split; [|done]. intros _.
       repeat split. left. by exists v. }
  cbn [validateIATACode passes].
  destruct (bool_decide (toUpperCase from ∈ map code_units validIATACodes))
    eqn:Hfrom_code; cbn [andb].
  2: { split; [|discriminate]. intros _. split; [done|]. split; [by left|].
       split; [discriminate|].
       intros (_ & _ & _ & [[v [=]]|[[=] _]]). }
  destruct (destination Other requestData) as [[to|v]|] eqn:Hto; [| |discriminate].
  2: { cbn [validateIATACode passes andb]. split; [|discriminate]. intros _.
       split; [done|]. split; [by right|]. split; [|done]. intros _.
       repeat split. right. split; [done|]. by exists v. }
  cbn [validateIATACode passes].
  destruct (bool_decide (toUpperCase to ∈ map code_units validIATACodes))
    eqn:Hto_code; cbn [andb].
  2: { split; [|discriminate]. intros _. split; [done|]. split; [by left|].
       split; [discriminate|].
       intros (_ & _ & _ & [[v [=]]|[_ [v [=]]]]). }
  destruct (validateDates Other truthy_other parseDate today
              (departDate Other requestData) (returnDate Other requestData));
    cbn [negb].
  2: { split; [|discriminate]. intros _. split; [done|]. split; [by left|].
       split; [discriminate|].
       intros (_ & _ & _ & [[v [=]]|[_ [v [=]]]]). }
  split; [discriminate|]. intros _. exists from, to. split; [done|]. split; [done|].
  unfold searchFlights. cbn [template].
  destruct (template Other toString (departDate Other requestData)) as [depart|error];
    [|done].
  destruct (query _) as [outbound|error]; [|done].
  destruct (truthy Other truthy_other (returnDate Other requestData)); [|done].
  destruct (template Other toString (returnDate Other requestData)) as [back|error];
    [|done].
  by destruct (query _).
Qed.

End SearchHandlerProps.


(** * The payment data and the handler of [payment-processor.js] *)


Module PaymentDataProps.
Import Pattern PatternProps PaymentProcessor PaymentProps PaymentData.

Lemma split_slash_nonempty (s : string) : split_slash s ≠ [].
Proof.
  induction s as [|c s IH]; simpl; [done|].
  case_bool_decide; [done|]. by destruct (split_slash s).
Qed.

Lemma split_slash_plain (s : string) :
  Forall (λ c, c ≠ "/"%char) (list_ascii_of_string s) → split_slash s = [s].
Proof.
  induction s as [|c s IH]; simpl; [done|].
  intros [Hc Hs]%Forall_cons. rewrite bool_decide_eq_false_2 by done.
  by rewrite IH.
Qed.

Lemma split_slash_first (s rest : string) :
  Forall (λ c, c ≠ "/"%char) (list_ascii_of_string s) →
  split_slash (s +:+ String "/" rest) = s :: split_slash rest.
Proof.
  induction s as [|c s IH]; simpl; [done|].
  intros [Hc Hs]%Forall_cons. rewrite bool_decide_eq_false_2 by done.
  by rewrite IH.
Qed.

Lemma month_start_after_plain (now : Date) (year monthIndex : Z) :
  (0 ≤ monthIndex ≤ 11)%Z → (100 ≤ year ≤ 275759)%Z →
  month_start_after now year monthIndex = true
  ↔ (getFullYear now < year
     ∨ (getFullYear now = year ∧ getMonth now < monthIndex))%Z.
Proof.
  intros Hmonth Hyear. unfold month_start_after.
  replace ((0 <=? year)%Z && (year <=? 99)%Z) with false by lia.
  cbv zeta iota. rewrite !andb_true_iff, !orb_true_iff, !andb_true_iff. lia.
Qed.

Lemma isValidExpiryDate_parts (now : Date) (monthStr yearStr rest : string)
    (month y : Z) :
  Forall (λ c, c ≠ "/"%char) (list_ascii_of_string monthStr) →
  parseInt (Some monthStr) = Some month →
  split_slash rest !! 0 = Some yearStr →
  parseInt (Some yearStr) = Some y →
  isValidExpiryDate now (monthStr +:+ String "/" rest)
  = bool_decide (1 ≤ month ≤ 12)%Z && month_start_after now (2000 + y) (month - 1).
Proof.
  intros Hmonth Hm Hyear Hy. unfold isValidExpiryDate.
  rewrite split_slash_first by done.
  change ((monthStr :: split_slash rest) !! 0) with (Some monthStr).
  change ((monthStr :: split_slash rest) !! 1) with (split_slash rest !! 0).
  rewrite Hyear, Hm, Hy. cbn [fmap option_fmap option_map].
  destruct (bool_decide (1 ≤ month ≤ 12)%Z) eqn:Hrange.
  - apply bool_decide_eq_true in Hrange.
    by replace ((month <? 1)%Z || (12 <? month)%Z) with false by lia.
  - apply bool_decide_eq_false in Hrange.
    by replace ((month <? 1)%Z || (12 <? month)%Z) with true by lia.
Qed.

(** X21: an expiry date without a slash is rejected, and so is one whose
    first part parses to a number that is no month from 1 to 12. When the
    first part parses to a month m from 1 to 12 and the rest, free of
    slashes, to a number y from -1900 to 273759, the date is accepted
    exactly when the month m of the year 2000 + y is a later month than the
    current one; a card is thus rejected during the month it expires in. *)
Theorem isValidExpiryDate_accepts (now : Date) :
  (∀ expiryDate,
     Forall (λ c, c ≠ "/"%char) (list_ascii_of_string expiryDate) →
     isValidExpiryDate now expiryDate = false)
  ∧ (∀ monthStr rest month,
       Forall (λ c, c ≠ "/"%char) (list_ascii_of_string monthStr) →
       parseInt (Some monthStr) = Some month → ¬ (1 ≤ month ≤ 12)%Z →
       isValidExpiryDate now (monthStr +:+ String "/" rest) = false)
  ∧ (∀ monthStr yearStr month y,
       Forall (λ c, c ≠ "/"%char) (list_ascii_of_string monthStr) →
       Forall (λ c, c ≠ "/"%char) (list_ascii_of_string yearStr) →
       parseInt (Some monthStr) = Some month → parseInt (Some yearStr) = Some y →
       (1 ≤ month ≤ 12)%Z → (-1900 ≤ y ≤ 273759)%Z →
       (isValidExpiryDate now (monthStr +:+ String "/" yearStr) = true
        ↔ (getFullYear now < 2000 + y
           ∨ (getFullYear now = 2000 + y ∧ getMonth now < month - 1))%Z)
       ∧ ((2000 + y = getFullYear now)%Z → (month - 1 = getMonth now)%Z →
          isValidExpiryDate now (monthStr +:+ String "/" yearStr) = false)).
Proof.
  split; [|split].
  - intros expiryDate Hplain. unfold isValidExpiryDate.
    rewrite split_slash_plain by done. simpl.
    by destruct (JS.parseInt (skip_space expiryDate)).
  - intros monthStr rest month Hplain Hmonth Hrange. unfold isValidExpiryDate.
    rewrite split_slash_first by done.
    change ((monthStr :: split_slash rest) !! 0) with (Some monthStr).
    rewrite Hmonth.
    destruct (Z.add 2000 <$> parseInt ((monthStr :: split_slash rest) !! 1)); [|done].
    by replace ((month <? 1)%Z || (12 <? month)%Z) with true by lia.
  - intros monthStr yearStr month y Hm Hy Hmonth Hyear Hrange Hy_range.
    rewrite (isValidExpiryDate_parts now monthStr yearStr yearStr month y);
      [|done|done|by rewrite split_slash_plain|done].
    rewrite bool_decide_eq_true_2 by done. cbn [andb].
    assert (Hplain := month_start_after_plain now (2000 + y) (month - 1)
                        ltac:(lia) ltac:(lia)).
    split; [exact Hplain|].
    intros Hsame_year Hsame_month. apply not_true_is_false. rewrite Hplain. lia.
Qed.

Lemma isValidExpiryDate_same_month (now now' : Date) (expiryDate : string) :
  getFullYear now = getFullYear now' → getMonth now = getMonth now' →
  isValidExpiryDate now expiryDate = isValidExpiryDate now' expiryDate.
Proof.
  intros Hyear Hmonth. unfold isValidExpiryDate, month_start_after.
  by rewrite Hyear, Hmonth.
Qed.

(** ** The checks of the payment data *)

Section Environment.

Variable toString : Json → Result string.
Variable toNumber : Json → Result float.
Variable accepts : gmap string Json → bool.

Lemma truthy_string (s : string) :
  truthy_value (Some (JString s)) = true ↔ s ≠ "".
Proof.
  simpl. case_bool_decide; split; done.
Qed.

(** Valid payment data, field by field. *)
Lemma validatePaymentData_valid (now : Date) (paymentData : PaymentData) :
  validatePaymentData toString toNumber now paymentData = Ok Valid
  ↔ ∃ card expiry fields price,
      cardNumber paymentData = Some (JString card)
      ∧ isValidCardNumber card = true
      ∧ expiryDate paymentData = Some (JString expiry)
      ∧ isValidExpiryDate now expiry = true
      ∧ truthy_value (cvv paymentData) = true
      ∧ checkCVV toString (cvv paymentData) = Ok true
      ∧ truthy_value (cardName paymentData) = true
      ∧ length_below toNumber (cardName paymentData) 2 = Ok false
      ∧ truthy_value (billingAddress paymentData) = true
      ∧ length_below toNumber (billingAddress paymentData) 5 = Ok false
      ∧ bookingData paymentData = Some (JObject fields)
      ∧ truthy_value (fields !! "flights") = true
      ∧ truthy_value (fields !! "seats") = true
      ∧ truthy_value (fields !! "passengers") = true
      ∧ fields !! "totalPrice" = Some (JNumber price)
      ∧ PrimFloat.leb price 0 = false.
Proof.
  unfold validatePaymentData. cbv zeta. split.
  - destruct (truthy_value (cardNumber paymentData)) eqn:Hcard_truthy;
      cbn [negb and_then]; [|discriminate].
    destruct (cardNumber paymentData) as [[| | |card| |]|];
      cbn [checkCardNumber negate and_then]; try discriminate.
    destruct (isValidCardNumber card) eqn:Hcard; cbn [negb]; [|discriminate].
    destruct (truthy_value (expiryDate paymentData)) eqn:Hexpiry_truthy;
      cbn [negb and_then]; [|discriminate].
    destruct (expiryDate paymentData) as [[| | |expiry| |]|];
      cbn [checkExpiryDate negate and_then]; try discriminate.
    destruct (isValidExpiryDate now expiry) eqn:Hexpiry; cbn [negb]; [|discriminate].
    destruct (truthy_value (cvv paymentData)) eqn:Hcvv_truthy;
      cbn [negb and_then]; [|discriminate].
    unfold negate.
    destruct (checkCVV toString (cvv paymentData)) as [[|]|] eqn:Hcvv;
      cbn [negb and_then]; try discriminate.
    destruct (truthy_value (cardName paymentData)) eqn:Hname_truthy;
      cbn [negb and_then]; [|discriminate].
    destruct (length_below toNumber (cardName paymentData) 2) as [[|]|] eqn:Hname;
      cbn [and_then]; try discriminate.
    destruct (truthy_value (billingAddress paymentData)) eqn:Haddress_truthy;
      cbn [negb and_then]; [|discriminate].
    destruct (length_below toNumber (billingAddress paymentData) 5) as [[|]|]
      eqn:Haddress; cbn [and_then]; try discriminate.
    destruct (bookingData paymentData) as [[| | | | |fields]|];
      cbn [truthy_value get negb orb]; try discriminate;
      try (destruct b; discriminate);
      try (destruct (negb (PrimFloat.eqb x 0 || isNaN x)); discriminate);
      try (destruct (negb (bool_decide (s = ""))); discriminate).
    destruct (truthy_value (fields !! "flights")) eqn:Hflights; cbn [negb orb];
      [|discriminate].
    destruct (truthy_value (fields !! "seats")) eqn:Hseats; cbn [negb orb];
      [|discriminate].
    destruct (truthy_value (fields !! "passengers")) eqn:Hpassengers; cbn [negb orb];
      [|discriminate].
    destruct (fields !! "totalPrice") as [[| |price| | |]|] eqn:Htotal;
      try discriminate.
    destruct (PrimFloat.leb price 0) eqn:Hprice; [discriminate|].
    intros _. exists card, expiry, fields, price. by repeat split.
  - intros (card & expiry & fields & price
            & -> & Hcard & -> & Hexpiry & -> & -> & -> & -> & -> & ->
            & -> & Hflights & Hseats & Hpassengers & Htotal & Hprice).
    assert (Hcard_truthy : truthy_value (Some (JString card)) = true).
    { apply truthy_string. intros ->. discriminate Hcard. }
    assert (Hexpiry_truthy : truthy_value (Some (JString expiry)) = true).
    { apply truthy_string. intros ->. discriminate Hexpiry. }
    rewrite Hcard_truthy, Hexpiry_truthy.
    cbn [checkCardNumber checkExpiryDate negate negb and_then truthy_value get orb].
    rewrite Hcard, Hexpiry. cbn [negb].
    by rewrite Hflights, Hseats, Hpassengers, Htotal, Hprice.
Qed.

Lemma validatePaymentData_expiry (now : Date) (paymentData : PaymentData) :
  validatePaymentData toString toNumber now paymentData = Ok Valid →
  ∃ expiry, expiryDate paymentData = Some (JString expiry)
            ∧ isValidExpiryDate now expiry = true.
Proof.
  intros (card & expiry & fields & price & _ & _ & Hdate & Hexpiry & _)
           %validatePaymentData_valid.
  by exists expiry.
Qed.

(** X22: payment data is valid exactly when the card number is a string
    that passes the card check, the expiry date a string that passes the
    expiry check, the CVV a truthy value that, as a string, passes the CVV
    check, the card name and the billing address are truthy values whose
    length is not below 2 and below 5, and the booking data is an object
    whose flights, seats and passengers are truthy and whose total price is
    a number that is not zero or less. The length of a string or of an
    array is the number of its elements, but a number and [true] have no
    length and pass the check as card name and as billing address. A
    truthy card number or expiry date that is no string makes the
    validation throw, and when each of the five card fields is a string or
    absent it does not throw. Valid payment data passes the expiry check
    that [processPayment] makes in the same month: the payment is then paid
    or declined by chance alone. *)
Theorem validatePaymentData_accepts (now : Date) (paymentData : PaymentData) :
  (validatePaymentData toString toNumber now paymentData = Ok Valid
   ↔ ∃ card expiry fields price,
       cardNumber paymentData = Some (JString card)
       ∧ isValidCardNumber card = true
       ∧ expiryDate paymentData = Some (JString expiry)
       ∧ isValidExpiryDate now expiry = true
       ∧ truthy_value (cvv paymentData) = true
       ∧ checkCVV toString (cvv paymentData) = Ok true
       ∧ truthy_value (cardName paymentData) = true
       ∧ length_below toNumber (cardName paymentData) 2 = Ok false
       ∧ truthy_value (billingAddress paymentData) = true
       ∧ length_below toNumber (billingAddress paymentData) 5 = Ok false
       ∧ bookingData paymentData = Some (JObject fields)
       ∧ truthy_value (fields !! "flights") = true
       ∧ truthy_value (fields !! "seats") = true
       ∧ truthy_value (fields !! "passengers") = true
       ∧ fields !! "totalPrice" = Some (JNumber price)
       ∧ PrimFloat.leb price 0 = false)
  ∧ (∀ (s : string) (items : list Json) (x : float) (n : nat),
       checkCVV toString (Some (JString s)) = Ok (isValidCVV s)
       ∧ (length_below toNumber (Some (JString s)) n = Ok false ↔ n ≤ String.length s)
       ∧ (length_below toNumber (Some (JArray items)) n = Ok false ↔ n ≤ length items)
       ∧ length_below toNumber (Some (JNumber x)) n = Ok false
       ∧ length_below toNumber (Some (JBool true)) n = Ok false)
  ∧ (truthy_value (cardNumber paymentData) = true →
     (∀ s, cardNumber paymentData ≠ Some (JString s)) →
     validatePaymentData toString toNumber now paymentData
     = Throw (TypeError "cardNumber.replace is not a function"))
  ∧ (∀ card, cardNumber paymentData = Some (JString card) →
     isValidCardNumber card = true →
     truthy_value (expiryDate paymentData) = true →
     (∀ s, expiryDate paymentData ≠ Some (JString s)) →
     validatePaymentData toString toNumber now paymentData
     = Throw (TypeError "expiryDate.split is not a function"))
  ∧ (text_or_absent (cardNumber paymentData) →
     text_or_absent (expiryDate paymentData) →
     text_or_absent (cvv paymentData) →
     text_or_absent (cardName paymentData) →
     text_or_absent (billingAddress paymentData) →
     ∃ validation,
       validatePaymentData toString toNumber now paymentData = Ok validation)
  ∧ (validatePaymentData toString toNumber now paymentData = Ok Valid →
     ∀ now' shouldSucceed paymentId,
       getFullYear now' = getFullYear now → getMonth now' = getMonth now →
       processPayment now' shouldSucceed paymentId paymentData
       = Ok (if shouldSucceed then Paid paymentId
             else Declined "Payment declined. Please try a different card.")).
Proof.
  split; [apply validatePaymentData_valid|].
  split; [|split; [|split; [|split]]].
  - intros s items x n. cbn [checkCVV length_below].
    split; [done|]. split; [|split; [|done]].
    + destruct (String.length s <? n) eqn:Hlen.
      * apply Nat.ltb_lt in Hlen. split; [discriminate|lia].
      * apply Nat.ltb_ge in Hlen. by split.
    + destruct (length items <? n) eqn:Hlen.
      * apply Nat.ltb_lt in Hlen. split; [discriminate|lia].
      * apply Nat.ltb_ge in Hlen. by split.
  - intros Htruthy Hno_string. unfold validatePaymentData. cbv zeta.
    rewrite Htruthy. cbn [negb].
    destruct (cardNumber paymentData) as [[| | |card| |]|]; try done.
    by destruct (Hno_string card).
  - intros card Hcard Hvalid Htruthy Hno_string. unfold validatePaymentData. cbv zeta.
    assert (Hcard_truthy : truthy_value (Some (JString card)) = true).
    { apply truthy_string. intros ->. discriminate Hvalid. }
    rewrite Hcard, Hcard_truthy.
    cbn [negb checkCardNumber negate and_then]. rewrite Hvalid. cbn [negb].
    rewrite Htruthy. cbn [negb].
    destruct (expiryDate paymentData) as [[| | |expiry| |]|]; try done.
    by destruct (Hno_string expiry).
  - intros Hcard Hexpiry Hcvv Hname Haddress. unfold validatePaymentData. cbv zeta.
    assert (Hfield : ∀ field, text_or_absent field →
              truthy_value field = false ∨ ∃ s, field = Some (JString s)).
    { intros field [->|[s ->]]; [by left|right; by exists s]. }
    destruct (Hfield _ Hcard) as [->|[card ->]]; cbn [negb and_then]; [by eexists|].
    destruct (truthy_value (Some (JString card))); cbn [negb and_then]; [|by eexists].
    cbn [checkCardNumber negate and_then].
    destruct (negb (isValidCardNumber card)); [by eexists|].
    destruct (Hfield _ Hexpiry) as [->|[expiry ->]]; cbn [negb and_then]; [by eexists|].
    destruct (truthy_value (Some (JString expiry))); cbn [negb and_then]; [|by eexists].
    cbn [checkExpiryDate negate and_then].
    destruct (negb (isValidExpiryDate now expiry)); [by eexists|].
    destruct (Hfield _ Hcvv) as [->|[code ->]]; cbn [negb and_then]; [by eexists|].
    destruct (truthy_value (Some (JString code))); cbn [negb and_then]; [|by eexists].
    cbn [checkCVV negate and_then].
    destruct (negb (isValidCVV code)); [by eexists|].
    destruct (Hfield _ Hname) as [->|[name ->]]; cbn [negb and_then]; [by eexists|].
    destruct (truthy_value (Some (JString name))); cbn [negb and_then]; [|by eexists].
    cbn [length_below and_then].
    destruct (String.length name <? 2); [by eexists|].
    destruct (Hfield _ Haddress) as [->|[address ->]]; cbn [negb and_then];
      [by eexists|].
    destruct (truthy_value (Some (JString address))); cbn [negb and_then];
      [|by eexists].
    cbn [length_below and_then].
    destruct (String.length address <? 5); [by eexists|].
    destruct (_ || _); [by eexists|].
    destruct (get (bookingData paymentData) "totalPrice") as [[| |price| | |]|];
      try by eexists.
    destruct (PrimFloat.leb price 0); by eexists.
  - intros (expiry & Hdate & Hexpiry)%validatePaymentData_expiry
           now' shouldSucceed paymentId Hyear Hmonth.
    unfold processPayment. rewrite Hdate. cbn [checkExpiryDate and_then].
    rewrite (isValidExpiryDate_same_month now' now) by done.
    rewrite Hexpiry. by destruct shouldSucceed.
Qed.

(** ** The handler *)

Lemma booking_item_bookingRef (bookingRef paymentId timestamp : string)
    (booking : gmap string Json) :
  booking_item bookingRef paymentId timestamp booking !! "bookingRef"
  = Some (default (JString bookingRef) (booking !! "bookingRef")).
Proof.
  unfold booking_item.
  rewrite lookup_insert_ne, lookup_insert_ne, lookup_union by done.
  destruct (booking !! "bookingRef") as [v|]; [by rewrite union_Some_l|].
  rewrite left_id by apply _.
  by rewrite lookup_insert_ne, lookup_singleton_eq.
Qed.

Lemma booking_item_status (bookingRef paymentId timestamp : string)
    (booking : gmap string Json) :
  booking_item bookingRef paymentId timestamp booking !! "status"
  = Some (JString "CONFIRMED")
  ∧ booking_item bookingRef paymentId timestamp booking !! "timestamp"
    = Some (JString timestamp).
Proof.
  unfold booking_item. split.
  - by rewrite lookup_insert_ne, lookup_insert_eq.
  - by rewrite lookup_insert_eq.
Qed.

Lemma saveBooking_cases (t : Bookings) (item : gmap string Json) :
  match item_key accepts t item with
  | Some key => saveBooking accepts t item = (Ok tt, <[key := item]> t)
  | None => saveBooking accepts t item = (Throw (JsError "Failed to save booking"), t)
  end.
Proof.
  unfold item_key, saveBooking, put_item.
  destruct (accepts item); cbn [negb]; [|done].
  destruct (item !! "bookingRef") as [[| | |key| |]|]; try done.
  case_bool_decide; [done|]. by destruct (t !! key).
Qed.

Lemma item_key_spec (t : Bookings) (item : gmap string Json) (key : string) :
  item_key accepts t item = Some key
  ↔ accepts item = true
    ∧ item !! "bookingRef" = Some (JString key) ∧ key ≠ "" ∧ t !! key = None.
Proof.
  unfold item_key. split.
  - destruct (accepts item); cbn [negb]; [|done].
    destruct (item !! "bookingRef") as [[| | |key'| |]|]; try done.
    case_bool_decide; [done|].
    destruct (t !! key') eqn:Ht; [done|]. by intros [= <-].
  - intros (-> & -> & Hkey & ->). cbn [negb]. by rewrite bool_decide_eq_false_2.
Qed.

(** The handler, by cases. *)
Lemma handler_cases (now now' : Date) (shouldSucceed : bool)
    (paymentId bookingRef timestamp : string) (event : PaymentData) (t : Bookings) :
  handler toString toNumber accepts now now' shouldSucceed paymentId bookingRef
    timestamp event t
  = if is_options (httpMethod event)
    then (createResponse 200 EmptyBody, t)
    else
      match validatePaymentData toString toNumber now event with
      | Throw error =>
          (createResponse 500
             (FailureBody "Internal server error" (Some (error_message error))), t)
      | Ok (Invalid error) => (createResponse 400 (FailureBody error None), t)
      | Ok Valid =>
          if negb (isValidExpiryDate now'
                     match expiryDate event with
                     | Some (JString expiry) => expiry
                     | _ => ""
                     end)
          then (createResponse 400 (FailureBody "Card has expired" None), t)
          else if shouldSucceed then
            let item := booking_item bookingRef paymentId timestamp
                          (properties (bookingData event)) in
            match item_key accepts t item with
            | Some key =>
                (createResponse 200 (SuccessBody bookingRef paymentId),
                 <[key := item]> t)
            | None =>
                (createResponse 500
                   (FailureBody "Failed to save booking details" None), t)
            end
          else
            (createResponse 400
               (FailureBody "Payment declined. Please try a different card." None), t)
      end.
Proof.
  unfold handler. destruct (is_options (httpMethod event)); [done|]. cbv zeta.
  destruct (validatePaymentData toString toNumber now event) as [[error|]|error]
    eqn:Hvalid; [done| |done].
  destruct (validatePaymentData_expiry now event Hvalid) as (expiry & Hdate & _).
  unfold processPayment. rewrite Hdate. cbn [checkExpiryDate and_then].
  destruct (isValidExpiryDate now' expiry); cbn [negb]; [|done].
  destruct shouldSucceed; [|done].
  assert (Hsave := saveBooking_cases t
            (booking_item bookingRef paymentId timestamp
               (properties (bookingData event)))).
  destruct (item_key accepts t _) as [key|]; by rewrite Hsave.
Qed.

Lemma handler_valid (now now' : Date) (paymentId bookingRef timestamp : string)
    (event : PaymentData) (t : Bookings) :
  is_options (httpMethod event) = false →
  validatePaymentData toString toNumber now event = Ok Valid →
  validatePaymentData toString toNumber now' event = Ok Valid →
  handler toString toNumber accepts now now' true paymentId bookingRef timestamp
    event t
  = match
      item_key accepts t
        (booking_item bookingRef paymentId timestamp (properties (bookingData event)))
    with
    | Some key =>
        (createResponse 200 (SuccessBody bookingRef paymentId),
         <[key := booking_item bookingRef paymentId timestamp
                    (properties (bookingData event))]> t)
    | None =>
        (createResponse 500 (FailureBody "Failed to save booking details" None), t)
    end.
Proof.
  intros Hmethod Hvalid Hvalid'. rewrite handler_cases.
  rewrite Hmethod, Hvalid.
  destruct (validatePaymentData_expiry now' event Hvalid') as (expiry & -> & Hexpiry).
  by rewrite Hexpiry.
Qed.

(** X23: the handler never replaces nor removes a booking. The table after
    a call holds every booking that it held before; a key whose entry is
    not the one from before was free, holds the item of this call, and the
    call was answered 200 with the reference and the payment identifier. *)
Theorem handler_keeps_bookings (now now' : Date) (shouldSucceed : bool)
    (paymentId bookingRef timestamp : string) (event : PaymentData) (t : Bookings) :
  t ⊆ (handler toString toNumber accepts now now' shouldSucceed paymentId bookingRef
         timestamp event t).2
  ∧ ∀ key,
      (handler toString toNumber accepts now now' shouldSucceed paymentId bookingRef
         timestamp event t).2 !! key
      ≠ t !! key →
      t !! key = None
      ∧ (handler toString toNumber accepts now now' shouldSucceed paymentId bookingRef
           timestamp event t).2
        = <[key := booking_item bookingRef paymentId timestamp
                     (properties (bookingData event))]> t
      ∧ (handler toString toNumber accepts now now' shouldSucceed paymentId bookingRef
           timestamp event t).1
        = createResponse 200 (SuccessBody bookingRef paymentId).
Proof.
  rewrite handler_cases. destruct (is_options (httpMethod event)); [by split|].
  destruct (validatePaymentData toString toNumber now event) as [[error|]|error];
    [by split| |by split].
  destruct (negb _); [by split|].
  destruct shouldSucceed; [|by split]. cbv zeta.
  destruct (item_key accepts t _) as [key|] eqn:Hkey; [|by split].
  apply item_key_spec in Hkey as (_ & _ & _ & Hfree).
  cbn [fst snd]. split; [by apply insert_subseteq|].
  intros key' Hne.
  destruct (decide (key' = key)) as [->|Hother]; [done|].
  by rewrite lookup_insert_ne in Hne.
Qed.

(** X24: what the handler answers and stores. Either the request is no
    OPTIONS request, the payment data is valid, the card has not expired
    when the payment is processed, the payment succeeds and the item, with
    the status CONFIRMED and the time stamp of the call, is one that the
    client and the table accept and has a non-empty string as [bookingRef]
    under which nothing is stored: then the item is stored under it and the
    answer is 200 with the reference drawn and the payment identifier. Or
    the table stays as it is and the answer is: 200 with an empty body for
    OPTIONS; 500 with the message of the error when the validation throws;
    400 with the message of the validation; 400 for a card that has expired
    in between; 400 for a declined payment; and 500 when the payment
    succeeded but the item is not accepted or has no, an empty or a taken
    [bookingRef]. *)
Theorem handler_outcome (now now' : Date) (shouldSucceed : bool)
    (paymentId bookingRef timestamp : string) (event : PaymentData) (t : Bookings) :
  let item := booking_item bookingRef paymentId timestamp
                (properties (bookingData event)) in
  let answer := handler toString toNumber accepts now now' shouldSucceed paymentId
                  bookingRef timestamp event t in
  (∃ key expiry,
      is_options (httpMethod event) = false
      ∧ validatePaymentData toString toNumber now event = Ok Valid
      ∧ expiryDate event = Some (JString expiry)
      ∧ isValidExpiryDate now' expiry = true
      ∧ shouldSucceed = true
      ∧ accepts item = true
      ∧ item !! "bookingRef" = Some (JString key) ∧ key ≠ "" ∧ t !! key = None
      ∧ item !! "status" = Some (JString "CONFIRMED")
      ∧ item !! "timestamp" = Some (JString timestamp)
      ∧ answer
        = (createResponse 200 (SuccessBody bookingRef paymentId), <[key := item]> t))
  ∨ (∃ response,
      answer = (response, t)
      ∧ (if is_options (httpMethod event)
         then response = createResponse 200 EmptyBody
         else
           match validatePaymentData toString toNumber now event with
           | Throw error =>
               response
               = createResponse 500
                   (FailureBody "Internal server error" (Some (error_message error)))
           | Ok (Invalid error) =>
               response = createResponse 400 (FailureBody error None)
           | Ok Valid =>
               ∃ expiry,
                 expiryDate event = Some (JString expiry)
                 ∧ if negb (isValidExpiryDate now' expiry)
                   then response
                        = createResponse 400 (FailureBody "Card has expired" None)
                   else if shouldSucceed
                   then response
                        = createResponse 500
                            (FailureBody "Failed to save booking details" None)
                        ∧ (accepts item = false
                           ∨ ∀ key, item !! "bookingRef" = Some (JString key) →
                                    key = "" ∨ is_Some (t !! key))
                   else response
                        = createResponse 400
                            (FailureBody
                               "Payment declined. Please try a different card." None)
           end)).
Proof.
  intros item answer. subst answer. rewrite handler_cases. cbv zeta. fold item.
  destruct (is_options (httpMethod event)) eqn:Hmethod; [right; by eexists|].
  destruct (validatePaymentData toString toNumber now event) as [[error|]|error]
    eqn:Hvalid; [right; by eexists| |right; by eexists].
  destruct (validatePaymentData_expiry now event Hvalid) as (expiry & Hdate & _).
  rewrite Hdate.
  destruct (isValidExpiryDate now' expiry) eqn:Hexpiry; cbn [negb].
  2: { right. eexists. split; [done|]. exists expiry. by rewrite Hexpiry. }
  destruct shouldSucceed.
  2: { right. eexists. split; [done|]. exists expiry. by rewrite Hexpiry. }
  destruct (item_key accepts t item) as [key|] eqn:Hkey.
  - left. exists key, expiry.
    apply item_key_spec in Hkey as (Haccepts & Hitem & Hne & Hfree).
    destruct (booking_item_status bookingRef paymentId timestamp
                (properties (bookingData event))) as [Hstatus Htimestamp].
    by repeat split.
  - right. eexists. split; [done|]. exists expiry. rewrite Hexpiry. cbn [negb].
    split; [done|]. split; [done|].
    destruct (accepts item) eqn:Haccepts; [right|by left].
    intros key Hitem. destruct (decide (key = "")) as [|Hne]; [by left|].
    right. destruct (t !! key) eqn:Ht; [done|].
    assert (item_key accepts t item = Some key) by by apply item_key_spec.
    congruence.
Qed.

(** X25: booking data that has a [bookingRef] of its own decides where the
    booking is stored, on a table whose key is [bookingRef]. For valid
    payment data whose payment succeeds and an item that the client and the
    table accept: when that [bookingRef] is a non-empty string under which
    nothing is stored, the booking is stored under it, whereas the answer
    gives the reference that was drawn; when it is empty, taken, or no
    string, the answer is 500 and nothing is stored, whatever reference was
    drawn. The payment identifier of the booking data, too, takes the place
    of the one of the payment in the item; the status and the time stamp
    are those of the handler. *)
Theorem handler_reference_of_booking_data (now now' : Date)
    (paymentId bookingRef timestamp : string) (event : PaymentData)
    (booking : gmap string Json) (v : Json) (t : Bookings) :
  is_options (httpMethod event) = false →
  validatePaymentData toString toNumber now event = Ok Valid →
  validatePaymentData toString toNumber now' event = Ok Valid →
  bookingData event = Some (JObject booking) →
  booking !! "bookingRef" = Some v →
  accepts (booking_item bookingRef paymentId timestamp booking) = true →
  handler toString toNumber accepts now now' true paymentId bookingRef timestamp
    event t
  = match v with
    | JString own =>
        if bool_decide (own ≠ "" ∧ t !! own = None)
        then (createResponse 200 (SuccessBody bookingRef paymentId),
              <[own := booking_item bookingRef paymentId timestamp booking]> t)
        else (createResponse 500
                (FailureBody "Failed to save booking details" None), t)
    | _ => (createResponse 500
              (FailureBody "Failed to save booking details" None), t)
    end
  ∧ booking_item bookingRef paymentId timestamp booking !! "bookingRef" = Some v
  ∧ booking_item bookingRef paymentId timestamp booking !! "paymentId"
    = Some (default (JString paymentId) (booking !! "paymentId"))
  ∧ booking_item bookingRef paymentId timestamp booking !! "status"
    = Some (JString "CONFIRMED")
  ∧ booking_item bookingRef paymentId timestamp booking !! "timestamp"
    = Some (JString timestamp).
Proof.
  intros Hmethod Hvalid Hvalid' Hbooking Hown Haccepts.
  split; [|split; [|split; [|apply booking_item_status]]].
  - rewrite (handler_valid now now' paymentId bookingRef timestamp event t) by done.
    rewrite Hbooking. cbn [properties].
    unfold item_key. rewrite Haccepts, booking_item_bookingRef, Hown.
    cbn [negb default from_option Datatypes.id].
    destruct v as [| | |own| |]; try done.
    destruct (decide (own = "")) as [->|Hne].
    { rewrite bool_decide_eq_true_2 by done.
      rewrite (bool_decide_eq_false_2 (_ ∧ _)); [done|]. by intros [? _]. }
    rewrite (bool_decide_eq_false_2 (own = "")) by done.
    destruct (t !! own) eqn:Ht.
    + rewrite bool_decide_eq_false_2; [done|]. by intros [_ ?].
    + by rewrite bool_decide_eq_true_2.
  - by rewrite booking_item_bookingRef, Hown.
  - unfold booking_item.
    rewrite lookup_insert_ne, lookup_insert_ne, lookup_union by done.
    destruct (booking !! "paymentId") as [w|]; [by rewrite union_Some_l|].
    rewrite left_id by apply _. by rewrite lookup_insert_eq.
Qed.

(** X26: on a table whose key is [bookingRef], when the reference drawn for
    a booking is drawn again for another one (neither booking data having a
    [bookingRef] of its own, both payment data valid, both payments
    successful, both items accepted by the client and the table), the first
    booking is stored and answered 200, and the second is answered 500
    after its payment succeeded, and leaves the table with the first
    booking as it is. *)
Theorem handler_same_reference_twice (now1 now1' now2 now2' : Date)
    (paymentId paymentId' bookingRef timestamp timestamp' : string)
    (event event' : PaymentData) (booking booking' : gmap string Json) (t : Bookings) :
  is_options (httpMethod event) = false →
  is_options (httpMethod event') = false →
  validatePaymentData toString toNumber now1 event = Ok Valid →
  validatePaymentData toString toNumber now1' event = Ok Valid →
  validatePaymentData toString toNumber now2 event' = Ok Valid →
  validatePaymentData toString toNumber now2' event' = Ok Valid →
  bookingData event = Some (JObject booking) →
  bookingData event' = Some (JObject booking') →
  booking !! "bookingRef" = None →
  booking' !! "bookingRef" = None →
  accepts (booking_item bookingRef paymentId timestamp booking) = true →
  bookingRef ≠ "" →
  t !! bookingRef = None →
  let first := handler toString toNumber accepts now1 now1' true paymentId bookingRef
                 timestamp event t in
  first = (createResponse 200 (SuccessBody bookingRef paymentId),
           <[bookingRef := booking_item bookingRef paymentId timestamp booking]> t)
  ∧ handler toString toNumber accepts now2 now2' true paymentId' bookingRef timestamp'
      event' first.2
    = (createResponse 500 (FailureBody "Failed to save booking details" None),
       first.2).
Proof.
  intros Hmethod Hmethod' Hvalid1 Hvalid1' Hvalid2 Hvalid2' Hbooking Hbooking'
         Hown Hown' Haccepts Hne Hfree first.
  assert (Hfirst : first
    = (createResponse 200 (SuccessBody bookingRef paymentId),
       <[bookingRef := booking_item bookingRef paymentId timestamp booking]> t)).
  { unfold first.
    rewrite (handler_valid now1 now1' paymentId bookingRef timestamp event t) by done.
    rewrite Hbooking. cbn [properties].
    assert (Hkey : item_key accepts t
                     (booking_item bookingRef paymentId timestamp booking)
                   = Some bookingRef).
    { apply item_key_spec. by rewrite booking_item_bookingRef, Hown. }
    by rewrite Hkey. }
  split; [exact Hfirst|]. rewrite Hfirst. cbn [snd].
  rewrite (handler_valid now2 now2' paymentId' bookingRef timestamp' event') by done.
  rewrite Hbooking'. cbn [properties].
  destruct (item_key accepts _ _) as [key|] eqn:Hkey; [|done].
  apply item_key_spec in Hkey as (_ & Hitem & _ & Htaken).
  rewrite booking_item_bookingRef, Hown' in Hitem.
  injection Hitem as <-. by rewrite lookup_insert_eq in Htaken.
Qed.

End Environment.

Lemma handler_reference_of_booking_data_witness :
  handler toString0 toNumber0 accepts0 now0 now0 true "PAY-1" "ABC123"
    "2024-06-15T10:00:00.000Z"
    (event0 (<["bookingRef" := JString "MINE01"]> booking0)) ∅
  = (createResponse 200 (SuccessBody "ABC123" "PAY-1"),
     <["MINE01" := booking_item "ABC123" "PAY-1" "2024-06-15T10:00:00.000Z"
                     (<["bookingRef" := JString "MINE01"]> booking0)]> ∅).
Proof.
  etransitivity.
  - apply (handler_reference_of_booking_data toString0 toNumber0 accepts0 now0 now0
             "PAY-1" "ABC123" "2024-06-15T10:00:00.000Z"
             (event0 (<["bookingRef" := JString "MINE01"]> booking0))
             (<["bookingRef" := JString "MINE01"]> booking0) (JString "MINE01") ∅).
    + reflexivity.
    + vm_compute. reflexivity.
    + vm_compute. reflexivity.
    + reflexivity.
    + vm_compute. reflexivity.
    + reflexivity.
  - rewrite bool_decide_eq_true_2; [reflexivity|]. split; [discriminate|reflexivity].
Defined.

Lemma handler_same_reference_twice_witness :
  let first := handler toString0 toNumber0 accepts0 now0 now0 true "PAY-1" "ABC123"
                 "2024-06-15T10:00:00.000Z" (event0 booking0) ∅ in
  first = (createResponse 200 (SuccessBody "ABC123" "PAY-1"),
           <["ABC123" := booking_item "ABC123" "PAY-1" "2024-06-15T10:00:00.000Z"
                           booking0]> ∅)
  ∧ handler toString0 toNumber0 accepts0 now0 now0 true "PAY-2" "ABC123"
      "2024-06-15T11:00:00.000Z" (event0 booking0) first.2
    = (createResponse 500 (FailureBody "Failed to save booking details" None),
       first.2).
Proof.
  apply (handler_same_reference_twice toString0 toNumber0 accepts0 now0 now0 now0 now0
           "PAY-1" "PAY-2" "ABC123"
           "2024-06-15T10:00:00.000Z" "2024-06-15T11:00:00.000Z"
           (event0 booking0) (event0 booking0) booking0 booking0 ∅).
  - reflexivity.
  - reflexivity.
  - vm_compute. reflexivity.
  - vm_compute. reflexivity.
  - vm_compute. reflexivity.
  - vm_compute. reflexivity.
  - reflexivity.
  - reflexivity.
  - vm_compute. reflexivity.
  - vm_compute. reflexivity.
  - reflexivity.
  - discriminate.
  - reflexivity.
Defined.

End PaymentDataProps.
